(** * AI-macro-lens: the analyze-meal edge function

    A shallow embedding of [supabase/functions/analyze-meal] (TypeScript on
    Deno) and the properties of its orchestration, admission control, usage
    ledger and response normalizers.

    Conventions of the embedding.
    - A JavaScript string is the list of its UTF-16 code units ([jsstring]).
    - A JavaScript number is an IEEE 754 binary64 value, taken from the
      standard library's executable specification [spec_float] at precision
      53 and maximal exponent 1024.
    - [JSON.parse], [String.prototype.trim], [Math.round] and the regular
      expressions of the source are platform functions; they are modelled
      here after ECMA-262 so that the normalizers can be run on concrete
      provider texts.
    - Network collaborators (identity verifier, HEAD probe, the inference
      providers) answer through an [Env] record; the usage table is an
      explicit state threaded through a small state monad that also logs
      every external interaction.
    - The store answers every query (no failing select, update or insert);
      [.single()] gives its row when exactly one row matches and the error
      PGRST116 otherwise.
    - One request reads the clock once: [today] is the UTC date of all its
      queries, and the first day of the month is taken in UTC as well. *)

From Stdlib Require Import ZArith NArith List Bool Lia String Ascii.
From Stdlib Require Import SpecFloat.
Import ListNotations.

Local Open Scope Z_scope.

(* ------------------------------------------------------------------ *)
(** * JavaScript strings *)

Module JsString.

Definition jsstring := list N.

(** [lit] reads a literal character by character. *)
Definition lit (s : string) : jsstring :=
  map N_of_ascii (list_ascii_of_string s).

(** [jlit] is [lit] for JSON and provider texts: the apostrophe of the
    literal stands for the double quote (code unit 34) of the text. *)
Definition jlit (s : string) : jsstring :=
  map (fun c => if N.eqb c 39 then 34%N else c) (lit s).

Definition len (s : jsstring) : nat := List.length s.

Definition code_eqb (a b : N) : bool := N.eqb a b.

Fixpoint eqb (a b : jsstring) : bool :=
  match a, b with
  | [], [] => true
  | x :: a', y :: b' => code_eqb x y && eqb a' b'
  | _, _ => false
  end.

(** WhiteSpace and LineTerminator of ECMA-262: what [trim] strips and what
    [\s] matches. *)
Definition isWhiteSpace (c : N) : bool :=
  ((9 <=? c) && (c <=? 13) || (c =? 32) || (c =? 160) || (c =? 5760)
   || (8192 <=? c) && (c <=? 8202) || (c =? 8232) || (c =? 8233)
   || (c =? 8239) || (c =? 8287) || (c =? 12288) || (c =? 65279))%N.

Fixpoint dropWhile (p : N -> bool) (s : jsstring) : jsstring :=
  match s with
  | c :: s' => if p c then dropWhile p s' else s
  | [] => []
  end.

Definition trimStart (s : jsstring) : jsstring := dropWhile isWhiteSpace s.
Definition trimEnd (s : jsstring) : jsstring := rev (trimStart (rev s)).
Definition trim (s : jsstring) : jsstring := trimEnd (trimStart s).

Fixpoint startsWith (p s : jsstring) : bool :=
  match p, s with
  | [], _ => true
  | x :: p', y :: s' => code_eqb x y && startsWith p' s'
  | _ :: _, [] => false
  end.

Definition endsWith (p s : jsstring) : bool := startsWith (rev p) (rev s).

(** Canonicalization of the [/i] flag on the ASCII letters; a code unit of
    128 or more never folds onto an ASCII one. *)
Definition foldCase (c : N) : N :=
  if ((97 <=? c) && (c <=? 122))%N then (c - 32)%N else c.

Fixpoint startsWith_ci (p s : jsstring) : bool :=
  match p, s with
  | [], _ => true
  | x :: p', y :: s' => code_eqb (foldCase x) (foldCase y) && startsWith_ci p' s'
  | _ :: _, [] => false
  end.

(** [s.substring(0, n)] *)
Definition substring0 (n : nat) (s : jsstring) : jsstring := firstn n s.

(** [s.replace(/^<fence>\s*/, '')] and its [/i] variant: a literal prefix
    followed by a greedy run of white space, anchored at the start. *)
Definition replace_prefix_ws (ci : bool) (p s : jsstring) : jsstring :=
  if (if ci then startsWith_ci p s else startsWith p s)
  then trimStart (skipn (len p) s)
  else s.

(** [s.replace(/\s*<fence>$/, '')]: the literal suffix at the very end of
    the input together with the white space run in front of it. *)
Definition replace_ws_suffix (p s : jsstring) : jsstring :=
  if endsWith p s
  then trimEnd (firstn (len s - len p) s)
  else s.

(** [s.match(/\{[\s\S]*\}/)]: from the first opening brace to the last
    closing brace behind it. *)
Definition match_braces (s : jsstring) : option jsstring :=
  match dropWhile (fun c => negb (code_eqb c 123)) s with
  | [] => None
  | open :: rest =>
      match rev (dropWhile (fun c => negb (code_eqb c 125)) (rev rest)) with
      | [] => None
      | body => Some (open :: body)
      end
  end.

(** [s.replace(pat, '')] for a literal pattern: the first occurrence goes. *)
Fixpoint remove_first (pat s : jsstring) : jsstring :=
  if startsWith pat s then skipn (len pat) s
  else match s with
       | c :: s' => c :: remove_first pat s'
       | [] => []
       end.

End JsString.
Import JsString.

(* ------------------------------------------------------------------ *)
(** * JavaScript numbers *)

Module JsNumber.

Definition prec : Z := 53.
Definition emax : Z := 1024.

Definition number := spec_float.

Definition add : number -> number -> number := SFadd prec emax.
Definition mul : number -> number -> number := SFmul prec emax.
Definition div : number -> number -> number := SFdiv prec emax.

(** [a === b] on two numbers; [a >= b]. *)
Definition strict_eq (a b : number) : bool := SFeqb a b.
Definition ge (a b : number) : bool := SFleb b a.

(** The number of an integer (exact below 2^53 in magnitude). *)
Definition of_Z (n : Z) : number := binary_normalize prec emax n 0 false.

Definition zero : number := S754_zero false.

(** The number denoted by the decimal literal [(-1)^neg * m * 10^k],
    rounded to nearest, ties to even. *)
Definition of_decimal (neg : bool) (m : Z) (k : Z) : number :=
  match m with
  | Zpos p =>
      match k with
      | Zneg _ =>
          let '(q, e, l) := SFdiv_core_binary prec emax m 0 (10 ^ (- k)) 0 in
          binary_round_aux prec emax neg q e l
      | _ => binary_round prec emax neg (Z.to_pos (m * 10 ^ k)) 0
      end
  | _ => S754_zero neg
  end.

(** Truthiness of a number: [NaN] and both zeros are falsy. *)
Definition truthy (x : number) : bool :=
  match x with
  | S754_nan | S754_zero _ => false
  | _ => true
  end.

(** [x || 0] on a number. *)
Definition or_zero (x : number) : number := if truthy x then x else zero.

(** The integer [floor (x + 1/2)] of a finite number with a fractional
    part: [x] is [(-1)^s * m * 2^(-k)]. *)
Definition round_half_up (s : bool) (m k : positive) : Z :=
  (2 * cond_Zopp s (Zpos m) + 2 ^ Zpos k) / 2 ^ (Zpos k + 1).

(** [Math.round]: the closest integer, a tie going towards +infinity; an
    integral, infinite or NaN argument is returned as it is, and a result
    of zero keeps the sign of the argument. *)
Definition Math_round (x : number) : number :=
  match x with
  | S754_finite s m (Zneg k) =>
      let n := round_half_up s m k in
      if n =? 0 then S754_zero s else of_Z n
  | _ => x
  end.


End JsNumber.
Import JsNumber.

(* ------------------------------------------------------------------ *)
(** * JSON values and [JSON.parse] *)

Module Json.

#[local] Set Warnings "-register-all".

Inductive json :=
| JNull
| JBool (b : bool)
| JNumber (x : number)
| JString (s : jsstring)
| JArray (items : list json)
| JObject (members : list (jsstring * json)).

Local Open Scope N_scope.

(** JSON white space is tab, line feed, carriage return and space only. *)
Definition is_json_ws (c : N) : bool :=
  (c =? 9) || (c =? 10) || (c =? 13) || (c =? 32).

Definition skip_ws (s : jsstring) : jsstring := dropWhile is_json_ws s.

Definition is_digit (c : N) : bool := (48 <=? c) && (c <=? 57).

Definition hex_digit (c : N) : option N :=
  if is_digit c then Some (c - 48)
  else if (97 <=? c) && (c <=? 102) then Some (c - 87)
  else if (65 <=? c) && (c <=? 70) then Some (c - 55)
  else None.

Definition hex4 (a b c d : N) : option N :=
  match hex_digit a, hex_digit b, hex_digit c, hex_digit d with
  | Some x, Some y, Some z, Some w => Some (((x * 16 + y) * 16 + z) * 16 + w)
  | _, _, _, _ => None
  end.

(** The characters of a string literal after its opening quote. *)
Fixpoint parse_string_body (s acc : jsstring) : option (jsstring * jsstring) :=
  match s with
  | [] => None
  | 34 :: r => Some (rev acc, r)
  | 92 :: r =>
      match r with
      | 34 :: r' => parse_string_body r' (34 :: acc)
      | 92 :: r' => parse_string_body r' (92 :: acc)
      | 47 :: r' => parse_string_body r' (47 :: acc)
      | 98 :: r' => parse_string_body r' (8 :: acc)
      | 102 :: r' => parse_string_body r' (12 :: acc)
      | 110 :: r' => parse_string_body r' (10 :: acc)
      | 114 :: r' => parse_string_body r' (13 :: acc)
      | 116 :: r' => parse_string_body r' (9 :: acc)
      | 117 :: a :: b :: c :: d :: r' =>
          match hex4 a b c d with
          | Some u => parse_string_body r' (u :: acc)
          | None => None
          end
      | _ => None
      end
  | c :: r => if c <? 32 then None else parse_string_body r (c :: acc)
  end.

(** A run of decimal digits: its value on top of [acc], how many digits
    were read, and the rest of the input. *)
Fixpoint take_digits (s : jsstring) (acc : Z) (count : Z) : Z * Z * jsstring :=
  match s with
  | c :: r =>
      if is_digit c
      then take_digits r (10 * acc + Z.of_N (c - 48))%Z (count + 1)%Z
      else (acc, count, s)
  | [] => (acc, count, s)
  end.

Definition parse_exponent (s : jsstring) : option (Z * jsstring) :=
  match s with
  | c :: r =>
      if (c =? 101) || (c =? 69) then
        let '(neg, r1) :=
          match r with
          | 45 :: r' => (true, r')
          | 43 :: r' => (false, r')
          | _ => (false, r)
          end in
        let '(e, n, r2) := take_digits r1 0%Z 0%Z in
        if (n =? 0)%Z then None
        else Some (if neg then (- e)%Z else e, r2)
      else Some (0%Z, s)
  | [] => Some (0%Z, s)
  end.

Definition parse_fraction (s : jsstring) (int : Z) : option (Z * Z * jsstring) :=
  match s with
  | 46 :: r =>
      let '(m, n, r1) := take_digits r int 0%Z in
      if (n =? 0)%Z then None else Some (m, n, r1)
  | _ => Some (int, 0%Z, s)
  end.

(** A number literal: an optional minus sign, an integer part without a
    leading zero, an optional fraction, an optional exponent. *)
Definition parse_number (s : jsstring) : option (number * jsstring) :=
  let '(neg, s1) := match s with 45 :: r => (true, r) | _ => (false, s) end in
  let int_part :=
    match s1 with
    | 48 :: r => Some (0%Z, r)
    | c :: _ =>
        if is_digit c
        then let '(i, _, r) := take_digits s1 0%Z 0%Z in Some (i, r)
        else None
    | [] => None
    end in
  match int_part with
  | None => None
  | Some (i, s2) =>
      match parse_fraction s2 i with
      | None => None
      | Some (m, nfrac, s3) =>
          match parse_exponent s3 with
          | None => None
          | Some (e, s4) => Some (of_decimal neg m (e - nfrac), s4)
          end
      end
  end.

Section Composite.
Variable parse_value : jsstring -> option (json * jsstring).

(** The elements of an array after the opening bracket, the first of
    them known to be there. *)
Fixpoint parse_elements (fuel : nat) (s : jsstring) (acc : list json)
  : option (list json * jsstring) :=
  match fuel with
  | O => None
  | S fuel' =>
      match parse_value s with
      | None => None
      | Some (v, r) =>
          match skip_ws r with
          | 44 :: r' => parse_elements fuel' r' (v :: acc)
          | 93 :: r' => Some (rev (v :: acc), r')
          | _ => None
          end
      end
  end.

(** The members of an object after the opening brace, the first of them
    known to be there. *)
Fixpoint parse_members (fuel : nat) (s : jsstring)
                       (acc : list (jsstring * json))
  : option (list (jsstring * json) * jsstring) :=
  match fuel with
  | O => None
  | S fuel' =>
      match skip_ws s with
      | 34 :: r =>
          match parse_string_body r [] with
          | None => None
          | Some (k, r1) =>
              match skip_ws r1 with
              | 58 :: r2 =>
                  match parse_value r2 with
                  | None => None
                  | Some (v, r3) =>
                      match skip_ws r3 with
                      | 44 :: r' => parse_members fuel' r' ((k, v) :: acc)
                      | 125 :: r' => Some (rev ((k, v) :: acc), r')
                      | _ => None
                      end
                  end
              | _ => None
              end
          end
      | _ => None
      end
  end.
End Composite.

Fixpoint parse_value (fuel : nat) (s : jsstring) : option (json * jsstring) :=
  match fuel with
  | O => None
  | S fuel' =>
      match skip_ws s with
      | 123 :: r =>
          match skip_ws r with
          | 125 :: r' => Some (JObject [], r')
          | _ =>
              match parse_members (parse_value fuel') (len r) r [] with
              | Some (ms, r') => Some (JObject ms, r')
              | None => None
              end
          end
      | 91 :: r =>
          match skip_ws r with
          | 93 :: r' => Some (JArray [], r')
          | _ =>
              match parse_elements (parse_value fuel') (len r) r [] with
              | Some (vs, r') => Some (JArray vs, r')
              | None => None
              end
          end
      | 34 :: r =>
          match parse_string_body r [] with
          | Some (str, r') => Some (JString str, r')
          | None => None
          end
      | c :: r =>
          if startsWith (lit "true") (c :: r)
          then Some (JBool true, skipn 4 (c :: r))
          else if startsWith (lit "false") (c :: r)
          then Some (JBool false, skipn 5 (c :: r))
          else if startsWith (lit "null") (c :: r)
          then Some (JNull, skipn 4 (c :: r))
          else
            match parse_number (c :: r) with
            | Some (x, r') => Some (JNumber x, r')
            | None => None
            end
      | [] => None
      end
  end.

(** [JSON.parse(text)]; [None] stands for the [SyntaxError] it throws.
    Every nesting level and every member consumes a code unit, so the
    length of the text bounds both recursions. *)
Definition JSON_parse (text : jsstring) : option json :=
  match parse_value (S (len text)) text with
  | Some (v, r) => match skip_ws r with [] => Some v | _ => None end
  | None => None
  end.

(** The value of a member; with duplicate names the last one wins. *)
Fixpoint lookup (k : jsstring) (ms : list (jsstring * json)) : option json :=
  match ms with
  | [] => None
  | (k', v) :: ms' =>
      match lookup k ms' with
      | Some v' => Some v'
      | None => if JsString.eqb k' k then Some v else None
      end
  end.

(** Truthiness of a JSON value. *)
Definition truthy (v : json) : bool :=
  match v with
  | JNull => false
  | JBool b => b
  | JNumber x => JsNumber.truthy x
  | JString s => match s with [] => false | _ => true end
  | JArray _ | JObject _ => true
  end.

End Json.
Import Json.

(* ------------------------------------------------------------------ *)
(** * types.ts and config.ts *)

Inductive result (E A : Type) : Type :=
| Ok (a : A)
| Err (e : E).
Arguments Ok {E A} a.
Arguments Err {E A} e.

Inductive Confidence := low | medium | high.

Definition Confidence_eqb (a b : Confidence) : bool :=
  match a, b with
  | low, low | medium, medium | high, high => true
  | _, _ => false
  end.

Record MacroEstimate := {
  calories : number;
  protein : number;
  carbs : number;
  fat : number;
  confidence : Confidence;
  meal_description : option json
}.

Inductive AIModel := gemini | openai.

(** A calendar date, as the [date] column of the store compares it. *)
Record Date := { year : Z; month : Z; day : Z }.

Definition Date_eqb (a b : Date) : bool :=
  (year a =? year b) && (month a =? month b) && (day a =? day b).

(** [a >= b] on dates *)
Definition Date_geb (a b : Date) : bool :=
  (year b <? year a)
  || (year a =? year b) && ((month b <? month a)
                            || (month a =? month b) && (day b <=? day a)).

Record AIUsageRecord := {
  user_id : jsstring;
  usage_date : Date;
  calls : Z;
  estimated_cost : number
}.

Record Config := {
  RATE_LIMIT_DAILY : Z;
  COST_LIMIT_MONTHLY_INR : number;
  GEMINI_COST_PER_IMAGE_INR : number;
  OPENAI_COST_PER_IMAGE_INR : number
}.

(** config.ts *)
Definition CONFIG : Config := {|
  RATE_LIMIT_DAILY := 7;
  COST_LIMIT_MONTHLY_INR := of_Z 100;
  GEMINI_COST_PER_IMAGE_INR := of_decimal false 3 (-2);
  OPENAI_COST_PER_IMAGE_INR := of_decimal false 9 (-2)
|}.

(* ------------------------------------------------------------------ *)
(** * The response normalizers *)

(** What a normalizer throws. *)
Inductive NormalizeError :=
| FailedToParse_engineMessage
    (** [Failed to parse AI response as JSON: ${parseError.message}] *)
| AppearsTruncated (received : jsstring)
    (** [AI response appears truncated. Received: ${...substring(0, 100)}...] *)
| FailedToParse_response (response : jsstring)
    (** [Failed to parse AI response as JSON. Response: ${...substring(0, 200)}] *)
| SyntaxError_of_JSON_parse
    (** the [SyntaxError] of [JSON.parse], not caught by the normalizer *)
| TypeError_of_null
    (** a property read on [null] *)
| InvalidStructure.
    (** [Invalid response structure from AI] *)

(** [parsed.name] on a parsed value other than [null]; [None] is
    [undefined]. *)
Definition prop (parsed : json) (name : string) : option json :=
  match parsed with
  | JObject ms => lookup (lit name) ms
  | _ => None
  end.

(** [typeof v === 'number'] *)
Definition as_number (v : option json) : option number :=
  match v with
  | Some (JNumber x) => Some x
  | _ => None
  end.

(** [['low', 'medium', 'high'].includes(v)] *)
Definition as_confidence (v : option json) : option Confidence :=
  match v with
  | Some (JString s) =>
      if JsString.eqb s (lit "low") then Some low
      else if JsString.eqb s (lit "medium") then Some medium
      else if JsString.eqb s (lit "high") then Some high
      else None
  | _ => None
  end.

(** [v || undefined] *)
Definition or_undefined (v : option json) : option json :=
  match v with
  | Some j => if Json.truthy j then Some j else None
  | None => None
  end.

Definition ten : number := of_Z 10.

(** [Math.round(x * 10) / 10] *)
Definition round1 (x : number) : number := div (Math_round (mul x ten)) ten.

(** Strategy 2 of the Gemini normalizers: the brace-delimited span when the
    text does not start with a brace. *)
Definition extract_object (cleaned : jsstring) : jsstring :=
  if negb (startsWith (lit "{") cleaned)
  then match match_braces cleaned with
       | Some m => m
       | None => cleaned
       end
  else cleaned.

Module GeminiHelper.

(** The candidate payload of gemini-helper.ts, lines 169-185. *)
Definition candidate (text : jsstring) : jsstring :=
  let cleaned := trim text in
  let cleaned := replace_prefix_ws true (lit "```json") cleaned in
  let cleaned := replace_prefix_ws true (lit "```jsons") cleaned in
  let cleaned := replace_prefix_ws false (lit "```") cleaned in
  let cleaned := replace_ws_suffix (lit "```") cleaned in
  let cleaned := trim cleaned in
  extract_object cleaned.

(** gemini-helper.ts, [parseAIResponse] *)
Definition parseAIResponse (text : jsstring)
  : result NormalizeError MacroEstimate :=
  let cleaned := candidate text in
  match JSON_parse cleaned with
  | None => Err FailedToParse_engineMessage
  | Some JNull => Err TypeError_of_null
  | Some parsed =>
      match as_number (prop parsed "calories"),
            as_number (prop parsed "protein"),
            as_number (prop parsed "carbs"),
            as_number (prop parsed "fat"),
            as_confidence (prop parsed "confidence") with
      | Some c, Some p, Some cb, Some f, Some conf =>
          Ok {| calories := Math_round c;
                protein := round1 p;
                carbs := round1 cb;
                fat := round1 f;
                confidence := conf;
                meal_description :=
                  or_undefined (prop parsed "meal_description") |}
      | _, _, _, _, _ => Err InvalidStructure
      end
  end.

End GeminiHelper.

Module OpenAIHelper.

(** openai-helper.ts, [parseAIResponse] *)
Definition parseAIResponse (text : jsstring)
  : result NormalizeError MacroEstimate :=
  match JSON_parse (trim text) with
  | None => Err SyntaxError_of_JSON_parse
  | Some JNull => Err TypeError_of_null
  | Some parsed =>
      match as_number (prop parsed "calories"),
            as_number (prop parsed "protein"),
            as_number (prop parsed "carbs"),
            as_number (prop parsed "fat"),
            as_confidence (prop parsed "confidence") with
      | Some c, Some p, Some cb, Some f, Some conf =>
          Ok {| calories := Math_round c;
                protein := round1 p;
                carbs := round1 cb;
                fat := round1 f;
                confidence := conf;
                meal_description := None |}
      | _, _, _, _, _ => Err InvalidStructure
      end
  end.

End OpenAIHelper.

Module GeminiTextHelper.

(** The candidate payload of gemini-text-helper.ts. *)
Definition candidate (text : jsstring) : jsstring :=
  let cleaned := trim text in
  let cleaned := replace_prefix_ws true (lit "```json") cleaned in
  let cleaned := replace_prefix_ws false (lit "```") cleaned in
  let cleaned := replace_ws_suffix (lit "```") cleaned in
  let cleaned := trim cleaned in
  extract_object cleaned.

(** gemini-text-helper.ts, [parseTextAnalysisResponse] *)
Definition parseTextAnalysisResponse (text : jsstring)
  : result NormalizeError MacroEstimate :=
  let cleaned := candidate text in
  match JSON_parse cleaned with
  | None =>
      if endsWith (lit ",") cleaned || negb (endsWith (lit "}") cleaned)
      then Err (AppearsTruncated (substring0 100 cleaned))
      else Err (FailedToParse_response (substring0 200 cleaned))
  | Some JNull => Err TypeError_of_null
  | Some parsed =>
      match as_number (prop parsed "calories"),
            as_number (prop parsed "protein"),
            as_number (prop parsed "carbs"),
            as_number (prop parsed "fat"),
            as_confidence (prop parsed "confidence") with
      | Some c, Some p, Some cb, Some f, Some conf =>
          Ok {| calories := Math_round c;
                protein := round1 p;
                carbs := round1 cb;
                fat := round1 f;
                confidence := conf;
                meal_description :=
                  or_undefined (prop parsed "meal_description") |}
      | _, _, _, _, _ => Err InvalidStructure
      end
  end.

End GeminiTextHelper.

(* ------------------------------------------------------------------ *)
(** * The world of one edge function instance *)

(** Every interaction with an external collaborator is logged. *)
Inductive Event :=
| EvGetUser (token : jsstring)
| EvSelectDaily (user : jsstring) (date : Date)
| EvSelectMonthly (since : Date)
| EvSelectExisting (user : jsstring) (date : Date)
| EvUpdate (user : jsstring) (date : Date) (new_calls : Z) (new_cost : number)
| EvInsert (row : AIUsageRecord)
| EvHead (url : jsstring)
| EvGemini (url : jsstring) (description : option jsstring)
| EvOpenAI (url : jsstring) (description : option jsstring)
| EvGeminiText (description : jsstring).

(** Writes to the [ai_usage] table. *)
Definition is_write (ev : Event) : bool :=
  match ev with
  | EvUpdate _ _ _ _ | EvInsert _ => true
  | _ => false
  end.

(** Calls of an inference adapter. *)
Definition is_inference (ev : Event) : bool :=
  match ev with
  | EvGemini _ _ | EvOpenAI _ _ | EvGeminiText _ => true
  | _ => false
  end.

Definition is_openai (ev : Event) : bool :=
  match ev with
  | EvOpenAI _ _ => true
  | _ => false
  end.

(** The [ai_usage] table, in insertion order, and the log, newest event
    first. *)
Record World := {
  ledger : list AIUsageRecord;
  trace : list Event
}.

Definition writes (w : World) : nat := List.length (filter is_write (trace w)).
Definition inferences (w : World) : nat :=
  List.length (filter is_inference (trace w)).
Definition openai_calls (w : World) : nat :=
  List.length (filter is_openai (trace w)).

(** The messages of [ValidationError]. *)
Inductive ValidationMessage :=
| BodyMustBeObject
| UserIdRequired
| UserIdMustBeUuid
| ImageUrlMustBeString
| ImageUrlMustBeHttp
| DescriptionMustBeString
| EitherImageOrDescription
| DescriptionTooShort
| ImageUrlReturnedStatus (status : Z)
| UrlDoesNotPointToAnImage
| FailedToAccessImageUrl.

(** What can be thrown up to the handler's outer [catch]. *)
Inductive Exn :=
| ValidationError (message : ValidationMessage)
| TimeoutError
| OtherError.

(** State and exceptions. *)
Definition M (A : Type) : Type := World -> result Exn A * World.

Definition ret {A} (a : A) : M A := fun w => (Ok a, w).

Definition bind {A B} (m : M A) (k : A -> M B) : M B :=
  fun w => match m w with
           | (Ok a, w') => k a w'
           | (Err e, w') => (Err e, w')
           end.

Definition throw {A} (e : Exn) : M A := fun w => (Err e, w).

Definition lift {A} (r : result Exn A) : M A := fun w => (r, w).

Definition log (ev : Event) : M unit :=
  fun w => (Ok tt, {| ledger := ledger w; trace := ev :: trace w |}).

Definition read_ledger : M (list AIUsageRecord) := fun w => (Ok (ledger w), w).

Definition write_ledger (l : list AIUsageRecord) : M unit :=
  fun w => (Ok tt, {| ledger := l; trace := trace w |}).

Declare Scope monad_scope.
Delimit Scope monad_scope with monad.
Notation "x <- c1 ;; c2" := (bind c1 (fun x => c2))
  (at level 61, c1 at next level, right associativity) : monad_scope.
Notation "c1 ;; c2" := (bind c1 (fun _ => c2))
  (at level 61, right associativity) : monad_scope.
Local Open Scope monad_scope.

(** ** The collaborators *)

Inductive AuthReply :=
| AuthError (message : jsstring)
| NoUser
| User (id : jsstring).

Inductive HeadReply :=
| HeadThrows
| HeadResponse (status : Z) (content_type : option jsstring).

(** What an inference endpoint gives back to its adapter: the text of the
    completion, or a failure before any text is there (missing key, image
    fetch, timeout, a status that is not OK, an empty candidate list). *)
Inductive Upstream :=
| UpstreamFailure
| UpstreamText (text : jsstring).

Record Env := {
  today : Date;
  OPENAI_API_KEY : bool;
  getUser : jsstring -> AuthReply;
  url_protocol : jsstring -> option jsstring;
  head : jsstring -> HeadReply;
  gemini_vision : jsstring -> option jsstring -> Upstream;
  openai_vision : jsstring -> option jsstring -> Upstream;
  gemini_text : jsstring -> Upstream
}.

(** The edge runtime keeps its clock in UTC: the local calendar fields of
    [new Date(y, m, 1)] are the UTC ones. *)
Definition firstDayOfMonth (d : Date) : Date :=
  {| year := year d; month := month d; day := 1 |}.

(* ------------------------------------------------------------------ *)
(** * The provider adapters *)

Inductive AdapterError :=
| UpstreamFailed
| NoText
| NotConfigured
| DescriptionTooShortForAnalysis
| Malformed (e : NormalizeError).

Definition normalized (r : result NormalizeError MacroEstimate)
  : result AdapterError MacroEstimate :=
  match r with
  | Ok m => Ok m
  | Err e => Err (Malformed e)
  end.

(** What [analyzeWithGemini] resolves or rejects with. *)
Definition gemini_outcome (env : Env) (imageUrl : jsstring)
                          (description : option jsstring)
  : result AdapterError MacroEstimate :=
  match gemini_vision env imageUrl description with
  | UpstreamFailure => Err UpstreamFailed
  | UpstreamText [] => Err NoText
  | UpstreamText text => normalized (GeminiHelper.parseAIResponse text)
  end.

(** What [analyzeWithOpenAI] resolves or rejects with. *)
Definition openai_outcome (env : Env) (imageUrl : jsstring)
                          (description : option jsstring)
  : result AdapterError MacroEstimate :=
  if negb (OPENAI_API_KEY env) then Err NotConfigured
  else match openai_vision env imageUrl description with
       | UpstreamFailure => Err UpstreamFailed
       | UpstreamText [] => Err NoText
       | UpstreamText text => normalized (OpenAIHelper.parseAIResponse text)
       end.

(** What [analyzeTextWithGemini] resolves or rejects with. *)
Definition gemini_text_outcome (env : Env) (description : jsstring)
  : result AdapterError MacroEstimate :=
  if (len (trim description) <? 5)%nat then Err DescriptionTooShortForAnalysis
  else match gemini_text env description with
       | UpstreamFailure => Err UpstreamFailed
       | UpstreamText [] => Err NoText
       | UpstreamText text =>
           normalized (GeminiTextHelper.parseTextAnalysisResponse text)
       end.

(** The adapters never throw past their callers in [index.ts]: each call
    sits in a [try] whose [catch] takes every rejection. *)
Definition analyzeWithGemini (env : Env) (imageUrl : jsstring)
                             (description : option jsstring)
  : M (result AdapterError MacroEstimate) :=
  log (EvGemini imageUrl description) ;;
  ret (gemini_outcome env imageUrl description).

Definition analyzeWithOpenAI (env : Env) (imageUrl : jsstring)
                             (description : option jsstring)
  : M (result AdapterError MacroEstimate) :=
  log (EvOpenAI imageUrl description) ;;
  ret (openai_outcome env imageUrl description).

Definition analyzeTextWithGemini (env : Env) (description : jsstring)
  : M (result AdapterError MacroEstimate) :=
  log (EvGeminiText description) ;;
  ret (gemini_text_outcome env description).

(* ------------------------------------------------------------------ *)
(** * database.ts: the usage ledger *)

Module Database.

Definition row_of (userId : jsstring) (date : Date) (r : AIUsageRecord) : bool :=
  JsString.eqb (user_id r) userId && Date_eqb (usage_date r) date.

(** [.eq('user_id', userId).eq('usage_date', date)] *)
Definition select_rows (userId : jsstring) (date : Date)
                       (table : list AIUsageRecord) : list AIUsageRecord :=
  filter (row_of userId date) table.

(** [.single()]: the row when there is exactly one, else the error
    PGRST116 and no data. *)
Definition single (rows : list AIUsageRecord) : option AIUsageRecord :=
  match rows with
  | [r] => Some r
  | _ => None
  end.

Definition daily_count (userId : jsstring) (date : Date)
                       (table : list AIUsageRecord) : Z :=
  match single (select_rows userId date table) with
  | Some data => if calls data =? 0 then 0 else calls data
  | None => 0
  end.

Definition getDailyUsageCount (env : Env) (userId : jsstring) : M Z :=
  log (EvSelectDaily userId (today env)) ;;
  table <- read_ledger ;;
  ret (daily_count userId (today env) table).

(** [.gte('usage_date', since)], then the [reduce] from 0. *)
Definition monthly_cost (since : Date) (table : list AIUsageRecord) : number :=
  let data := filter (fun r => Date_geb (usage_date r) since) table in
  or_zero
    (fold_left (fun sum record => add sum (or_zero (estimated_cost record)))
               data zero).

Definition getMonthlyEstimatedCost (env : Env) : M number :=
  log (EvSelectMonthly (firstDayOfMonth (today env))) ;;
  table <- read_ledger ;;
  ret (monthly_cost (firstDayOfMonth (today env)) table).

Definition cost_of (cfg : Config) (model : AIModel) : number :=
  match model with
  | gemini => GEMINI_COST_PER_IMAGE_INR cfg
  | openai => OPENAI_COST_PER_IMAGE_INR cfg
  end.

(** [.update({...}).eq('user_id', userId).eq('usage_date', date)] *)
Definition update_rows (userId : jsstring) (date : Date)
                       (new_calls : Z) (new_cost : number)
                       (table : list AIUsageRecord) : list AIUsageRecord :=
  map (fun r => if row_of userId date r
                then {| user_id := user_id r; usage_date := usage_date r;
                        calls := new_calls; estimated_cost := new_cost |}
                else r) table.

(** The table after [recordAIUsage]. *)
Definition recorded (cfg : Config) (date : Date) (userId : jsstring)
                    (model : AIModel) (table : list AIUsageRecord)
  : list AIUsageRecord :=
  match single (select_rows userId date table) with
  | Some existing =>
      update_rows userId date (calls existing + 1)
                  (add (estimated_cost existing) (cost_of cfg model)) table
  | None =>
      table ++ [{| user_id := userId; usage_date := date; calls := 1;
                   estimated_cost := cost_of cfg model |}]
  end.

Definition recordAIUsage (cfg : Config) (env : Env) (userId : jsstring)
                         (model : AIModel) : M unit :=
  let cost := cost_of cfg model in
  log (EvSelectExisting userId (today env)) ;;
  table <- read_ledger ;;
  match single (select_rows userId (today env) table) with
  | Some existing =>
      log (EvUpdate userId (today env) (calls existing + 1)
                    (add (estimated_cost existing) cost)) ;;
      write_ledger
        (update_rows userId (today env) (calls existing + 1)
                     (add (estimated_cost existing) cost) table)
  | None =>
      let row := {| user_id := userId; usage_date := today env; calls := 1;
                    estimated_cost := cost |} in
      log (EvInsert row) ;;
      write_ledger (table ++ [row])
  end.

End Database.
Import Database.

(* ------------------------------------------------------------------ *)
(** * validators.ts *)

Module Validators.

Record AnalyzeMealRequest := {
  req_user_id : jsstring;
  req_image_url : option jsstring;
  req_description : option jsstring
}.

Definition is_hex (c : N) : bool :=
  match hex_digit c with Some _ => true | None => false end.

(** One step of the UUID pattern: a hexadecimal digit or a hyphen. *)
Inductive UuidAtom := Hex | Hyphen.

Definition uuid_pattern : list UuidAtom :=
  repeat Hex 8 ++ [Hyphen] ++ repeat Hex 4 ++ [Hyphen] ++ repeat Hex 4
  ++ [Hyphen] ++ repeat Hex 4 ++ [Hyphen] ++ repeat Hex 12.

Fixpoint matches_atoms (p : list UuidAtom) (s : jsstring) : bool :=
  match p, s with
  | [], [] => true
  | Hex :: p', c :: s' => is_hex c && matches_atoms p' s'
  | Hyphen :: p', c :: s' => (c =? 45)%N && matches_atoms p' s'
  | _, _ => false
  end.

(** [uuidRegex.test(s)] *)
Definition uuidRegex_test (s : jsstring) : bool := matches_atoms uuid_pattern s.

Definition isValidUrl (env : Env) (url : jsstring) : bool :=
  match url_protocol env url with
  | Some protocol =>
      JsString.eqb protocol (lit "http:") || JsString.eqb protocol (lit "https:")
  | None => false
  end.

(** Truthiness of an optional string: [undefined] and [''] are falsy. *)
Definition present (s : option jsstring) : bool :=
  match s with
  | Some (_ :: _) => true
  | _ => false
  end.

Definition string_or_undefined (v : option json) : option (option jsstring) :=
  match v with
  | None => Some None
  | Some (JString s) => Some (Some s)
  | Some _ => None
  end.

Definition validateRequest (env : Env) (data : json)
  : result Exn AnalyzeMealRequest :=
  match data with
  | JObject _ | JArray _ =>
      match prop data "user_id" with
      | Some (JString ((_ :: _) as uid)) =>
          if negb (uuidRegex_test uid)
          then Err (ValidationError UserIdMustBeUuid)
          else
            match string_or_undefined (prop data "image_url") with
            | None => Err (ValidationError ImageUrlMustBeString)
            | Some image_url =>
                if present image_url
                   && negb (isValidUrl env (match image_url with
                                            | Some u => u
                                            | None => []
                                            end))
                then Err (ValidationError ImageUrlMustBeHttp)
                else
                  match string_or_undefined (prop data "description") with
                  | None => Err (ValidationError DescriptionMustBeString)
                  | Some description =>
                      if negb (present image_url) && negb (present description)
                      then Err (ValidationError EitherImageOrDescription)
                      else if negb (present image_url) && present description
                              && (len (trim (match description with
                                              | Some d => d
                                              | None => []
                                              end)) <? 10)%nat
                      then Err (ValidationError DescriptionTooShort)
                      else Ok {| req_user_id := uid;
                                 req_image_url := image_url;
                                 req_description := description |}
                  end
            end
      | _ => Err (ValidationError UserIdRequired)
      end
  | _ => Err (ValidationError BodyMustBeObject)
  end.

Definition response_ok (status : Z) : bool := (200 <=? status) && (status <=? 299).

(** What [validateImageUrl] does with the reply to its HEAD request. *)
Definition image_check (reply : HeadReply) : result Exn unit :=
  match reply with
  | HeadThrows => Err (ValidationError FailedToAccessImageUrl)
  | HeadResponse status contentType =>
      if negb (response_ok status)
      then Err (ValidationError (ImageUrlReturnedStatus status))
      else if present contentType
              && negb (startsWith (lit "image/")
                                  (match contentType with
                                   | Some c => c
                                   | None => []
                                   end))
      then Err (ValidationError UrlDoesNotPointToAnImage)
      else Ok tt
  end.

Definition validateImageUrl (env : Env) (url : jsstring) : M unit :=
  log (EvHead url) ;;
  lift (image_check (head env url)).

End Validators.
Import Validators.

(* ------------------------------------------------------------------ *)
(** * index.ts: the request handler *)

Module Index.

Record Request := {
  method : jsstring;
  authorization : option jsstring;
  body : jsstring
}.

Record AnalyzeMealResponse := {
  r_calories : number;
  r_protein : number;
  r_carbs : number;
  r_fat : number;
  r_confidence : Confidence;
  r_meal_description : option json;
  r_ai_model_used : AIModel
}.

(** One constructor for each [jsonError] of the handler. *)
Inductive ErrorResponse :=
| MethodNotAllowed
| MissingAuthorizationHeader
| Unauthorized (details : option jsstring)
| UserIdDoesNotMatch
| DailyRateLimitExceeded
| MonthlyCostLimitReached (limit : number)
| UnableToEstimate_ModelFailed
| UnableToEstimate_AnalysisFailed
| UnableToEstimate_DescriptionFailed
| InvalidRequest
| UnableToEstimate_NotFood
| ValidationFailed (message : ValidationMessage)
| RequestTimeout
| InternalServerError.

Definition status_of (e : ErrorResponse) : Z :=
  match e with
  | MethodNotAllowed => 405
  | MissingAuthorizationHeader | Unauthorized _ => 401
  | UserIdDoesNotMatch => 403
  | DailyRateLimitExceeded | MonthlyCostLimitReached _ => 429
  | UnableToEstimate_ModelFailed | UnableToEstimate_AnalysisFailed
  | UnableToEstimate_DescriptionFailed => 500
  | InvalidRequest | UnableToEstimate_NotFood | ValidationFailed _ => 400
  | RequestTimeout => 504
  | InternalServerError => 500
  end.

Inductive Response :=
| Preflight
| Success (r : AnalyzeMealResponse)
| Failure (e : ErrorResponse).

(** A stage of the handler either [return]s a response or goes on. *)
Inductive step (A : Type) : Type :=
| Return (r : Response)
| Continue (a : A).
Arguments Return {A} r.
Arguments Continue {A} a.

(** [await req.json()] *)
Definition req_json (req : Request) : M json :=
  match JSON_parse (body req) with
  | Some data => ret data
  | None => throw OtherError
  end.

(** Lines 33-104: method, credential, request shape, identity, quota, cost
    guard and image probe, up to the first inference. *)
Definition gate (cfg : Config) (env : Env) (req : Request)
  : M (step (jsstring * AnalyzeMealRequest)) :=
  if negb (JsString.eqb (method req) (lit "POST"))
  then ret (Return (Failure MethodNotAllowed))
  else
    match authorization req with
    | None | Some [] => ret (Return (Failure MissingAuthorizationHeader))
    | Some authHeader =>
        let token := remove_first (lit "Bearer ") authHeader in
        log (EvGetUser token) ;;
        match getUser env token with
        | AuthError message =>
            ret (Return (Failure (Unauthorized
                                    (match message with
                                     | [] => None
                                     | _ => Some message
                                     end))))
        | NoUser => ret (Return (Failure (Unauthorized None)))
        | User id =>
            data <- req_json req ;;
            requestData <- lift (validateRequest env data) ;;
            if negb (JsString.eqb (req_user_id requestData) id)
            then ret (Return (Failure UserIdDoesNotMatch))
            else
              dailyUsage <- getDailyUsageCount env id ;;
              if RATE_LIMIT_DAILY cfg <=? dailyUsage
              then ret (Return (Failure DailyRateLimitExceeded))
              else
                monthlyCost <- getMonthlyEstimatedCost env ;;
                if ge monthlyCost (COST_LIMIT_MONTHLY_INR cfg)
                then ret (Return (Failure (MonthlyCostLimitReached
                                             (COST_LIMIT_MONTHLY_INR cfg))))
                else
                  (match req_image_url requestData with
                   | Some ((_ :: _) as url) => validateImageUrl env url
                   | _ => ret tt
                   end) ;;
                  ret (Continue (id, requestData))
        end
    end.

(** Lines 107-176: the estimate and the model that produced it. *)
Definition analyze (env : Env) (requestData : AnalyzeMealRequest)
  : M (step (MacroEstimate * AIModel)) :=
  let hasOpenAI := OPENAI_API_KEY env in
  match req_image_url requestData with
  | Some ((_ :: _) as image_url) =>
      g <- analyzeWithGemini env image_url (req_description requestData) ;;
      match g with
      | Ok macros =>
          if Confidence_eqb (confidence macros) low && hasOpenAI
          then
            o <- analyzeWithOpenAI env image_url (req_description requestData) ;;
            match o with
            | Ok openAIMacros =>
                if negb (Confidence_eqb (confidence openAIMacros) low)
                then ret (Continue (openAIMacros, openai))
                else ret (Continue (macros, gemini))
            | Err _ => ret (Continue (macros, gemini))
            end
          else ret (Continue (macros, gemini))
      | Err _ =>
          if hasOpenAI
          then
            o <- analyzeWithOpenAI env image_url (req_description requestData) ;;
            match o with
            | Ok macros => ret (Continue (macros, openai))
            | Err _ => ret (Return (Failure UnableToEstimate_ModelFailed))
            end
          else ret (Return (Failure UnableToEstimate_AnalysisFailed))
      end
  | _ =>
      match req_description requestData with
      | Some ((_ :: _) as description) =>
          t <- analyzeTextWithGemini env description ;;
          match t with
          | Ok macros => ret (Continue (macros, gemini))
          | Err _ => ret (Return (Failure UnableToEstimate_DescriptionFailed))
          end
      | _ => ret (Return (Failure InvalidRequest))
      end
  end.

(** The test of line 179. *)
Definition looks_like_no_food (macros : MacroEstimate) : bool :=
  strict_eq (calories macros) zero
  || (strict_eq (protein macros) zero
      && strict_eq (carbs macros) zero
      && strict_eq (fat macros) zero).

Definition response_of (macros : MacroEstimate) (aiModel : AIModel)
  : AnalyzeMealResponse :=
  {| r_calories := calories macros;
     r_protein := protein macros;
     r_carbs := carbs macros;
     r_fat := fat macros;
     r_confidence := confidence macros;
     r_meal_description := meal_description macros;
     r_ai_model_used := aiModel |}.

(** Lines 178-202. *)
Definition finalize (cfg : Config) (env : Env) (userId : jsstring)
                    (macros : MacroEstimate) (aiModel : AIModel) : M Response :=
  if looks_like_no_food macros
  then ret (Failure UnableToEstimate_NotFood)
  else
    recordAIUsage cfg env userId aiModel ;;
    ret (Success (response_of macros aiModel)).

(** The body of the outer [try]. *)
Definition process (cfg : Config) (env : Env) (req : Request) : M Response :=
  g <- gate cfg env req ;;
  match g with
  | Return r => ret r
  | Continue (id, requestData) =>
      a <- analyze env requestData ;;
      match a with
      | Return r => ret r
      | Continue (macros, aiModel) => finalize cfg env id macros aiModel
      end
  end.

(** The outer [catch]. *)
Definition on_error (e : Exn) : Response :=
  match e with
  | ValidationError message => Failure (ValidationFailed message)
  | TimeoutError => Failure RequestTimeout
  | OtherError => Failure InternalServerError
  end.

(** The function given to [serve]. *)
Definition handler (cfg : Config) (env : Env) (req : Request)
                   (w : World) : Response * World :=
  if JsString.eqb (method req) (lit "OPTIONS") then (Preflight, w)
  else match process cfg env req w with
       | (Ok r, w') => (r, w')
       | (Err e, w') => (on_error e, w')
       end.

End Index.
Import Index.

(* ------------------------------------------------------------------ *)
(** * Vocabulary of the statements *)

(** The request carries a credential of user [id] and a well-formed body
    [requestData] of that same user: lines 33-84 let it through to the
    quota check. *)
Definition passes_identity (env : Env) (req : Request) (id : jsstring)
                           (requestData : AnalyzeMealRequest) : Prop :=
  method req = lit "POST"
  /\ (exists c h, authorization req = Some (c :: h)
                  /\ getUser env (remove_first (lit "Bearer ") (c :: h)) = User id)
  /\ (exists data, JSON_parse (body req) = Some data
                   /\ validateRequest env data = Ok requestData)
  /\ req_user_id requestData = id.

(** The adapter of [model] produced [macros] for this request. *)
Definition produced_by (env : Env) (requestData : AnalyzeMealRequest)
                       (model : AIModel) (macros : MacroEstimate) : Prop :=
  match req_image_url requestData, model with
  | Some ((_ :: _) as url), gemini =>
      gemini_outcome env url (req_description requestData) = Ok macros
  | Some ((_ :: _) as url), openai =>
      openai_outcome env url (req_description requestData) = Ok macros
  | _, gemini =>
      exists d, req_description requestData = Some d
                /\ gemini_text_outcome env d = Ok macros
  | _, openai => False
  end.

(** Requests handled one after the other; each comes with the state of the
    collaborators at its time. *)
Fixpoint serve (cfg : Config) (arrivals : list (Env * Request)) (w : World)
  : list Response * World :=
  match arrivals with
  | [] => ([], w)
  | (env, req) :: rest =>
      let '(r, w1) := handler cfg env req w in
      let '(rs, w2) := serve cfg rest w1 in
      (r :: rs, w2)
  end.

Definition is_success (r : Response) : bool :=
  match r with
  | Success _ => true
  | _ => false
  end.

(** The estimate was read off the numbers and the label of [parsed]. *)
Definition confidence_literal (c : Confidence) : jsstring :=
  match c with
  | low => lit "low"
  | medium => lit "medium"
  | high => lit "high"
  end.

Record rounded_from (parsed : json) (est : MacroEstimate)
                    (c p cb f : number) : Prop := {
  rf_calories : prop parsed "calories" = Some (JNumber c)
                /\ calories est = Math_round c;
  rf_protein : prop parsed "protein" = Some (JNumber p)
               /\ protein est = round1 p;
  rf_carbs : prop parsed "carbs" = Some (JNumber cb)
             /\ carbs est = round1 cb;
  rf_fat : prop parsed "fat" = Some (JNumber f)
           /\ fat est = round1 f;
  rf_confidence : prop parsed "confidence"
                  = Some (JString (confidence_literal (confidence est)))
}.

(** ** Sample requests *)

Module Fixtures.

Definition alice : jsstring := lit "b8484ba5-db62-415a-8000-096a5644f5d7".
Definition bob : jsstring := lit "0f9d3c1e-7a52-4b6e-9c11-5d2e8a4f7b30".

Definition a_day : Date := {| year := 2026; month := 1; day := 15 |}.

Definition photo : jsstring := lit "https://example.com/meal.jpg".

Definition image_body : jsstring :=
  jlit "{'user_id': 'b8484ba5-db62-415a-8000-096a5644f5d7', 'image_url': 'https://example.com/meal.jpg'}".

Definition text_body : jsstring :=
  jlit "{'user_id': 'b8484ba5-db62-415a-8000-096a5644f5d7', 'description': '2 roti with sabzi and dal'}".

Definition post (payload : jsstring) : Request :=
  {| method := lit "POST";
     authorization := Some (lit "Bearer token-of-alice");
     body := payload |}.

(** Alice is signed in, the photo is reachable with the given content
    type, and the providers answer with the given texts. *)
Definition env_of (key : bool) (content_type : option jsstring)
                  (vision secondary text : Upstream) : Env :=
  {| today := a_day;
     OPENAI_API_KEY := key;
     getUser := fun _ => User alice;
     url_protocol := fun _ => Some (lit "https:");
     head := fun _ => HeadResponse 200 content_type;
     gemini_vision := fun _ _ => vision;
     openai_vision := fun _ _ => secondary;
     gemini_text := fun _ => text |}.

Definition jpeg : option jsstring := Some (lit "image/jpeg").

(** No secondary provider is configured. *)
Definition gemini_only (vision text : Upstream) : Env :=
  env_of false jpeg vision UpstreamFailure text.

(** Both providers are configured. *)
Definition with_fallback (vision secondary : Upstream) : Env :=
  env_of true jpeg vision secondary UpstreamFailure.

Definition image_request : AnalyzeMealRequest :=
  {| req_user_id := alice;
     req_image_url := Some photo;
     req_description := None |}.

Definition text_request : AnalyzeMealRequest :=
  {| req_user_id := alice;
     req_image_url := None;
     req_description := Some (lit "2 roti with sabzi and dal") |}.

Definition fresh : World := {| ledger := []; trace := [] |}.

Definition dal_rice : Upstream :=
  UpstreamText (jlit "{'calories': 450, 'protein': 18.55, 'carbs': 65.2, 'fat': 12.3, 'confidence': 'high', 'meal_description': 'Dal rice with roti'}").

Definition dal_rice_unsure : Upstream :=
  UpstreamText (jlit "{'calories': 450, 'protein': 18.54, 'carbs': 65.2, 'fat': 12.3, 'confidence': 'low'}").

Definition nothing_high : Upstream :=
  UpstreamText (jlit "{'calories': 0, 'protein': 0, 'carbs': 0, 'fat': 0, 'confidence': 'high'}").

Definition nothing_low : Upstream :=
  UpstreamText (jlit "{'calories': 0, 'protein': 0, 'carbs': 0, 'fat': 0, 'confidence': 'low'}").

Definition protein_only : Upstream :=
  UpstreamText (jlit "{'calories': 0, 'protein': 5, 'carbs': 0, 'fat': 0, 'confidence': 'high'}").

Definition calories_only : Upstream :=
  UpstreamText (jlit "{'calories': 120, 'protein': 0, 'carbs': 0, 'fat': 0, 'confidence': 'high'}").

(** What the normalizers make of [dal_rice], of [dal_rice_unsure] and of
    the three answers without food. *)
Definition estimate (c p cb f : number) (conf : Confidence)
                    (d : option json) : MacroEstimate :=
  {| calories := c; protein := p; carbs := cb; fat := f;
     confidence := conf; meal_description := d |}.

Definition dal_rice_estimate : MacroEstimate :=
  estimate (of_Z 450) (of_decimal false 186 (-1)) (of_decimal false 652 (-1))
           (of_decimal false 123 (-1)) high
           (Some (JString (lit "Dal rice with roti"))).

Definition dal_rice_unsure_estimate : MacroEstimate :=
  estimate (of_Z 450) (of_decimal false 185 (-1)) (of_decimal false 652 (-1))
           (of_decimal false 123 (-1)) low None.

Definition nothing_estimate (conf : Confidence) : MacroEstimate :=
  estimate zero zero zero zero conf None.

Definition protein_only_estimate : MacroEstimate :=
  estimate zero (of_Z 5) zero zero high None.

Definition calories_only_estimate : MacroEstimate :=
  estimate (of_Z 120) zero zero zero high None.


Definition fenced_trailing_comma : jsstring :=
  jlit "```json
{'calories': 450, 'protein': 18.5, 'carbs': 65.2, 'fat': 12.3, 'confidence': 'high',}
```".

Definition cut_off : jsstring :=
  jlit "```json
{'calories': 450, 'protein': 18.5,".

Definition with_protein (digits : string) : jsstring :=
  jlit "{'calories': 450, 'protein': " ++ lit digits
  ++ jlit ", 'carbs': 65.2, 'fat': 12.3, 'confidence': 'high'}".

(** Bob's identifier in a request that carries Alice's credential. *)
Definition bob_body : jsstring :=
  jlit "{'user_id': '0f9d3c1e-7a52-4b6e-9c11-5d2e8a4f7b30', 'image_url': 'https://example.com/meal.jpg'}".

Definition bob_request : AnalyzeMealRequest :=
  {| req_user_id := bob;
     req_image_url := Some photo;
     req_description := None |}.

(** The photo answers the probe with [reply]. *)
Definition probing (reply : HeadReply) (vision : Upstream) : Env :=
  {| today := a_day;
     OPENAI_API_KEY := true;
     getUser := fun _ => User alice;
     url_protocol := fun _ => Some (lit "https:");
     head := fun _ => reply;
     gemini_vision := fun _ _ => vision;
     openai_vision := fun _ _ => vision;
     gemini_text := fun _ => vision |}.

(** Two rows of Alice for the same day. *)
Definition doubled : World :=
  {| ledger := [{| user_id := alice; usage_date := a_day; calls := 7;
                   estimated_cost := of_decimal false 21 (-2) |};
                {| user_id := alice; usage_date := a_day; calls := 7;
                   estimated_cost := of_decimal false 21 (-2) |}];
     trace := [] |}.

(** The boundary configurations of the specification. *)
Definition limit_5_ceiling_80 : Config :=
  {| RATE_LIMIT_DAILY := 5;
     COST_LIMIT_MONTHLY_INR := of_Z 80;
     GEMINI_COST_PER_IMAGE_INR := of_decimal false 3 (-2);
     OPENAI_COST_PER_IMAGE_INR := of_decimal false 9 (-2) |}.

(** A month in which others have spent 79.99 so far. *)
Definition nearly_spent : World :=
  {| ledger := [{| user_id := bob;
                   usage_date := {| year := 2026; month := 1; day := 3 |};
                   calls := 2666;
                   estimated_cost := of_decimal false 7999 (-2) |}];
     trace := [] |}.

(** A month that has just begun: 50 were spent on the last day of
    December and 79.99 on the first day of January. *)
Definition new_month : World :=
  {| ledger := [{| user_id := bob;
                   usage_date := {| year := 2025; month := 12; day := 31 |};
                   calls := 1666;
                   estimated_cost := of_Z 50 |};
                {| user_id := bob;
                   usage_date := {| year := 2026; month := 1; day := 1 |};
                   calls := 2666;
                   estimated_cost := of_decimal false 7999 (-2) |}];
     trace := [] |}.

(** A month in which exactly 80 have been spent. *)
Definition fully_spent : World :=
  {| ledger := [{| user_id := bob;
                   usage_date := {| year := 2026; month := 1; day := 1 |};
                   calls := 2666;
                   estimated_cost := of_Z 80 |}];
     trace := [] |}.

(** Alice had five analyses the day before, and Bob has had five today. *)
Definition busy_elsewhere : World :=
  {| ledger := [{| user_id := alice;
                   usage_date := {| year := 2026; month := 1; day := 14 |};
                   calls := 5;
                   estimated_cost := of_decimal false 15 (-2) |};
                {| user_id := bob;
                   usage_date := a_day;
                   calls := 5;
                   estimated_cost := of_decimal false 15 (-2) |}];
     trace := [] |}.

End Fixtures.

(** ** Stages of the gate *)

(** The world after some more events, the newest first. *)
Definition logged (evs : list Event) (w : World) : World :=
  {| ledger := ledger w; trace := evs ++ trace w |}.

(** [authHeader.replace('Bearer ', '')] *)
Definition token_of (req : Request) : jsstring :=
  match authorization req with
  | Some h => remove_first (lit "Bearer ") h
  | None => []
  end.

(** The test of line 88 is false: the user may go on. *)
Definition under_quota (cfg : Config) (env : Env) (id : jsstring)
                       (w : World) : bool :=
  negb (RATE_LIMIT_DAILY cfg <=? daily_count id (today env) (ledger w)).

(** The test of line 94. *)
Definition over_budget (cfg : Config) (env : Env) (w : World) : bool :=
  ge (monthly_cost (firstDayOfMonth (today env)) (ledger w))
     (COST_LIMIT_MONTHLY_INR cfg).

(** The stage ended before the quota check, or threw. *)
Definition no_admission {A} (r : result Exn (step A)) : Prop :=
  match r with
  | Ok (Continue _) => False
  | Ok (Return (Failure DailyRateLimitExceeded)) => False
  | Ok (Return (Failure (MonthlyCostLimitReached _))) => False
  | Ok (Return (Success _)) => False
  | _ => True
  end.

(** The table holds at most one row of this user and day, and [n] is the
    number of calls it records. *)
Definition tidy (id : jsstring) (date : Date) (table : list AIUsageRecord)
                (n : Z) : Prop :=
  match select_rows id date table with
  | [] => n = 0
  | [r] => calls r = n
  | _ => False
  end.

Definition successes (rs : list Response) : Z :=
  Z.of_nat (List.length (filter is_success rs)).

(** The arrival is a request of user [id] on day [date] that gets as far
    as the quota check. *)
Definition from_user (id : jsstring) (date : Date) (a : Env * Request) : Prop :=
  today (fst a) = date /\ exists rd, passes_identity (fst a) (snd a) id rd.


(** At most one row of this user and day. *)
Definition at_most_one (id : jsstring) (date : Date)
                       (table : list AIUsageRecord) : Prop :=
  (List.length (select_rows id date table) <= 1)%nat.

(** No row of this user and day. *)
Definition no_row (id : jsstring) (date : Date) (table : list AIUsageRecord)
  : Prop :=
  Forall (fun r => user_id r <> id \/ usage_date r <> date) table.

(** The date lies in a month before that of [d]. *)
Definition in_earlier_month (d x : Date) : Prop :=
  year x < year d \/ (year x = year d /\ month x < month d).

(** The date lies in the month of [d], from its first day on, or later. *)
Definition since_first_of_month (d x : Date) : Prop :=
  year d < year x
  \/ (year x = year d /\ month d < month x)
  \/ (year x = year d /\ month x = month d /\ 1 <= day x).

(** The request data that [validateRequest] returns for the three fields. *)
Definition request_of (uid : jsstring) (image_url description : option jsstring)
  : AnalyzeMealRequest :=
  {| req_user_id := uid;
     req_image_url := image_url;
     req_description := description |}.

(** The string of an optional string, [''] for [undefined]. *)
Definition text_of (s : option jsstring) : jsstring :=
  match s with
  | Some t => t
  | None => []
  end.

(** A run of white space. *)
Definition blank (ws : jsstring) : Prop :=
  Forall (fun c => isWhiteSpace c = true) ws.

(** A JSON object text: an opening brace, a body, a closing brace. *)
Definition braced (body : jsstring) : jsstring := 123%N :: body ++ [125%N].

(* ------------------------------------------------------------------ *)
(** * Properties *)

Local Open Scope monad_scope.

(** ** Strings *)

Lemma jsstring_eqb_eq (a b : jsstring) : JsString.eqb a b = true <-> a = b.
Proof.
  revert b; induction a as [|x a IH]; intros [|y b]; simpl; split; intro H;
    try reflexivity; try discriminate.
  - apply andb_true_iff in H as [Hx Hr]. apply N.eqb_eq in Hx.
    apply IH in Hr. now subst.
  - injection H as -> ->. apply andb_true_iff; split;
      [apply N.eqb_refl | now apply IH].
Qed.

Lemma eqb_refl a : JsString.eqb a a = true.
Proof. now apply jsstring_eqb_eq. Qed.

(** ** The ledger *)

Lemma Date_eqb_refl d : Date_eqb d d = true.
Proof. unfold Date_eqb. now rewrite !Z.eqb_refl. Qed.

Lemma Date_eqb_eq a b : Date_eqb a b = true -> a = b.
Proof.
  destruct a, b. unfold Date_eqb. simpl. intro H.
  apply andb_true_iff in H as [H H3]. apply andb_true_iff in H as [H1 H2].
  apply Z.eqb_eq in H1, H2, H3. now subst.
Qed.

Lemma row_of_refl id date c x :
  row_of id date {| user_id := id; usage_date := date; calls := c;
                    estimated_cost := x |} = true.
Proof. unfold row_of. simpl. now rewrite eqb_refl, Date_eqb_refl. Qed.

Lemma select_rows_app id date t1 t2 :
  select_rows id date (t1 ++ t2) = select_rows id date t1 ++ select_rows id date t2.
Proof. apply filter_app. Qed.

Lemma select_rows_update id date id' date' c x table :
  select_rows id' date' (update_rows id date c x table)
  = map (fun r => if row_of id date r
                  then {| user_id := user_id r; usage_date := usage_date r;
                          calls := c; estimated_cost := x |}
                  else r)
        (select_rows id' date' table).
Proof.
  unfold select_rows, update_rows.
  induction table as [|r t IH]; simpl; [reflexivity|].
  assert (E : row_of id' date'
                (if row_of id date r
                 then {| user_id := user_id r; usage_date := usage_date r;
                         calls := c; estimated_cost := x |}
                 else r) = row_of id' date' r)
    by (destruct (row_of id date r); reflexivity).
  rewrite E. destruct (row_of id' date' r); simpl; now rewrite IH.
Qed.

Lemma select_rows_all id date table :
  Forall (fun r => row_of id date r = true) (select_rows id date table).
Proof.
  unfold select_rows. apply Forall_forall. intros r H.
  now apply filter_In in H.
Qed.

Lemma daily_count_tidy id date table n :
  tidy id date table n -> daily_count id date table = n.
Proof.
  unfold tidy, daily_count, single.
  destruct (select_rows id date table) as [|r [|r' l]]; intro H;
    try contradiction; [now subst|].
  subst. destruct (calls r =? 0) eqn:E; [apply Z.eqb_eq in E; lia | reflexivity].
Qed.

Lemma recorded_tidy cfg id date model table n :
  tidy id date table n ->
  tidy id date (recorded cfg date id model table) (n + 1).
Proof.
  unfold tidy, recorded, single.
  pose proof (select_rows_all id date table) as A.
  destruct (select_rows id date table) as [|r [|r' l]] eqn:S; intro H;
    try contradiction.
  - rewrite select_rows_app, S. simpl. unfold select_rows. simpl.
    rewrite row_of_refl. simpl. lia.
  - rewrite select_rows_update, S. simpl.
    inversion A as [|? ? R _]; subst. rewrite R. simpl. reflexivity.
Qed.

Lemma recorded_other_rows cfg id date model id' date' table :
  JsString.eqb id id' && Date_eqb date date' = false ->
  select_rows id' date' (recorded cfg date id model table)
  = select_rows id' date' table.
Proof.
  intro K. unfold recorded.
  destruct (single (select_rows id date table)).
  - rewrite select_rows_update.
    pose proof (select_rows_all id' date' table) as A.
    induction A as [|r l R _ IH]; simpl; [reflexivity|].
    rewrite IH. f_equal.
    destruct (row_of id date r) eqn:R'; [|reflexivity].
    exfalso. unfold row_of in R, R'.
    apply andb_true_iff in R as [R1 R2]. apply andb_true_iff in R' as [R3 R4].
    apply jsstring_eqb_eq in R1, R3. subst.
    rewrite eqb_refl in K. simpl in K.
    unfold Date_eqb in *.
    repeat match goal with
           | H : _ && _ = true |- _ => apply andb_true_iff in H as [? ?]
           | H : (_ =? _) = true |- _ => apply Z.eqb_eq in H
           end.
    assert (Date_eqb date date' = true) as D.
    { unfold Date_eqb. rewrite !andb_true_iff, !Z.eqb_eq. lia. }
    unfold Date_eqb in D. congruence.
  - rewrite select_rows_app. simpl. unfold select_rows at 2. simpl.
    unfold row_of. simpl. rewrite K. apply app_nil_r.
Qed.

(** ** Numbers *)

Lemma round_half_up_nearest s m k :
  let n := round_half_up s m k in
  2 ^ (Zpos k + 1) * n <= 2 * cond_Zopp s (Zpos m) + 2 ^ Zpos k
                       < 2 ^ (Zpos k + 1) * (n + 1).
Proof.
  unfold round_half_up. cbv zeta.
  assert (P : 0 < 2 ^ (Zpos k + 1)) by (apply Z.pow_pos_nonneg; lia).
  set (a := 2 * cond_Zopp s (Zpos m) + 2 ^ Zpos k).
  set (b := 2 ^ (Zpos k + 1)) in *.
  pose proof (Z.mul_div_le a b P).
  pose proof (Z.mul_succ_div_gt a b P).
  lia.
Qed.











(** ** The handler, stage by stage *)

Ltac unfold_monad :=
  unfold bind, ret, throw, lift, log, read_ledger, write_ledger in *.


Section Handler.
Variable cfg : Config.
Variable env : Env.

Lemma gate_after_identity req id rd w :
  passes_identity env req id rd ->
  gate cfg env req w =
    let w1 := logged [EvSelectDaily id (today env); EvGetUser (token_of req)] w in
    if negb (under_quota cfg env id w)
    then (Ok (Return (Failure DailyRateLimitExceeded)), w1)
    else
      let w2 := logged [EvSelectMonthly (firstDayOfMonth (today env))] w1 in
      if over_budget cfg env w
      then (Ok (Return (Failure (MonthlyCostLimitReached
                                   (COST_LIMIT_MONTHLY_INR cfg)))), w2)
      else
        match req_image_url rd with
        | Some ((_ :: _) as url) =>
            match image_check (head env url) with
            | Ok _ => (Ok (Continue (id, rd)), logged [EvHead url] w2)
            | Err e => (Err e, logged [EvHead url] w2)
            end
        | _ => (Ok (Continue (id, rd)), w2)
        end.
Proof.
  intros (Hm & (c & h & Ha & Hu) & (data & Hj & Hv) & Hid).
  unfold gate, token_of, under_quota, over_budget, req_json,
    getDailyUsageCount, getMonthlyEstimatedCost, validateImageUrl, logged.
  unfold_monad.
  rewrite Hm, Ha, Hu, Hj, Hv, Hid. simpl.
  rewrite (eqb_refl id). simpl.
  destruct (RATE_LIMIT_DAILY cfg <=? daily_count id (today env) (ledger w));
    simpl; [reflexivity|].
  destruct (ge _ _); simpl; [reflexivity|].
  destruct (req_image_url rd) as [[|a u]|]; simpl; reflexivity.
Qed.

Lemma gate_identity_dichotomy req w :
  (exists id rd, passes_identity env req id rd)
  \/ (exists r w1, gate cfg env req w = (r, w1)
                   /\ ledger w1 = ledger w /\ writes w1 = writes w
                   /\ inferences w1 = inferences w
                   /\ openai_calls w1 = openai_calls w
                   /\ no_admission r).
Proof.
  unfold passes_identity, gate, req_json.
  destruct (JsString.eqb (method req) (lit "POST")) eqn:Hm; simpl;
    [apply jsstring_eqb_eq in Hm | right; do 2 eexists; split; [reflexivity|]; simpl; auto 10].
  destruct (authorization req) as [[|c h]|] eqn:Ha;
    try (right; do 2 eexists; split; [reflexivity|]; simpl; now auto 10).
  unfold_monad.
  destruct (getUser env (remove_first (lit "Bearer ") (c :: h))) eqn:Hu;
    try (right; do 2 eexists; split; [reflexivity|]; simpl; now auto 10).
  destruct (JSON_parse (body req)) as [data|] eqn:Hj;
    try (right; do 2 eexists; split; [reflexivity|]; simpl; now auto 10).
  destruct (validateRequest env data) as [rd|e] eqn:Hv;
    try (right; do 2 eexists; split; [reflexivity|]; simpl; now auto 10).
  destruct (JsString.eqb (req_user_id rd) id) eqn:Hid; simpl;
    try (right; do 2 eexists; split; [reflexivity|]; simpl; now auto 10).
  apply jsstring_eqb_eq in Hid.
  left. exists id, rd. repeat split; eauto.
Qed.

Lemma passes_identity_unique req id rd id' rd' :
  passes_identity env req id rd -> passes_identity env req id' rd' ->
  id = id' /\ rd = rd'.
Proof.
  intros (_ & (c & h & Ha & Hu) & (data & Hj & Hv) & _)
         (_ & (c' & h' & Ha' & Hu') & (data' & Hj' & Hv') & _).
  rewrite Ha in Ha'. injection Ha' as <- <-.
  rewrite Hu in Hu'. injection Hu' as <-.
  rewrite Hj in Hj'. injection Hj' as <-.
  rewrite Hv in Hv'. injection Hv' as <-. auto.
Qed.

Lemma gate_cases req w r w1 :
  gate cfg env req w = (r, w1) ->
  (ledger w1 = ledger w /\ writes w1 = writes w
   /\ inferences w1 = inferences w /\ openai_calls w1 = openai_calls w)
  /\ (forall id rd, r = Ok (Continue (id, rd)) ->
        passes_identity env req id rd
        /\ under_quota cfg env id w = true /\ over_budget cfg env w = false)
  /\ (r = Ok (Return (Failure DailyRateLimitExceeded)) ->
        exists id rd, passes_identity env req id rd
                      /\ under_quota cfg env id w = false)
  /\ (forall l, r = Ok (Return (Failure (MonthlyCostLimitReached l))) ->
        exists id rd, passes_identity env req id rd
                      /\ under_quota cfg env id w = true
                      /\ over_budget cfg env w = true)
  /\ (forall x, r <> Ok (Return (Success x))).
Proof.
  intro H.
  destruct (gate_identity_dichotomy req w) as [(id & rd & P)|(r' & w' & G & L & A)].
  - rewrite (gate_after_identity req id rd w P) in H. cbv zeta in H.
    destruct (under_quota cfg env id w) eqn:Q; simpl in H.
    + destruct (over_budget cfg env w) eqn:B.
      * injection H as <- <-. unfold writes, inferences, openai_calls; simpl.
        repeat split; auto; try discriminate; intros; try discriminate.
        exists id, rd; auto.
      * destruct (req_image_url rd) as [[|a u]|];
          try destruct (image_check (head env (a :: u)));
          injection H as <- <-; unfold writes, inferences, openai_calls; simpl;
          repeat split; auto; try discriminate; intros; try discriminate;
          try match goal with
          | H : Ok (Continue _) = Ok (Continue _) |- _ =>
              injection H as <- <-; auto
          end.
        all: apply P.
    + injection H as <- <-. unfold writes, inferences, openai_calls; simpl.
      repeat split; auto; try discriminate; intros; try discriminate.
      exists id, rd; auto.
  - rewrite G in H. injection H as <- <-.
    destruct A as (A1 & A2 & A3 & A4).
    repeat split; auto; intros; subst; simpl in *; try contradiction.
    intro; subst; simpl in *; contradiction.
Qed.

Lemma analyze_cases rd w r w1 :
  analyze env rd w = (r, w1) ->
  ledger w1 = ledger w /\ writes w1 = writes w
  /\ (exists s, r = Ok s)
  /\ (forall m model, r = Ok (Continue (m, model)) -> produced_by env rd model m)
  /\ (forall x, r <> Ok (Return (Success x)))
  /\ (r <> Ok (Return (Failure DailyRateLimitExceeded)))
  /\ (forall l, r <> Ok (Return (Failure (MonthlyCostLimitReached l))))
  /\ (r <> Ok (Return (Failure UnableToEstimate_NotFood))).
Proof.
  unfold analyze, analyzeWithGemini, analyzeWithOpenAI, analyzeTextWithGemini,
    writes, produced_by.
  unfold_monad. intro H.
  destruct (req_image_url rd) as [[|a u]|] eqn:Hu.
  2: { destruct (gemini_outcome env (a :: u) (req_description rd)) as [m|e] eqn:G.
    - destruct (Confidence_eqb (confidence m) low && OPENAI_API_KEY env).
      + destruct (openai_outcome env (a :: u) (req_description rd)) as [m2|e2] eqn:O.
        * destruct (negb (Confidence_eqb (confidence m2) low));
          injection H as <- <-; simpl; repeat split; eauto; try discriminate;
          intros; try discriminate;
          match goal with
          | H : Ok (Continue _) = Ok (Continue _) |- _ => injection H as <- <-; auto
          end.
        * injection H as <- <-; simpl; repeat split; eauto; try discriminate;
          intros; try discriminate;
          match goal with
          | H : Ok (Continue _) = Ok (Continue _) |- _ => injection H as <- <-; auto
          end.
      + injection H as <- <-; simpl; repeat split; eauto; try discriminate;
          intros; try discriminate;
          match goal with
          | H : Ok (Continue _) = Ok (Continue _) |- _ => injection H as <- <-; auto
          end.
    - destruct (OPENAI_API_KEY env).
      + destruct (openai_outcome env (a :: u) (req_description rd)) as [m2|e2] eqn:O;
        injection H as <- <-; simpl; repeat split; eauto; try discriminate;
          intros; try discriminate;
          match goal with
          | H : Ok (Continue _) = Ok (Continue _) |- _ => injection H as <- <-; auto
          end.
      + injection H as <- <-; simpl; repeat split; eauto; try discriminate;
          intros; discriminate. }
  all: destruct (req_description rd) as [[|b d]|] eqn:Hd;
    try destruct (gemini_text_outcome env (b :: d)) as [m|e] eqn:G;
    injection H as <- <-; simpl; repeat split; eauto; try discriminate;
    intros; try discriminate;
    match goal with
    | H : Ok (Continue _) = Ok (Continue _) |- _ => injection H as <- <-; eauto
    end.
Qed.

Lemma finalize_cases id m model w :
  (looks_like_no_food m = true
   /\ finalize cfg env id m model w = (Ok (Failure UnableToEstimate_NotFood), w))
  \/ (looks_like_no_food m = false
      /\ exists w', finalize cfg env id m model w
                    = (Ok (Success (response_of m model)), w')
                    /\ ledger w' = recorded cfg (today env) id model (ledger w)
                    /\ writes w' = S (writes w)
                    /\ inferences w' = inferences w
                    /\ openai_calls w' = openai_calls w).
Proof.
  unfold finalize, recordAIUsage, recorded, writes, inferences, openai_calls.
  unfold_monad.
  destruct (looks_like_no_food m); [left; auto | right; split; auto].
  simpl.
  destruct (single (select_rows id (today env) (ledger w)));
    eexists; (split; [reflexivity|]); simpl; auto.
Qed.

Lemma gate_continue_not_options req w id rd w1 :
  gate cfg env req w = (Ok (Continue (id, rd)), w1) ->
  JsString.eqb (method req) (lit "OPTIONS") = false.
Proof.
  intro G. apply gate_cases in G as (_ & C & _).
  destruct (C id rd eq_refl) as ((Hm & _) & _). now rewrite Hm.
Qed.

Lemma handler_after_analysis req w id rd w1 m model w2 :
  gate cfg env req w = (Ok (Continue (id, rd)), w1) ->
  analyze env rd w1 = (Ok (Continue (m, model)), w2) ->
  handler cfg env req w =
    match finalize cfg env id m model w2 with
    | (Ok r, w') => (r, w')
    | (Err e, w') => (on_error e, w')
    end.
Proof.
  intros G A. unfold handler, process.
  rewrite (gate_continue_not_options req w id rd w1 G).
  unfold bind at 1. rewrite G. unfold bind at 1. rewrite A. reflexivity.
Qed.

Lemma handler_of_gate req w g w1 :
  JsString.eqb (method req) (lit "OPTIONS") = false ->
  gate cfg env req w = (g, w1) ->
  match g with
  | Ok (Return r) => handler cfg env req w = (r, w1)
  | Err e => handler cfg env req w = (on_error e, w1)
  | Ok (Continue (id, rd)) =>
      forall a w2, analyze env rd w1 = (Ok a, w2) ->
        match a with
        | Return r => handler cfg env req w = (r, w2)
        | Continue (m, model) =>
            handler cfg env req w =
              match finalize cfg env id m model w2 with
              | (Ok r, w') => (r, w')
              | (Err e, w') => (on_error e, w')
              end
        end
  end.
Proof.
  intros Ho G. unfold handler, process. rewrite Ho. unfold bind.
  rewrite G. destruct g as [[r|[id rd]]|e]; try reflexivity.
  intros a w2 A. cbv beta iota. rewrite A.
  destruct a as [r|[m model]]; reflexivity.
Qed.

Lemma handler_cases req w :
  (exists id rd w1 m model w2,
      gate cfg env req w = (Ok (Continue (id, rd)), w1)
      /\ analyze env rd w1 = (Ok (Continue (m, model)), w2)
      /\ looks_like_no_food m = false
      /\ fst (handler cfg env req w) = Success (response_of m model)
      /\ ledger (snd (handler cfg env req w))
         = recorded cfg (today env) id model (ledger w)
      /\ writes (snd (handler cfg env req w)) = S (writes w))
  \/ ((forall x, fst (handler cfg env req w) <> Success x)
      /\ ledger (snd (handler cfg env req w)) = ledger w
      /\ writes (snd (handler cfg env req w)) = writes w).
Proof.
  destruct (JsString.eqb (method req) (lit "OPTIONS")) eqn:Ho.
  { right. unfold handler. rewrite Ho. simpl. repeat split; auto. discriminate. }
  destruct (gate cfg env req w) as [g w1] eqn:G.
  pose proof (gate_cases req w g w1 G) as ((L1 & W1 & _) & _ & _ & _ & NS).
  pose proof (handler_of_gate req w g w1 Ho G) as HG.
  destruct g as [[r|[id rd]]|e].
  - right. rewrite HG. simpl. split; [|split; congruence].
    intros x E. subst. now apply (NS x).
  - destruct (analyze env rd w1) as [a w2] eqn:A.
    pose proof (analyze_cases rd w1 a w2 A) as (L2 & W2 & (s & ->) & _ & NS2 & _).
    specialize (HG s w2 eq_refl).
    destruct s as [r|[m model]].
    + right. rewrite HG. simpl. split; [|split; congruence].
      intros x E. subst. now apply (NS2 x).
    + rewrite HG.
      destruct (finalize_cases id m model w2) as [(F & E)|(F & w' & E & L3 & W3 & _)];
        rewrite E; simpl.
      * right. split; [discriminate|split; congruence].
      * left. exists id, rd, w1, m, model, w2. repeat split; auto; congruence.
  - right. rewrite HG. simpl. split; [destruct e; discriminate|split; congruence].
Qed.
End Handler.

(** ** Where the admission failures come from *)

Section Origins.
Variable cfg : Config.
Variable env : Env.

Lemma passes_identity_not_options req id rd :
  passes_identity env req id rd ->
  JsString.eqb (method req) (lit "OPTIONS") = false.
Proof. intros (Hm & _). now rewrite Hm. Qed.

Lemma handler_rate_limited req w :
  fst (handler cfg env req w) = Failure DailyRateLimitExceeded ->
  exists id rd, passes_identity env req id rd
                /\ under_quota cfg env id w = false.
Proof.
  destruct (JsString.eqb (method req) (lit "OPTIONS")) eqn:Ho.
  { unfold handler. rewrite Ho. discriminate. }
  destruct (gate cfg env req w) as [g w1] eqn:G.
  pose proof (gate_cases cfg env req w g w1 G) as (_ & _ & R & _).
  pose proof (handler_of_gate cfg env req w g w1 Ho G) as HG.
  destruct g as [[r|[id rd]]|e].
  - rewrite HG. simpl. intros ->. now apply R.
  - destruct (analyze env rd w1) as [a w2] eqn:A.
    pose proof (analyze_cases env rd w1 a w2 A)
      as (_ & _ & (s & ->) & _ & _ & NR & _).
    specialize (HG s w2 eq_refl).
    destruct s as [r|[m model]].
    + rewrite HG. simpl. intros ->. now elim NR.
    + rewrite HG.
      destruct (finalize_cases cfg env id m model w2)
        as [(_ & E)|(_ & w' & E & _)]; rewrite E; discriminate.
  - rewrite HG. destruct e; discriminate.
Qed.

Lemma handler_cost_limited req w l :
  fst (handler cfg env req w) = Failure (MonthlyCostLimitReached l) ->
  exists id rd, passes_identity env req id rd
                /\ under_quota cfg env id w = true
                /\ over_budget cfg env w = true.
Proof.
  destruct (JsString.eqb (method req) (lit "OPTIONS")) eqn:Ho.
  { unfold handler. rewrite Ho. discriminate. }
  destruct (gate cfg env req w) as [g w1] eqn:G.
  pose proof (gate_cases cfg env req w g w1 G) as (_ & _ & _ & R & _).
  pose proof (handler_of_gate cfg env req w g w1 Ho G) as HG.
  destruct g as [[r|[id rd]]|e].
  - rewrite HG. simpl. intros ->. now apply (R l).
  - destruct (analyze env rd w1) as [a w2] eqn:A.
    pose proof (analyze_cases env rd w1 a w2 A)
      as (_ & _ & (s & ->) & _ & _ & _ & NR & _).
    specialize (HG s w2 eq_refl).
    destruct s as [r|[m model]].
    + rewrite HG. simpl. intros ->. now elim (NR l).
    + rewrite HG.
      destruct (finalize_cases cfg env id m model w2)
        as [(_ & E)|(_ & w' & E & _)]; rewrite E; discriminate.
  - rewrite HG. destruct e; discriminate.
Qed.

(** A request stopped by the quota or the cost guard: nothing but the
    two reads has happened. *)
Lemma handler_rejected_at_gate req id rd w :
  passes_identity env req id rd ->
  (under_quota cfg env id w = false ->
     fst (handler cfg env req w) = Failure DailyRateLimitExceeded
     /\ ledger (snd (handler cfg env req w)) = ledger w
     /\ writes (snd (handler cfg env req w)) = writes w
     /\ inferences (snd (handler cfg env req w)) = inferences w)
  /\ (under_quota cfg env id w = true -> over_budget cfg env w = true ->
        fst (handler cfg env req w)
        = Failure (MonthlyCostLimitReached (COST_LIMIT_MONTHLY_INR cfg))
        /\ ledger (snd (handler cfg env req w)) = ledger w
        /\ writes (snd (handler cfg env req w)) = writes w
        /\ inferences (snd (handler cfg env req w)) = inferences w).
Proof.
  intro P.
  pose proof (passes_identity_not_options req id rd P) as Ho.
  pose proof (gate_after_identity cfg env req id rd w P) as G.
  cbv zeta in G. split.
  - intro Q. rewrite Q in G. simpl in G.
    pose proof (handler_of_gate cfg env req w _ _ Ho G) as HG.
    simpl in HG. rewrite HG. simpl. auto.
  - intros Q B. rewrite Q, B in G. simpl in G.
    pose proof (handler_of_gate cfg env req w _ _ Ho G) as HG.
    simpl in HG. rewrite HG. simpl. auto.
Qed.

(** The effect of one request of user [id] on a tidy table. *)
Lemma handler_keeps_tidy req id rd w n :
  passes_identity env req id rd ->
  tidy id (today env) (ledger w) n ->
  tidy id (today env) (ledger (snd (handler cfg env req w)))
       (n + (if is_success (fst (handler cfg env req w)) then 1 else 0))
  /\ (RATE_LIMIT_DAILY cfg <= n ->
        fst (handler cfg env req w) = Failure DailyRateLimitExceeded)
  /\ (n < RATE_LIMIT_DAILY cfg ->
        fst (handler cfg env req w) <> Failure DailyRateLimitExceeded).
Proof.
  intros P T.
  pose proof (daily_count_tidy _ _ _ _ T) as D.
  split; [|split].
  - destruct (handler_cases cfg env req w)
      as [(id' & rd' & w1 & m & model & w2 & G & _ & _ & R & L & _)
         |(NS & L & _)].
    + rewrite R, L. simpl.
      apply gate_cases in G as (_ & C & _).
      destruct (C id' rd' eq_refl) as (P' & _).
      destruct (passes_identity_unique env req id rd id' rd' P P') as [<- <-].
      now apply recorded_tidy.
    + rewrite L.
      destruct (fst (handler cfg env req w)) eqn:E; simpl;
        try (now rewrite Z.add_0_r).
      now elim (NS r).
  - intro H. apply (handler_rejected_at_gate req id rd w P).
    unfold under_quota. rewrite D.
    apply negb_false_iff. now apply Z.leb_le.
  - intros H E. apply handler_rate_limited in E as (id' & rd' & P' & Q).
    destruct (passes_identity_unique env req id rd id' rd' P P') as [<- <-].
    unfold under_quota in Q. rewrite D in Q.
    apply negb_false_iff, Z.leb_le in Q. lia.
Qed.
End Origins.

(** ** A sequence of requests of one user on one day *)

Lemma serve_length cfg arrivals w :
  List.length (fst (serve cfg arrivals w)) = List.length arrivals.
Proof.
  revert w. induction arrivals as [|[env req] rest IH]; intro w; simpl;
    [reflexivity|].
  destruct (handler cfg env req w) as [r w1].
  specialize (IH w1). destruct (serve cfg rest w1) as [rs w2]. simpl in *.
  now rewrite IH.
Qed.

Lemma serve_counts cfg id date arrivals :
  Forall (from_user id date) arrivals ->
  forall w n,
    tidy id date (ledger w) n ->
    forall i, (i < List.length arrivals)%nat ->
      let rs := fst (serve cfg arrivals w) in
      let before := n + successes (firstn i rs) in
      (RATE_LIMIT_DAILY cfg <= before ->
         nth i rs Preflight = Failure DailyRateLimitExceeded)
      /\ (before < RATE_LIMIT_DAILY cfg ->
            nth i rs Preflight <> Failure DailyRateLimitExceeded).
Proof.
  induction 1 as [|[env req] rest [Hd (rd & P)] _ IH]; intros w n T i Hi;
    simpl in Hi; [lia|].
  simpl in Hd, P. subst date. simpl.
  pose proof (handler_keeps_tidy cfg env req id rd w n P T) as (T' & R1 & R2).
  destruct (handler cfg env req w) as [r w1]. simpl in T', R1, R2.
  specialize (IH w1 _ T').
  destruct (serve cfg rest w1) as [rs w2] eqn:Sv. simpl in IH.
  destruct i as [|i]; simpl.
  - unfold successes. simpl. rewrite Z.add_0_r. auto.
  - specialize (IH i ltac:(lia)).
    assert (E : n + successes (firstn (S i) (r :: rs))
                = n + (if is_success r then 1 else 0) + successes (firstn i rs)).
    { unfold successes. simpl. destruct (is_success r); simpl; lia. }
    simpl in E. rewrite E. exact IH.
Qed.

Lemma successes_bound rs : 0 <= successes rs <= Z.of_nat (List.length rs).
Proof.
  unfold successes. pose proof (filter_length_le is_success rs). lia.
Qed.

Lemma successes_all rs :
  Forall (fun r => is_success r = true) rs ->
  successes rs = Z.of_nat (List.length rs).
Proof.
  unfold successes. induction 1 as [|r l H _ IH]; simpl; [reflexivity|].
  rewrite H. simpl. lia.
Qed.

(** ** The normalizers *)

Lemma as_number_inv v x : as_number v = Some x -> v = Some (JNumber x).
Proof. destruct v as [[]|]; simpl; intro H; try discriminate. now injection H as ->. Qed.

Lemma as_confidence_inv v c :
  as_confidence v = Some c -> v = Some (JString (confidence_literal c)).
Proof.
  destruct v as [[| | |s| |]|]; simpl; try discriminate.
  destruct (JsString.eqb s (lit "low")) eqn:L;
    [|destruct (JsString.eqb s (lit "medium")) eqn:M;
      [|destruct (JsString.eqb s (lit "high")) eqn:H; [|discriminate]]];
    intro E; injection E as <-;
    match goal with
    | H : JsString.eqb _ _ = true |- _ => apply jsstring_eqb_eq in H; now subst
    end.
Qed.

(** The validation and rounding block shared by the three normalizers. *)
Lemma structure_block_inv parsed (d : option json) est :
  match as_number (prop parsed "calories"),
        as_number (prop parsed "protein"),
        as_number (prop parsed "carbs"),
        as_number (prop parsed "fat"),
        as_confidence (prop parsed "confidence") with
  | Some c, Some p, Some cb, Some f, Some conf =>
      Ok {| calories := Math_round c; protein := round1 p;
            carbs := round1 cb; fat := round1 f; confidence := conf;
            meal_description := d |}
  | _, _, _, _, _ => @Err NormalizeError _ InvalidStructure
  end = Ok est ->
  exists c p cb f, rounded_from parsed est c p cb f.
Proof.
  destruct (as_number (prop parsed "calories")) as [c|] eqn:C; [|discriminate].
  destruct (as_number (prop parsed "protein")) as [p|] eqn:P; [|discriminate].
  destruct (as_number (prop parsed "carbs")) as [cb|] eqn:B; [|discriminate].
  destruct (as_number (prop parsed "fat")) as [f|] eqn:F; [|discriminate].
  destruct (as_confidence (prop parsed "confidence")) as [conf|] eqn:K;
    [|discriminate].
  intro E. injection E as <-.
  apply as_number_inv in C, P, B, F. apply as_confidence_inv in K.
  exists c, p, cb, f. constructor; simpl; auto.
Qed.

Lemma gemini_parse_inv text est :
  GeminiHelper.parseAIResponse text = Ok est ->
  exists parsed c p cb f,
    JSON_parse (GeminiHelper.candidate text) = Some parsed
    /\ rounded_from parsed est c p cb f.
Proof.
  unfold GeminiHelper.parseAIResponse. cbv zeta.
  destruct (JSON_parse (GeminiHelper.candidate text)) as [parsed|];
    [|discriminate].
  intro H. exists parsed.
  destruct parsed; try discriminate H;
    apply structure_block_inv in H as (c & p & cb & f & R);
    exists c, p, cb, f; auto.
Qed.

Lemma openai_parse_inv text est :
  OpenAIHelper.parseAIResponse text = Ok est ->
  exists parsed c p cb f,
    JSON_parse (trim text) = Some parsed
    /\ rounded_from parsed est c p cb f.
Proof.
  unfold OpenAIHelper.parseAIResponse.
  destruct (JSON_parse (trim text)) as [parsed|]; [|discriminate].
  intro H. exists parsed.
  destruct parsed; try discriminate H;
    apply structure_block_inv in H as (c & p & cb & f & R);
    exists c, p, cb, f; auto.
Qed.

Lemma text_parse_inv text est :
  GeminiTextHelper.parseTextAnalysisResponse text = Ok est ->
  exists parsed c p cb f,
    JSON_parse (GeminiTextHelper.candidate text) = Some parsed
    /\ rounded_from parsed est c p cb f.
Proof.
  unfold GeminiTextHelper.parseTextAnalysisResponse. cbv zeta.
  destruct (JSON_parse (GeminiTextHelper.candidate text)) as [parsed|].
  2: { destruct (_ || _); discriminate. }
  intro H. exists parsed.
  destruct parsed; try discriminate H;
    apply structure_block_inv in H as (c & p & cb & f & R);
    exists c, p, cb, f; auto.
Qed.

Lemma endsWith_single c s :
  endsWith [c] s = true <-> exists s', s = s' ++ [c].
Proof.
  unfold endsWith. simpl. split.
  - destruct (rev s) as [|y r] eqn:E; [discriminate|].
    intro H. apply andb_true_iff in H as [H _]. apply N.eqb_eq in H. subst y.
    exists (rev r). rewrite <- (rev_involutive s), E. reflexivity.
  - intros (s' & ->). rewrite rev_app_distr. simpl.
    unfold code_eqb. now rewrite N.eqb_refl.
Qed.

Lemma ends_with_comma_not_brace s :
  endsWith (lit ",") s = true -> endsWith (lit "}") s = false.
Proof.
  intro H. apply (endsWith_single 44%N) in H as (s' & ->).
  unfold endsWith. rewrite rev_app_distr. reflexivity.
Qed.

Lemma ends_with_comma_brace s :
  endsWith (lit ",}") s = true -> endsWith (lit "}") s = true.
Proof.
  unfold endsWith. simpl.
  destruct (rev s) as [|a [|b r]]; simpl; try discriminate;
    rewrite ?andb_false_r; try discriminate.
  intro H. apply andb_true_iff in H as [H _]. now rewrite H.
Qed.

(** ** The image branch of the analysis *)

Lemma analyze_image env rd c u m w :
  req_image_url rd = Some (c :: u) ->
  gemini_outcome env (c :: u) (req_description rd) = Ok m ->
  analyze env rd w =
    let called := EvGemini (c :: u) (req_description rd) in
    let fallback := EvOpenAI (c :: u) (req_description rd) in
    if Confidence_eqb (confidence m) low && OPENAI_API_KEY env
    then match openai_outcome env (c :: u) (req_description rd) with
         | Ok m2 =>
             if negb (Confidence_eqb (confidence m2) low)
             then (Ok (Continue (m2, openai)), logged [fallback; called] w)
             else (Ok (Continue (m, gemini)), logged [fallback; called] w)
         | Err _ => (Ok (Continue (m, gemini)), logged [fallback; called] w)
         end
    else (Ok (Continue (m, gemini)), logged [called] w).
Proof.
  intros U G. unfold analyze, analyzeWithGemini, analyzeWithOpenAI, logged.
  unfold_monad. rewrite U, G. cbv zeta.
  destruct (Confidence_eqb (confidence m) low && OPENAI_API_KEY env);
    [|reflexivity].
  destruct (openai_outcome env (c :: u) (req_description rd)) as [m2|e];
    [|reflexivity].
  destruct (negb (Confidence_eqb (confidence m2) low)); reflexivity.
Qed.

Lemma Confidence_eqb_low c : Confidence_eqb c low = true <-> c = low.
Proof. destruct c; simpl; split; congruence. Qed.

(** What the handler answers once an estimate has been accepted. *)
Lemma handler_finalizes cfg env req w id rd w1 m model w2 :
  gate cfg env req w = (Ok (Continue (id, rd)), w1) ->
  analyze env rd w1 = (Ok (Continue (m, model)), w2) ->
  fst (handler cfg env req w)
  = (if looks_like_no_food m then Failure UnableToEstimate_NotFood
     else Success (response_of m model))
  /\ openai_calls (snd (handler cfg env req w)) = openai_calls w2.
Proof.
  intros G A. rewrite (handler_after_analysis cfg env req w id rd w1 m model w2 G A).
  destruct (finalize_cases cfg env id m model w2)
    as [(F & E)|(F & w' & E & _ & _ & _ & O)]; rewrite E, F; simpl; auto.
Qed.

(** ** The claims *)

(** C1, as amended.  For every estimate accepted from a provider, the
    handler answers [unable_to_estimate] ("does not appear to contain
    food") exactly when calories are 0 or protein, carbs and fat are all 0;
    any other estimate is recorded and returned to the caller. *)
Theorem not_food_rule cfg env req w id rd w1 m model w2 :
  gate cfg env req w = (Ok (Continue (id, rd)), w1) ->
  analyze env rd w1 = (Ok (Continue (m, model)), w2) ->
  (fst (handler cfg env req w) = Failure UnableToEstimate_NotFood
   <-> strict_eq (calories m) zero = true
       \/ (strict_eq (protein m) zero = true
           /\ strict_eq (carbs m) zero = true
           /\ strict_eq (fat m) zero = true))
  /\ (fst (handler cfg env req w) <> Failure UnableToEstimate_NotFood ->
        fst (handler cfg env req w) = Success (response_of m model)).
Proof.
  intros G A.
  destruct (handler_finalizes cfg env req w id rd w1 m model w2 G A) as [E _].
  rewrite E. unfold looks_like_no_food.
  destruct (strict_eq (calories m) zero), (strict_eq (protein m) zero),
    (strict_eq (carbs m) zero), (strict_eq (fat m) zero); simpl;
    intuition congruence.
Qed.

Lemma not_food_rule_witness :
  (fst (handler CONFIG (Fixtures.env_of false Fixtures.jpeg Fixtures.dal_rice
                          UpstreamFailure UpstreamFailure)
                (Fixtures.post Fixtures.image_body) Fixtures.fresh)
   = Failure UnableToEstimate_NotFood
   <-> strict_eq (calories Fixtures.dal_rice_estimate) zero = true
       \/ (strict_eq (protein Fixtures.dal_rice_estimate) zero = true
           /\ strict_eq (carbs Fixtures.dal_rice_estimate) zero = true
           /\ strict_eq (fat Fixtures.dal_rice_estimate) zero = true))
  /\ (fst (handler CONFIG (Fixtures.env_of false Fixtures.jpeg Fixtures.dal_rice
                             UpstreamFailure UpstreamFailure)
                   (Fixtures.post Fixtures.image_body) Fixtures.fresh)
      <> Failure UnableToEstimate_NotFood ->
      fst (handler CONFIG (Fixtures.env_of false Fixtures.jpeg Fixtures.dal_rice
                             UpstreamFailure UpstreamFailure)
                   (Fixtures.post Fixtures.image_body) Fixtures.fresh)
      = Success (response_of Fixtures.dal_rice_estimate gemini)).
Proof.
  apply (not_food_rule CONFIG
           (Fixtures.env_of false Fixtures.jpeg Fixtures.dal_rice
              UpstreamFailure UpstreamFailure)
           (Fixtures.post Fixtures.image_body) Fixtures.fresh
           Fixtures.alice Fixtures.image_request
           (snd (gate CONFIG
                   (Fixtures.env_of false Fixtures.jpeg Fixtures.dal_rice
                      UpstreamFailure UpstreamFailure)
                   (Fixtures.post Fixtures.image_body) Fixtures.fresh))
           Fixtures.dal_rice_estimate gemini
           (snd (analyze
                   (Fixtures.env_of false Fixtures.jpeg Fixtures.dal_rice
                      UpstreamFailure UpstreamFailure)
                   Fixtures.image_request
                   (snd (gate CONFIG
                           (Fixtures.env_of false Fixtures.jpeg
                              Fixtures.dal_rice UpstreamFailure UpstreamFailure)
                           (Fixtures.post Fixtures.image_body)
                           Fixtures.fresh)))));
    vm_compute; reflexivity.
Defined.

(** C1 as stated fails: an estimate with calories 0 and protein 5 is
    rejected, and so is one with 120 calories and no protein, carbs or fat,
    although neither has all four fields at 0. *)
Lemma not_food_rule_counterexample :
  (gemini_text_outcome
     (Fixtures.env_of false Fixtures.jpeg UpstreamFailure UpstreamFailure
        Fixtures.protein_only)
     (lit "2 roti with sabzi and dal")
   = Ok Fixtures.protein_only_estimate
   /\ strict_eq (protein Fixtures.protein_only_estimate) zero = false
   /\ fst (handler CONFIG
             (Fixtures.env_of false Fixtures.jpeg UpstreamFailure
                UpstreamFailure Fixtures.protein_only)
             (Fixtures.post Fixtures.text_body) Fixtures.fresh)
      = Failure UnableToEstimate_NotFood)
  /\ (gemini_outcome
        (Fixtures.env_of false Fixtures.jpeg Fixtures.calories_only
           UpstreamFailure UpstreamFailure)
        Fixtures.photo None
      = Ok Fixtures.calories_only_estimate
      /\ strict_eq (calories Fixtures.calories_only_estimate) zero = false
      /\ fst (handler CONFIG
                (Fixtures.env_of false Fixtures.jpeg Fixtures.calories_only
                   UpstreamFailure UpstreamFailure)
                (Fixtures.post Fixtures.image_body) Fixtures.fresh)
         = Failure UnableToEstimate_NotFood).
Proof. vm_compute. repeat split; reflexivity. Qed.

(** C5, as amended.  For every admitted image request whose primary
    (Gemini) adapter succeeds with a confidence other than low, the
    secondary (OpenAI) adapter is never invoked and the primary estimate is
    the one accepted: it is returned with model [gemini] unless the
    not-food test of the final step rejects it. *)
Theorem confident_primary_never_falls_back cfg env req w id rd w1 c u m :
  gate cfg env req w = (Ok (Continue (id, rd)), w1) ->
  req_image_url rd = Some (c :: u) ->
  gemini_outcome env (c :: u) (req_description rd) = Ok m ->
  confidence m <> low ->
  openai_calls (snd (handler cfg env req w)) = openai_calls w
  /\ fst (handler cfg env req w)
     = (if looks_like_no_food m then Failure UnableToEstimate_NotFood
        else Success (response_of m gemini)).
Proof.
  intros G U O C.
  pose proof (analyze_image env rd c u m w1 U O) as A. cbv zeta in A.
  assert (L : Confidence_eqb (confidence m) low = false).
  { destruct (Confidence_eqb (confidence m) low) eqn:E; [|reflexivity].
    now apply Confidence_eqb_low in E. }
  rewrite L in A. simpl in A.
  destruct (handler_finalizes cfg env req w id rd w1 m gemini _ G A) as [R Oc].
  rewrite R, Oc. split; [|reflexivity].
  apply gate_cases in G as ((_ & _ & _ & Og) & _).
  unfold openai_calls in *. simpl. exact Og.
Qed.

Lemma confident_primary_never_falls_back_witness :
  openai_calls
    (snd (handler CONFIG (Fixtures.with_fallback Fixtures.dal_rice
                            Fixtures.dal_rice_unsure)
                  (Fixtures.post Fixtures.image_body) Fixtures.fresh))
  = openai_calls Fixtures.fresh
  /\ fst (handler CONFIG (Fixtures.with_fallback Fixtures.dal_rice
                            Fixtures.dal_rice_unsure)
                  (Fixtures.post Fixtures.image_body) Fixtures.fresh)
     = (if looks_like_no_food Fixtures.dal_rice_estimate
        then Failure UnableToEstimate_NotFood
        else Success (response_of Fixtures.dal_rice_estimate gemini)).
Proof.
  apply (confident_primary_never_falls_back CONFIG
           (Fixtures.with_fallback Fixtures.dal_rice Fixtures.dal_rice_unsure)
           (Fixtures.post Fixtures.image_body) Fixtures.fresh
           Fixtures.alice Fixtures.image_request
           (snd (gate CONFIG
                   (Fixtures.with_fallback Fixtures.dal_rice
                      Fixtures.dal_rice_unsure)
                   (Fixtures.post Fixtures.image_body) Fixtures.fresh))
           104%N (List.tl Fixtures.photo) Fixtures.dal_rice_estimate);
    try (vm_compute; reflexivity).
  vm_compute. discriminate.
Defined.

(** C5 as stated fails: the primary adapter answers with high confidence
    and no secondary call is made, yet the estimate is not returned,
    because all its fields are 0. *)
Lemma confident_primary_counterexample :
  gemini_outcome (Fixtures.with_fallback Fixtures.nothing_high Fixtures.dal_rice)
                 Fixtures.photo None
  = Ok (Fixtures.nothing_estimate high)
  /\ fst (handler CONFIG
            (Fixtures.with_fallback Fixtures.nothing_high Fixtures.dal_rice)
            (Fixtures.post Fixtures.image_body) Fixtures.fresh)
     = Failure UnableToEstimate_NotFood
  /\ fst (handler CONFIG
            (Fixtures.with_fallback Fixtures.nothing_high Fixtures.dal_rice)
            (Fixtures.post Fixtures.image_body) Fixtures.fresh)
     <> Success (response_of (Fixtures.nothing_estimate high) gemini).
Proof. vm_compute. repeat split; try reflexivity. discriminate. Qed.

(** C6, as amended.  For every admitted image request whose primary adapter
    succeeds with low confidence: the secondary adapter is invoked exactly
    when it is configured; its estimate is accepted only when it succeeds
    with a confidence other than low; when it is not configured, fails or
    is itself of low confidence the primary estimate is the one accepted.
    The accepted estimate is returned unless the not-food test of the final
    step rejects it. *)
Theorem low_confidence_fallback_only_upgrades cfg env req w id rd w1 c u m :
  gate cfg env req w = (Ok (Continue (id, rd)), w1) ->
  req_image_url rd = Some (c :: u) ->
  gemini_outcome env (c :: u) (req_description rd) = Ok m ->
  confidence m = low ->
  openai_calls (snd (handler cfg env req w))
  = (openai_calls w + (if OPENAI_API_KEY env then 1 else 0))%nat
  /\ (OPENAI_API_KEY env = false
      \/ (exists e, openai_outcome env (c :: u) (req_description rd) = Err e)
      \/ (exists m2, openai_outcome env (c :: u) (req_description rd) = Ok m2
                     /\ confidence m2 = low) ->
      fst (handler cfg env req w)
      = (if looks_like_no_food m then Failure UnableToEstimate_NotFood
         else Success (response_of m gemini)))
  /\ (forall m2,
        OPENAI_API_KEY env = true ->
        openai_outcome env (c :: u) (req_description rd) = Ok m2 ->
        confidence m2 <> low ->
        fst (handler cfg env req w)
        = (if looks_like_no_food m2 then Failure UnableToEstimate_NotFood
           else Success (response_of m2 openai))).
Proof.
  intros G U O C.
  pose proof (analyze_image env rd c u m w1 U O) as A. cbv zeta in A.
  rewrite C in A. simpl in A.
  pose proof G as G'. apply gate_cases in G' as ((_ & _ & _ & Og) & _).
  destruct (OPENAI_API_KEY env) eqn:K.
  - destruct (openai_outcome env (c :: u) (req_description rd)) as [m2|e] eqn:O2.
    + destruct (Confidence_eqb (confidence m2) low) eqn:L2; simpl in A;
        destruct (handler_finalizes cfg env req w id rd w1 _ _ _ G A) as [R Oc];
        rewrite R, Oc; (split; [unfold openai_calls in *; simpl; lia|]).
      * split; [auto|]. intros m3 _ E N. injection E as <-.
        apply Confidence_eqb_low in L2. contradiction.
      * split.
        -- intros [F|[(e & F)|(m3 & F & L3)]]; try discriminate.
           injection F as <-. apply Confidence_eqb_low in L3. congruence.
        -- intros m3 _ E _. now injection E as <-.
    + destruct (handler_finalizes cfg env req w id rd w1 _ _ _ G A) as [R Oc].
      rewrite R, Oc. split; [unfold openai_calls in *; simpl; lia|].
      split; [auto|]. intros m3 _ E. discriminate.
  - destruct (handler_finalizes cfg env req w id rd w1 _ _ _ G A) as [R Oc].
    rewrite R, Oc. split; [unfold openai_calls in *; simpl; lia|].
    split; [auto|]. intros m3 E. discriminate.
Qed.

Lemma low_confidence_fallback_witness :
  openai_calls
    (snd (handler CONFIG (Fixtures.with_fallback Fixtures.dal_rice_unsure
                            Fixtures.dal_rice)
                  (Fixtures.post Fixtures.image_body) Fixtures.fresh))
  = 1%nat
  /\ fst (handler CONFIG (Fixtures.with_fallback Fixtures.dal_rice_unsure
                            Fixtures.dal_rice)
                  (Fixtures.post Fixtures.image_body) Fixtures.fresh)
     = Success (response_of
                  (Fixtures.estimate
                     (calories Fixtures.dal_rice_estimate)
                     (protein Fixtures.dal_rice_estimate)
                     (carbs Fixtures.dal_rice_estimate)
                     (fat Fixtures.dal_rice_estimate) high None)
                  openai).
Proof.
  pose proof (low_confidence_fallback_only_upgrades CONFIG
           (Fixtures.with_fallback Fixtures.dal_rice_unsure Fixtures.dal_rice)
           (Fixtures.post Fixtures.image_body) Fixtures.fresh
           Fixtures.alice Fixtures.image_request
           (snd (gate CONFIG
                   (Fixtures.with_fallback Fixtures.dal_rice_unsure
                      Fixtures.dal_rice)
                   (Fixtures.post Fixtures.image_body) Fixtures.fresh))
           104%N (List.tl Fixtures.photo) Fixtures.dal_rice_unsure_estimate
           ltac:(vm_compute; reflexivity) ltac:(vm_compute; reflexivity)
           ltac:(vm_compute; reflexivity) ltac:(vm_compute; reflexivity))
    as (Calls & _ & Upgrade).
  split; [exact Calls|].
  apply (Upgrade (Fixtures.estimate
                     (calories Fixtures.dal_rice_estimate)
                     (protein Fixtures.dal_rice_estimate)
                     (carbs Fixtures.dal_rice_estimate)
                     (fat Fixtures.dal_rice_estimate) high None));
    try (vm_compute; reflexivity).
  vm_compute. discriminate.
Defined.

(** C6 as stated fails: with no secondary provider configured, a primary
    estimate of low confidence whose fields are all 0 is not returned. *)
Lemma low_confidence_fallback_counterexample :
  gemini_outcome (Fixtures.gemini_only Fixtures.nothing_low UpstreamFailure)
                 Fixtures.photo None
  = Ok (Fixtures.nothing_estimate low)
  /\ OPENAI_API_KEY (Fixtures.gemini_only Fixtures.nothing_low UpstreamFailure)
     = false
  /\ fst (handler CONFIG
            (Fixtures.gemini_only Fixtures.nothing_low UpstreamFailure)
            (Fixtures.post Fixtures.image_body) Fixtures.fresh)
     = Failure UnableToEstimate_NotFood.
Proof. vm_compute. repeat split; reflexivity. Qed.

(** ** What recording does to the table *)

Lemma row_of_false id date r :
  row_of id date r = false <-> user_id r <> id \/ usage_date r <> date.
Proof.
  unfold row_of. rewrite andb_false_iff. split; intros [H|H].
  - left. intro E. apply jsstring_eqb_eq in E. congruence.
  - right. intro E. subst. rewrite Date_eqb_refl in H. discriminate.
  - left. destruct (JsString.eqb (user_id r) id) eqn:E; [|reflexivity].
    now apply jsstring_eqb_eq in E.
  - right. destruct (Date_eqb (usage_date r) date) eqn:E; [|reflexivity].
    now apply Date_eqb_eq in E.
Qed.

Lemma no_row_select id date table :
  no_row id date table -> select_rows id date table = [].
Proof.
  unfold no_row, select_rows. induction 1 as [|r t H _ IH]; simpl;
    [reflexivity|].
  apply row_of_false in H. now rewrite H.
Qed.

Lemma update_rows_no_row id date c x table :
  no_row id date table -> update_rows id date c x table = table.
Proof.
  unfold no_row, update_rows. induction 1 as [|r t H _ IH]; simpl;
    [reflexivity|].
  apply row_of_false in H. now rewrite H, IH.
Qed.

Lemma recorded_no_row cfg id date model table :
  no_row id date table ->
  recorded cfg date id model table
  = table ++ [{| user_id := id; usage_date := date; calls := 1;
                 estimated_cost := cost_of cfg model |}].
Proof. intro N. unfold recorded. now rewrite (no_row_select _ _ _ N). Qed.

Lemma recorded_one_row cfg id date model t1 row t2 :
  user_id row = id -> usage_date row = date ->
  no_row id date (t1 ++ t2) ->
  recorded cfg date id model (t1 ++ row :: t2)
  = t1 ++ {| user_id := id; usage_date := date; calls := calls row + 1;
             estimated_cost := add (estimated_cost row) (cost_of cfg model) |}
       :: t2.
Proof.
  intros U D N. unfold no_row in N. apply Forall_app in N as [N1 N2].
  assert (R : row_of id date row = true).
  { unfold row_of. rewrite U, D, eqb_refl. apply Date_eqb_refl. }
  unfold recorded.
  rewrite select_rows_app, (no_row_select _ _ _ N1). simpl.
  unfold select_rows at 1. simpl. rewrite R.
  fold (select_rows id date t2). rewrite (no_row_select _ _ _ N2). simpl.
  unfold update_rows. rewrite map_app. simpl. rewrite R.
  fold (update_rows id date (calls row + 1)
          (add (estimated_cost row) (cost_of cfg model)) t1).
  fold (update_rows id date (calls row + 1)
          (add (estimated_cost row) (cost_of cfg model)) t2).
  rewrite !update_rows_no_row by assumption.
  now rewrite U, D.
Qed.

Lemma select_none_no_row id date table :
  select_rows id date table = [] -> no_row id date table.
Proof.
  unfold select_rows, no_row. induction table as [|r t IH]; simpl;
    [constructor|].
  destruct (row_of id date r) eqn:R; [discriminate|].
  intro H. constructor; [now apply row_of_false | now apply IH].
Qed.

(** A table with at most one row of a user and day has none, or has one
    somewhere and none around it. *)
Lemma at_most_one_cases id date table :
  at_most_one id date table ->
  no_row id date table
  \/ exists t1 row t2,
       table = t1 ++ row :: t2
       /\ user_id row = id /\ usage_date row = date
       /\ no_row id date (t1 ++ t2).
Proof.
  unfold at_most_one. induction table as [|r t IH]; intro A.
  - left. constructor.
  - unfold select_rows in A. simpl in A.
    destruct (row_of id date r) eqn:R.
    + right. exists [], r, t. simpl.
      unfold row_of in R. apply andb_true_iff in R as [R1 R2].
      apply jsstring_eqb_eq in R1. apply Date_eqb_eq in R2.
      repeat split; auto.
      apply select_none_no_row. unfold select_rows.
      destruct (filter (row_of id date) t); [reflexivity|simpl in A; lia].
    + apply row_of_false in R.
      destruct (IH A) as [N|(t1 & row & t2 & -> & U & D & N)].
      * left. now constructor.
      * right. exists (r :: t1), row, t2. simpl.
        repeat split; auto. now constructor.
Qed.

(** C2.  A request that ends in a success response writes to the usage
    table exactly once: the row of the authenticated user for today gets
    one more call and the per-call cost configured for the provider whose
    estimate is returned - [GEMINI_COST_PER_IMAGE_INR] for Gemini,
    [OPENAI_COST_PER_IMAGE_INR] for OpenAI - while every other row stays as
    it is; when the user has no row for today, a row with one call and that
    cost is appended.  A request that ends in any other response leaves the
    table as it was and writes nothing, and the gate only reads.  A usage
    record is one row per user and day: the two cases are all the cases of
    a table with at most one row of the user for today.  With the costs of
    config.ts, an analysis answered by OpenAI is billed 0.09, a following
    one answered by Gemini adds 0.03 to the same row, and a following one
    rejected as not food adds nothing. *)
Theorem usage_recorded_exactly_once :
  (forall cfg env req w,
      (forall r, fst (handler cfg env req w) = Success r ->
         exists id rd m,
           let cost := match r_ai_model_used r with
                       | gemini => GEMINI_COST_PER_IMAGE_INR cfg
                       | openai => OPENAI_COST_PER_IMAGE_INR cfg
                       end in
           passes_identity env req id rd
           /\ produced_by env rd (r_ai_model_used r) m
           /\ r = response_of m (r_ai_model_used r)
           /\ writes (snd (handler cfg env req w)) = S (writes w)
           /\ (no_row id (today env) (ledger w) ->
                 ledger (snd (handler cfg env req w))
                 = ledger w ++ [{| user_id := id; usage_date := today env;
                                   calls := 1; estimated_cost := cost |}])
           /\ (forall t1 row t2,
                 ledger w = t1 ++ row :: t2 ->
                 user_id row = id -> usage_date row = today env ->
                 no_row id (today env) (t1 ++ t2) ->
                 ledger (snd (handler cfg env req w))
                 = t1 ++ {| user_id := id; usage_date := today env;
                            calls := calls row + 1;
                            estimated_cost := add (estimated_cost row) cost |}
                      :: t2))
      /\ ((forall r, fst (handler cfg env req w) <> Success r) ->
            ledger (snd (handler cfg env req w)) = ledger w
            /\ writes (snd (handler cfg env req w)) = writes w)
      /\ (forall g w1, gate cfg env req w = (g, w1) ->
            ledger w1 = ledger w /\ writes w1 = writes w))
  /\ (forall id date table,
        at_most_one id date table ->
        no_row id date table
        \/ exists t1 row t2,
             table = t1 ++ row :: t2
             /\ user_id row = id /\ usage_date row = date
             /\ no_row id date (t1 ++ t2))
  /\ (let req := Fixtures.post Fixtures.image_body in
      let first :=
        handler CONFIG
          (Fixtures.with_fallback Fixtures.dal_rice_unsure Fixtures.dal_rice)
          req Fixtures.fresh in
      let second :=
        handler CONFIG (Fixtures.gemini_only Fixtures.dal_rice UpstreamFailure)
          req (snd first) in
      let third :=
        handler CONFIG
          (Fixtures.gemini_only Fixtures.nothing_high UpstreamFailure)
          req (snd second) in
      fst first
      = Success (response_of
                   (Fixtures.estimate (of_Z 450) (of_decimal false 186 (-1))
                      (of_decimal false 652 (-1)) (of_decimal false 123 (-1))
                      high None)
                   openai)
      /\ ledger (snd first)
         = [{| user_id := Fixtures.alice; usage_date := Fixtures.a_day;
               calls := 1; estimated_cost := of_decimal false 9 (-2) |}]
      /\ fst second = Success (response_of Fixtures.dal_rice_estimate gemini)
      /\ ledger (snd second)
         = [{| user_id := Fixtures.alice; usage_date := Fixtures.a_day;
               calls := 2;
               estimated_cost := add (of_decimal false 9 (-2))
                                     (of_decimal false 3 (-2)) |}]
      /\ writes (snd second) = 2%nat
      /\ fst third = Failure UnableToEstimate_NotFood
      /\ ledger (snd third) = ledger (snd second)
      /\ writes (snd third) = 2%nat).
Proof.
  split.
  - intros cfg env req w. split; [|split].
    + intros r E.
      destruct (handler_cases cfg env req w)
        as [(id & rd & w1 & m & model & w2 & G & A & _ & R & L & W)|(NS & _)];
        [|now elim (NS r)].
      rewrite R in E. injection E as <-. simpl r_ai_model_used.
      exists id, rd, m. cbv zeta.
      assert (C : cost_of cfg model
                  = match model with
                    | gemini => GEMINI_COST_PER_IMAGE_INR cfg
                    | openai => OPENAI_COST_PER_IMAGE_INR cfg
                    end) by reflexivity.
      rewrite <- C, L.
      split; [|split; [|split; [|split; [|split]]]]; auto.
      * apply gate_cases in G as (_ & K & _). now destruct (K id rd eq_refl).
      * now apply (analyze_cases env rd w1 _ w2 A).
      * apply recorded_no_row.
      * intros t1 row t2 -> U D N. now apply recorded_one_row.
    + intro NS.
      destruct (handler_cases cfg env req w)
        as [(id & rd & w1 & m & model & w2 & _ & _ & _ & R & _)|(_ & L & W)];
        [now elim (NS _ R) | auto].
    + intros g w1 G. apply gate_cases in G as ((L & W & _) & _). auto.
  - split; [apply at_most_one_cases|].
    vm_compute. repeat split; reflexivity.
Qed.

Lemma usage_recorded_exactly_once_witness :
  exists id rd m,
    passes_identity (Fixtures.gemini_only Fixtures.dal_rice UpstreamFailure)
                    (Fixtures.post Fixtures.image_body) id rd
    /\ produced_by (Fixtures.gemini_only Fixtures.dal_rice UpstreamFailure)
                   rd gemini m
    /\ response_of Fixtures.dal_rice_estimate gemini = response_of m gemini
    /\ writes (snd (handler CONFIG
                      (Fixtures.gemini_only Fixtures.dal_rice UpstreamFailure)
                      (Fixtures.post Fixtures.image_body) Fixtures.fresh))
       = 1%nat
    /\ (no_row id Fixtures.a_day [] ->
          ledger (snd (handler CONFIG
                         (Fixtures.gemini_only Fixtures.dal_rice
                            UpstreamFailure)
                         (Fixtures.post Fixtures.image_body) Fixtures.fresh))
          = [{| user_id := id; usage_date := Fixtures.a_day; calls := 1;
                estimated_cost := of_decimal false 3 (-2) |}])
    /\ (forall t1 row t2,
          [] = t1 ++ row :: t2 ->
          user_id row = id -> usage_date row = Fixtures.a_day ->
          no_row id Fixtures.a_day (t1 ++ t2) ->
          ledger (snd (handler CONFIG
                         (Fixtures.gemini_only Fixtures.dal_rice
                            UpstreamFailure)
                         (Fixtures.post Fixtures.image_body) Fixtures.fresh))
          = t1 ++ {| user_id := id; usage_date := Fixtures.a_day;
                     calls := calls row + 1;
                     estimated_cost := add (estimated_cost row)
                                           (of_decimal false 3 (-2)) |}
               :: t2).
Proof.
  apply (proj1 (proj1 usage_recorded_exactly_once CONFIG
                  (Fixtures.gemini_only Fixtures.dal_rice UpstreamFailure)
                  (Fixtures.post Fixtures.image_body) Fixtures.fresh)
               (response_of Fixtures.dal_rice_estimate gemini)).
  vm_compute. reflexivity.
Defined.

(** ** The monthly total *)

Lemma monthly_cost_ignores_users since (f : AIUsageRecord -> jsstring) table :
  monthly_cost since
    (map (fun r => {| user_id := f r; usage_date := usage_date r;
                      calls := calls r;
                      estimated_cost := estimated_cost r |}) table)
  = monthly_cost since table.
Proof.
  unfold monthly_cost. f_equal.
  generalize zero. induction table as [|r t IH]; intro acc; simpl;
    [reflexivity|].
  destruct (Date_geb (usage_date r) since); simpl; auto.
Qed.

Lemma monthly_cost_ignores_earlier since t1 r t2 :
  Date_geb (usage_date r) since = false ->
  monthly_cost since (t1 ++ r :: t2) = monthly_cost since (t1 ++ t2).
Proof.
  intro E. unfold monthly_cost. rewrite !filter_app. simpl. now rewrite E.
Qed.

Lemma earlier_month_excluded d x :
  in_earlier_month d x -> Date_geb x (firstDayOfMonth d) = false.
Proof.
  unfold in_earlier_month, Date_geb, firstDayOfMonth. simpl.
  intros [H|[H1 H2]].
  - replace (year d <? year x) with false by (symmetry; apply Z.ltb_ge; lia).
    replace (year x =? year d) with false by (symmetry; apply Z.eqb_neq; lia).
    reflexivity.
  - replace (year d <? year x) with false by (symmetry; apply Z.ltb_ge; lia).
    replace (month d <? month x) with false by (symmetry; apply Z.ltb_ge; lia).
    replace (month x =? month d) with false by (symmetry; apply Z.eqb_neq; lia).
    now rewrite andb_false_r.
Qed.

Lemma since_first_included d x :
  since_first_of_month d x -> Date_geb x (firstDayOfMonth d) = true.
Proof.
  unfold since_first_of_month, Date_geb, firstDayOfMonth. simpl.
  intros [H|[[H1 H2]|(H1 & H2 & H3)]].
  - replace (year d <? year x) with true by (symmetry; apply Z.ltb_lt; lia).
    reflexivity.
  - replace (year x =? year d) with true by (symmetry; apply Z.eqb_eq; lia).
    replace (month d <? month x) with true by (symmetry; apply Z.ltb_lt; lia).
    apply orb_true_r.
  - replace (year x =? year d) with true by (symmetry; apply Z.eqb_eq; lia).
    replace (month x =? month d) with true by (symmetry; apply Z.eqb_eq; lia).
    replace (1 <=? day x) with true by (symmetry; apply Z.leb_le; lia).
    simpl. now rewrite !orb_true_r.
Qed.

Lemma monthly_cost_of_this_month d table :
  Forall (fun r => since_first_of_month d (usage_date r)) table ->
  monthly_cost (firstDayOfMonth d) table
  = or_zero (fold_left (fun sum r => add sum (or_zero (estimated_cost r)))
                       table zero).
Proof.
  intro A. unfold monthly_cost. cbv zeta. f_equal. f_equal.
  induction A as [|r t H _ IH]; simpl; [reflexivity|].
  now rewrite (since_first_included _ _ H), IH.
Qed.

(** C3.  A request that has passed the quota check is answered
    [Monthly cost limit reached] (status 429), with no inference and no
    write, if and only if the monthly total is at or above the configured
    ceiling.  The monthly total leaves out every row dated in an earlier
    month than today's, wherever it stands in the table; over rows dated
    from the first day of today's month on it is the sum of their costs,
    taken in table order from 0; and it does not look at the user of a row.
    The check precedes the inference: with a ceiling of 80, 50 spent on the
    last day of December and 79.99 on the first of January, a request of
    15 January is admitted and billed 0.03, the total becomes 80.02, and
    the next request is the first to be rejected; a total of exactly 80 is
    rejected too. *)
Theorem monthly_cost_circuit_breaker :
  (forall cfg env req id rd w,
      passes_identity env req id rd ->
      under_quota cfg env id w = true ->
      (fst (handler cfg env req w)
       = Failure (MonthlyCostLimitReached (COST_LIMIT_MONTHLY_INR cfg))
       <-> ge (monthly_cost (firstDayOfMonth (today env)) (ledger w))
              (COST_LIMIT_MONTHLY_INR cfg) = true)
      /\ (forall l, fst (handler cfg env req w) = Failure (MonthlyCostLimitReached l) ->
            status_of (MonthlyCostLimitReached l) = 429
            /\ inferences (snd (handler cfg env req w)) = inferences w
            /\ ledger (snd (handler cfg env req w)) = ledger w))
  /\ (forall d t1 r t2,
        in_earlier_month d (usage_date r) ->
        monthly_cost (firstDayOfMonth d) (t1 ++ r :: t2)
        = monthly_cost (firstDayOfMonth d) (t1 ++ t2))
  /\ (forall d table,
        Forall (fun r => since_first_of_month d (usage_date r)) table ->
        monthly_cost (firstDayOfMonth d) table
        = or_zero (fold_left (fun sum r => add sum (or_zero (estimated_cost r)))
                             table zero))
  /\ (forall since f table,
        monthly_cost since
          (map (fun r => {| user_id := f r; usage_date := usage_date r;
                            calls := calls r;
                            estimated_cost := estimated_cost r |}) table)
        = monthly_cost since table)
  /\ (let env := Fixtures.gemini_only Fixtures.dal_rice UpstreamFailure in
      let req := Fixtures.post Fixtures.image_body in
      let first := handler Fixtures.limit_5_ceiling_80 env req
                           Fixtures.new_month in
      let second := handler Fixtures.limit_5_ceiling_80 env req (snd first) in
      let at_ceiling := handler Fixtures.limit_5_ceiling_80 env req
                                Fixtures.fully_spent in
      monthly_cost (firstDayOfMonth (today env)) (ledger Fixtures.new_month)
      = of_decimal false 7999 (-2)
      /\ fst first = Success (response_of Fixtures.dal_rice_estimate gemini)
      /\ ledger (snd first)
         = ledger Fixtures.new_month
           ++ [{| user_id := Fixtures.alice; usage_date := Fixtures.a_day;
                  calls := 1; estimated_cost := of_decimal false 3 (-2) |}]
      /\ monthly_cost (firstDayOfMonth (today env)) (ledger (snd first))
         = of_decimal false 8002 (-2)
      /\ fst second = Failure (MonthlyCostLimitReached (of_Z 80))
      /\ ledger (snd second) = ledger (snd first)
      /\ inferences (snd second) = inferences (snd first)
      /\ monthly_cost (firstDayOfMonth (today env)) (ledger Fixtures.fully_spent)
         = of_Z 80
      /\ fst at_ceiling = Failure (MonthlyCostLimitReached (of_Z 80))).
Proof.
  split; [|split; [|split; [|split]]].
  - intros cfg env req id rd w P Q. split.
    + split.
      * intro E. apply handler_cost_limited in E as (id' & rd' & _ & _ & B).
        exact B.
      * intro B. now apply (handler_rejected_at_gate cfg env req id rd w P).
    + intros l E. split; [reflexivity|].
      apply handler_cost_limited in E as (id' & rd' & P' & Q' & B).
      destruct (passes_identity_unique env req id rd id' rd' P P') as [<- <-].
      destruct (handler_rejected_at_gate cfg env req id rd w P) as [_ H].
      destruct (H Q B) as (_ & L & _ & I). auto.
  - intros d t1 r t2 E. apply monthly_cost_ignores_earlier.
    now apply earlier_month_excluded.
  - apply monthly_cost_of_this_month.
  - apply monthly_cost_ignores_users.
  - vm_compute. repeat split; reflexivity.
Qed.

Lemma monthly_cost_circuit_breaker_witness :
  fst (handler Fixtures.limit_5_ceiling_80
         (Fixtures.gemini_only Fixtures.dal_rice UpstreamFailure)
         (Fixtures.post Fixtures.image_body)
         (snd (handler Fixtures.limit_5_ceiling_80
                 (Fixtures.gemini_only Fixtures.dal_rice UpstreamFailure)
                 (Fixtures.post Fixtures.image_body) Fixtures.new_month)))
  = Failure (MonthlyCostLimitReached
               (COST_LIMIT_MONTHLY_INR Fixtures.limit_5_ceiling_80))
  <-> ge (monthly_cost (firstDayOfMonth Fixtures.a_day)
            (ledger (snd (handler Fixtures.limit_5_ceiling_80
                            (Fixtures.gemini_only Fixtures.dal_rice
                               UpstreamFailure)
                            (Fixtures.post Fixtures.image_body)
                            Fixtures.new_month))))
         (COST_LIMIT_MONTHLY_INR Fixtures.limit_5_ceiling_80) = true.
Proof.
  apply (proj1 monthly_cost_circuit_breaker Fixtures.limit_5_ceiling_80
           (Fixtures.gemini_only Fixtures.dal_rice UpstreamFailure)
           (Fixtures.post Fixtures.image_body)
           Fixtures.alice Fixtures.image_request).
  - unfold passes_identity. split; [reflexivity|]. split; [|split].
    + exists 66%N, (List.tl (lit "Bearer token-of-alice")).
      split; vm_compute; reflexivity.
    + eexists. split; vm_compute; reflexivity.
    + reflexivity.
  - vm_compute. reflexivity.
Defined.

(** ** The daily count *)

Lemma daily_count_no_row id date table :
  no_row id date table -> daily_count id date table = 0.
Proof. intro N. unfold daily_count. now rewrite (no_row_select _ _ _ N). Qed.

Lemma daily_count_one_row id date t1 row t2 :
  user_id row = id -> usage_date row = date ->
  no_row id date (t1 ++ t2) ->
  daily_count id date (t1 ++ row :: t2) = calls row.
Proof.
  intros U D N. unfold no_row in N. apply Forall_app in N as [N1 N2].
  assert (R : row_of id date row = true).
  { unfold row_of. rewrite U, D, eqb_refl. apply Date_eqb_refl. }
  unfold daily_count.
  rewrite select_rows_app, (no_row_select _ _ _ N1). simpl.
  unfold select_rows at 1. simpl. rewrite R.
  fold (select_rows id date t2). rewrite (no_row_select _ _ _ N2). simpl.
  destruct (calls row =? 0) eqn:E; [apply Z.eqb_eq in E; lia | reflexivity].
Qed.

Lemma successes_full rs :
  successes rs = Z.of_nat (List.length rs) ->
  Forall (fun r => is_success r = true) rs.
Proof.
  unfold successes. induction rs as [|r rs IH]; simpl; intro H;
    [constructor|].
  pose proof (filter_length_le is_success rs) as B.
  destruct (is_success r) eqn:E; simpl in H; [|lia].
  constructor; [exact E|]. apply IH. lia.
Qed.

(** C4, as amended.  A request that has passed the identity check is
    answered [Daily rate limit exceeded] (status 429), with no inference and
    no write, when the user's count for today is at or above the configured
    limit, and is let through to the cost guard when the count is below it.
    The count is the number of calls in the row of this user and of today:
    rows of other users and of other days do not enter it, and it is 0 when
    there is no such row.  With a limit of 5 and no row of the user for
    today, the fifth request of the day is let through, and the sixth is
    rejected exactly when the five before it all ended in a successful
    analysis: a request that failed or was turned away is not counted. *)
Theorem daily_quota_boundary :
  (forall cfg env req id rd w,
      passes_identity env req id rd ->
      (RATE_LIMIT_DAILY cfg <= daily_count id (today env) (ledger w) ->
         fst (handler cfg env req w) = Failure DailyRateLimitExceeded
         /\ status_of DailyRateLimitExceeded = 429
         /\ inferences (snd (handler cfg env req w)) = inferences w
         /\ ledger (snd (handler cfg env req w)) = ledger w)
      /\ (daily_count id (today env) (ledger w) < RATE_LIMIT_DAILY cfg ->
            fst (handler cfg env req w) <> Failure DailyRateLimitExceeded))
  /\ (forall id date t1 row t2,
        user_id row = id -> usage_date row = date ->
        no_row id date (t1 ++ t2) ->
        daily_count id date (t1 ++ row :: t2) = calls row)
  /\ (forall id date table,
        no_row id date table -> daily_count id date table = 0)
  /\ (forall cfg id date arrivals w,
        RATE_LIMIT_DAILY cfg = 5 ->
        no_row id date (ledger w) ->
        List.length arrivals = 6%nat ->
        Forall (from_user id date) arrivals ->
        nth 4 (fst (serve cfg arrivals w)) Preflight
        <> Failure DailyRateLimitExceeded
        /\ (nth 5 (fst (serve cfg arrivals w)) Preflight
            = Failure DailyRateLimitExceeded
            <-> Forall (fun r => is_success r = true)
                       (firstn 5 (fst (serve cfg arrivals w)))))
  /\ (daily_count Fixtures.alice Fixtures.a_day
                  (ledger Fixtures.busy_elsewhere) = 0
      /\ fst (handler Fixtures.limit_5_ceiling_80
                (Fixtures.gemini_only Fixtures.dal_rice UpstreamFailure)
                (Fixtures.post Fixtures.image_body) Fixtures.busy_elsewhere)
         = Success (response_of Fixtures.dal_rice_estimate gemini)).
Proof.
  split; [|split; [|split; [|split]]].
  - intros cfg env req id rd w P. split.
    + intro H.
      destruct (handler_rejected_at_gate cfg env req id rd w P) as [R _].
      destruct R as (E & L & _ & I).
      { unfold under_quota. apply negb_false_iff. now apply Z.leb_le. }
      auto.
    + intros H E. apply handler_rate_limited in E as (id' & rd' & P' & Q).
      destruct (passes_identity_unique env req id rd id' rd' P P') as [<- <-].
      unfold under_quota in Q. apply negb_false_iff, Z.leb_le in Q. lia.
  - apply daily_count_one_row.
  - apply daily_count_no_row.
  - intros cfg id date arrivals w Lim Fresh Len All.
    assert (T : tidy id date (ledger w) 0)
      by (unfold tidy; now rewrite (no_row_select _ _ _ Fresh)).
    pose proof (serve_length cfg arrivals w) as SL. rewrite Len in SL.
    split; [|split].
    + apply (serve_counts cfg id date arrivals All w 0 T 4%nat); [lia|].
      pose proof (successes_bound (firstn 4 (fst (serve cfg arrivals w)))) as B.
      rewrite length_firstn in B. lia.
    + intro E. apply successes_full.
      pose proof (successes_bound (firstn 5 (fst (serve cfg arrivals w)))) as B.
      rewrite length_firstn in *.
      destruct (Z_lt_le_dec (successes (firstn 5 (fst (serve cfg arrivals w)))) 5)
        as [Lt|Ge]; [|lia].
      exfalso.
      apply (serve_counts cfg id date arrivals All w 0 T 5%nat); [lia| |exact E].
      cbv zeta. lia.
    + intro Ok5.
      apply (serve_counts cfg id date arrivals All w 0 T 5%nat); [lia|].
      rewrite (successes_all _ Ok5), length_firstn. lia.
  - vm_compute. split; reflexivity.
Qed.

Lemma daily_quota_boundary_witness :
  nth 4 (fst (serve Fixtures.limit_5_ceiling_80
                (repeat (Fixtures.gemini_only Fixtures.dal_rice UpstreamFailure,
                         Fixtures.post Fixtures.image_body) 6)
                Fixtures.fresh)) Preflight
  <> Failure DailyRateLimitExceeded
  /\ nth 5 (fst (serve Fixtures.limit_5_ceiling_80
                   (repeat (Fixtures.gemini_only Fixtures.dal_rice
                              UpstreamFailure,
                            Fixtures.post Fixtures.image_body) 6)
                   Fixtures.fresh)) Preflight
     = Failure DailyRateLimitExceeded.
Proof.
  destruct (proj1 (proj2 (proj2 (proj2 daily_quota_boundary)))
              Fixtures.limit_5_ceiling_80
              Fixtures.alice Fixtures.a_day
              (repeat (Fixtures.gemini_only Fixtures.dal_rice UpstreamFailure,
                       Fixtures.post Fixtures.image_body) 6)
              Fixtures.fresh) as [Fifth Sixth].
  - reflexivity.
  - constructor.
  - reflexivity.
  - simpl. repeat constructor; simpl;
      exists Fixtures.image_request;
      (split; [reflexivity|]); (split; [|split]);
      try (exists 66%N, (List.tl (lit "Bearer token-of-alice"));
           split; vm_compute; reflexivity);
      try (eexists; split; vm_compute; reflexivity);
      reflexivity.
  - split; [exact Fifth|]. apply Sixth.
    vm_compute. repeat constructor.
Defined.

(** C4 as stated fails: with a limit of 5 and an empty table, a first
    request whose analysis fails is not counted, so the sixth request of the
    day is analysed, not rejected. *)
Lemma daily_quota_counterexample :
  fst (serve Fixtures.limit_5_ceiling_80
         ((Fixtures.gemini_only UpstreamFailure UpstreamFailure,
           Fixtures.post Fixtures.image_body)
          :: repeat (Fixtures.gemini_only Fixtures.dal_rice UpstreamFailure,
                     Fixtures.post Fixtures.image_body) 5)
         Fixtures.fresh)
  = Failure UnableToEstimate_AnalysisFailed
    :: repeat (Success (response_of Fixtures.dal_rice_estimate gemini)) 5
  /\ status_of UnableToEstimate_AnalysisFailed = 500.
Proof. vm_compute. split; reflexivity. Qed.

(** C7, as amended.  In the text-mode normalizer, a candidate payload that
    fails [JSON.parse] makes normalization fail with a message that carries
    a prefix of the candidate: flagged "appears truncated", with the first
    100 code units, exactly when the candidate does not end in a closing
    brace (a candidate ending in a comma is such a one), and a plain
    "failed to parse", with the first 200 code units, when it does - so a
    trailing comma right before the closing brace gets the plain failure. *)
Theorem text_parse_failure_flags text :
  JSON_parse (GeminiTextHelper.candidate text) = None ->
  (endsWith (lit "}") (GeminiTextHelper.candidate text) = false ->
     GeminiTextHelper.parseTextAnalysisResponse text
     = Err (AppearsTruncated
              (substring0 100 (GeminiTextHelper.candidate text))))
  /\ (endsWith (lit "}") (GeminiTextHelper.candidate text) = true ->
        GeminiTextHelper.parseTextAnalysisResponse text
        = Err (FailedToParse_response
                 (substring0 200 (GeminiTextHelper.candidate text))))
  /\ (endsWith (lit ",") (GeminiTextHelper.candidate text) = true ->
        GeminiTextHelper.parseTextAnalysisResponse text
        = Err (AppearsTruncated
                 (substring0 100 (GeminiTextHelper.candidate text))))
  /\ (endsWith (lit ",}") (GeminiTextHelper.candidate text) = true ->
        GeminiTextHelper.parseTextAnalysisResponse text
        = Err (FailedToParse_response
                 (substring0 200 (GeminiTextHelper.candidate text))))
  /\ (len (substring0 100 (GeminiTextHelper.candidate text)) <= 100)%nat
  /\ (len (substring0 200 (GeminiTextHelper.candidate text)) <= 200)%nat.
Proof.
  intro J. unfold GeminiTextHelper.parseTextAnalysisResponse. cbv zeta.
  rewrite J.
  assert (B : endsWith (lit "}") (GeminiTextHelper.candidate text) = true ->
              endsWith (lit ",") (GeminiTextHelper.candidate text) = false).
  { intro E. destruct (endsWith (lit ",") _) eqn:C; [|reflexivity].
    apply ends_with_comma_not_brace in C. congruence. }
  repeat split.
  - intros ->. now rewrite orb_true_r.
  - intro E. now rewrite E, (B E).
  - intros ->. reflexivity.
  - intro E. apply ends_with_comma_brace in E. now rewrite E, (B E).
  - apply firstn_le_length.
  - apply firstn_le_length.
Qed.

Lemma text_parse_failure_flags_witness :
  GeminiTextHelper.parseTextAnalysisResponse Fixtures.cut_off
  = Err (AppearsTruncated
           (jlit "{'calories': 450, 'protein': 18.5,")).
Proof.
  apply (text_parse_failure_flags Fixtures.cut_off);
    vm_compute; reflexivity.
Defined.

(** C7 as stated fails: for fenced JSON with a comma right before the
    closing brace the text-mode normalizer reports the plain parse failure,
    not the truncation flag. *)
Lemma text_parse_failure_counterexample :
  JSON_parse (GeminiTextHelper.candidate Fixtures.fenced_trailing_comma) = None
  /\ GeminiTextHelper.parseTextAnalysisResponse Fixtures.fenced_trailing_comma
     = Err (FailedToParse_response
              (jlit "{'calories': 450, 'protein': 18.5, 'carbs': 65.2, 'fat': 12.3, 'confidence': 'high',}")).
Proof. vm_compute. split; reflexivity. Qed.

(** C8.  Each of the three normalizers returns [Math.round] of the
    provider's calories and [Math.round(x * 10) / 10] of its protein, carbs
    and fat; [Math.round] of a number with a fractional part is the integer
    [n] with [n - 1/2 <= x < n + 1/2], so a half goes up; 18.54 becomes
    18.5 and 18.55 becomes 18.6 in all three. *)
Theorem rounding_normalization :
  (forall text est,
      GeminiHelper.parseAIResponse text = Ok est ->
      exists parsed c p cb f,
        JSON_parse (GeminiHelper.candidate text) = Some parsed
        /\ rounded_from parsed est c p cb f)
  /\ (forall text est,
        OpenAIHelper.parseAIResponse text = Ok est ->
        exists parsed c p cb f,
          JSON_parse (trim text) = Some parsed
          /\ rounded_from parsed est c p cb f)
  /\ (forall text est,
        GeminiTextHelper.parseTextAnalysisResponse text = Ok est ->
        exists parsed c p cb f,
          JSON_parse (GeminiTextHelper.candidate text) = Some parsed
          /\ rounded_from parsed est c p cb f)
  /\ (forall s m k,
        Math_round (S754_finite s m (Zneg k))
        = (if round_half_up s m k =? 0 then S754_zero s
           else of_Z (round_half_up s m k))
        /\ 2 ^ (Zpos k + 1) * round_half_up s m k
           <= 2 * cond_Zopp s (Zpos m) + 2 ^ Zpos k
           < 2 ^ (Zpos k + 1) * (round_half_up s m k + 1))
  /\ (forall parse,
        In parse [GeminiHelper.parseAIResponse; OpenAIHelper.parseAIResponse;
                  GeminiTextHelper.parseTextAnalysisResponse] ->
        (exists est, parse (Fixtures.with_protein "18.54") = Ok est
                     /\ protein est = of_decimal false 185 (-1))
        /\ (exists est, parse (Fixtures.with_protein "18.55") = Ok est
                        /\ protein est = of_decimal false 186 (-1))).
Proof.
  split; [exact gemini_parse_inv|].
  split; [exact openai_parse_inv|].
  split; [exact text_parse_inv|].
  split.
  - intros s m k. split; [reflexivity | apply round_half_up_nearest].
  - intros parse [<-|[<-|[<-|[]]]]; split; eexists; split;
      vm_compute; reflexivity.
Qed.

Lemma rounding_normalization_witness :
  exists parsed c p cb f,
    JSON_parse (GeminiHelper.candidate (Fixtures.with_protein "18.55"))
    = Some parsed
    /\ rounded_from parsed
         (Fixtures.estimate (of_Z 450) (of_decimal false 186 (-1))
            (of_decimal false 652 (-1)) (of_decimal false 123 (-1)) high None)
         c p cb f.
Proof.
  apply (proj1 rounding_normalization (Fixtures.with_protein "18.55")).
  vm_compute. reflexivity.
Defined.

(** ** The sign of the provider's numbers *)






(** C10.  When the HEAD probe answers with a 2xx status and no
    content-type header, [validateImageUrl] accepts the URL; it throws
    "URL does not point to an image" only for a 2xx answer whose
    content-type header is there and does not start with [image/]. *)
Theorem missing_content_type_passes env url w :
  (forall status,
      head env url = HeadResponse status None ->
      response_ok status = true ->
      fst (validateImageUrl env url w) = Ok tt)
  /\ (fst (validateImageUrl env url w)
      = Err (ValidationError UrlDoesNotPointToAnImage) ->
      exists status content_type,
        head env url = HeadResponse status (Some content_type)
        /\ response_ok status = true
        /\ startsWith (lit "image/") content_type = false).
Proof.
  unfold validateImageUrl. unfold_monad. cbn [fst]. split.
  - intros status -> R. unfold image_check. now rewrite R.
  - unfold image_check.
    destruct (head env url) as [|status [ct|]]; try discriminate;
      destruct (response_ok status) eqn:R; cbn [negb]; try discriminate.
    destruct ct as [|a ct]; cbn [present andb]; try discriminate.
    destruct (startsWith (lit "image/") (a :: ct)) eqn:S; cbn [negb];
      try discriminate.
    intros _. exists status, (a :: ct). auto.
Qed.

Lemma missing_content_type_passes_witness :
  fst (validateImageUrl
         (Fixtures.env_of false None Fixtures.dal_rice UpstreamFailure
            UpstreamFailure)
         Fixtures.photo Fixtures.fresh)
  = Ok tt.
Proof.
  apply (proj1 (missing_content_type_passes
                  (Fixtures.env_of false None Fixtures.dal_rice UpstreamFailure
                     UpstreamFailure)
                  Fixtures.photo Fixtures.fresh) 200);
    reflexivity.
Defined.

(* ------------------------------------------------------------------ *)
(** * Further properties of the handler *)

(** The inference calls of the analysis stage: Gemini first, OpenAI only
    as a second call and only when its key is set. *)
Lemma analyze_counts env rd w r w1 :
  analyze env rd w = (r, w1) ->
  (inferences w1 <= inferences w + 2)%nat
  /\ (openai_calls w1 <= openai_calls w + 1)%nat
  /\ (OPENAI_API_KEY env = false -> openai_calls w1 = openai_calls w)
  /\ (present (req_image_url rd) = false -> openai_calls w1 = openai_calls w)
  /\ (openai_calls w1 = S (openai_calls w) ->
        inferences w1 = (inferences w + 2)%nat)
  /\ (r <> Ok (Return (Failure InvalidRequest)) ->
        (inferences w + 1 <= inferences w1)%nat).
Proof.
  unfold analyze, analyzeWithGemini, analyzeWithOpenAI, analyzeTextWithGemini,
    inferences, openai_calls.
  unfold_monad. intro H.
  destruct (req_image_url rd) as [[|a u]|] eqn:Hu.
  2: { destruct (gemini_outcome env (a :: u) (req_description rd)) as [m|e].
    - destruct (Confidence_eqb (confidence m) low); simpl in H.
      + destruct (OPENAI_API_KEY env).
        * destruct (openai_outcome env (a :: u) (req_description rd)) as [m2|e2];
            [destruct (negb (Confidence_eqb (confidence m2) low))|];
            injection H as <- <-; simpl; repeat split; intros;
            try discriminate; lia.
        * injection H as <- <-; simpl; repeat split; intros;
            try discriminate; lia.
      + injection H as <- <-; simpl; repeat split; intros;
          try discriminate; lia.
    - destruct (OPENAI_API_KEY env).
      + destruct (openai_outcome env (a :: u) (req_description rd)) as [m2|e2];
          injection H as <- <-; simpl; repeat split; intros;
          try discriminate; lia.
      + injection H as <- <-; simpl; repeat split; intros;
          try discriminate; lia. }
  all: destruct (req_description rd) as [[|b d]|];
    try destruct (gemini_text_outcome env (b :: d));
    injection H as <- <-; simpl; repeat split; intros;
    try discriminate; try lia; try congruence.
Qed.

(** Every way the gate can end a request. *)
Lemma gate_returns cfg env req w r w1 :
  gate cfg env req w = (Ok (Return r), w1) ->
  r = Failure MethodNotAllowed
  \/ r = Failure MissingAuthorizationHeader
  \/ (exists details, r = Failure (Unauthorized details))
  \/ r = Failure UserIdDoesNotMatch
  \/ r = Failure DailyRateLimitExceeded
  \/ r = Failure (MonthlyCostLimitReached (COST_LIMIT_MONTHLY_INR cfg)).
Proof.
  unfold gate, req_json, getDailyUsageCount, getMonthlyEstimatedCost,
    validateImageUrl.
  destruct (JsString.eqb (method req) (lit "POST")); simpl;
    [|unfold ret; intro H; injection H as <- _; now auto].
  destruct (authorization req) as [[|c h]|];
    try (unfold ret; intro H; injection H as <- _; now auto).
  unfold_monad.
  destruct (getUser env (remove_first (lit "Bearer ") (c :: h)));
    try (intro H; injection H as <- _; now eauto 6).
  destruct (JSON_parse (body req)) as [data|]; [|discriminate].
  destruct (validateRequest env data) as [rd|e]; [|discriminate].
  destruct (JsString.eqb (req_user_id rd) id); simpl;
    [|intro H; injection H as <- _; now auto 6].
  destruct (RATE_LIMIT_DAILY cfg <=? _);
    [intro H; injection H as <- _; now auto 10|].
  destruct (ge _ _); [intro H; injection H as <- _; now auto 10|].
  destruct (req_image_url rd) as [[|a u]|]; simpl; try discriminate.
  destruct (image_check (head env (a :: u))); discriminate.
Qed.

(** The handler in terms of its three stages. *)
Lemma handler_stages cfg env req w :
  (JsString.eqb (method req) (lit "OPTIONS") = true
   /\ handler cfg env req w = (Preflight, w))
  \/ (exists r w1, gate cfg env req w = (Ok (Return r), w1)
                   /\ handler cfg env req w = (r, w1))
  \/ (exists e w1, gate cfg env req w = (Err e, w1)
                   /\ handler cfg env req w = (on_error e, w1))
  \/ (exists id rd w1 r w2,
        gate cfg env req w = (Ok (Continue (id, rd)), w1)
        /\ analyze env rd w1 = (Ok (Return r), w2)
        /\ handler cfg env req w = (r, w2))
  \/ (exists id rd w1 m model w2,
        gate cfg env req w = (Ok (Continue (id, rd)), w1)
        /\ analyze env rd w1 = (Ok (Continue (m, model)), w2)
        /\ handler cfg env req w
           = match finalize cfg env id m model w2 with
             | (Ok r, w') => (r, w')
             | (Err e, w') => (on_error e, w')
             end).
Proof.
  destruct (JsString.eqb (method req) (lit "OPTIONS")) eqn:Ho.
  { left. split; [reflexivity|]. unfold handler. now rewrite Ho. }
  right.
  destruct (gate cfg env req w) as [g w1] eqn:G.
  pose proof (handler_of_gate cfg env req w g w1 Ho G) as HG.
  destruct g as [[r|[id rd]]|e].
  - left. eauto.
  - right. right.
    destruct (analyze env rd w1) as [a w2] eqn:A.
    destruct (analyze_cases env rd w1 a w2 A) as (_ & _ & (s & ->) & _).
    specialize (HG s w2 eq_refl).
    destruct s as [r|[m model]].
    + left. exists id, rd, w1, r, w2. auto.
    + right. exists id, rd, w1, m, model, w2. auto.
  - right. left. eauto.
Qed.

(** ** What each stage adds to the log *)

Ltac give_events :=
  first [ exists (@nil Event); split; reflexivity
        | eexists [_]; split; reflexivity
        | eexists [_; _]; split; reflexivity
        | eexists [_; _; _]; split; reflexivity
        | eexists [_; _; _; _]; split; reflexivity ].

Lemma gate_trace cfg env req w :
  exists evs, trace (snd (gate cfg env req w)) = evs ++ trace w
              /\ filter is_inference evs = [].
Proof.
  unfold gate, req_json, getDailyUsageCount, getMonthlyEstimatedCost,
    validateImageUrl.
  destruct (JsString.eqb (method req) (lit "POST")); simpl; [|give_events].
  destruct (authorization req) as [[|c h]|]; try give_events.
  unfold_monad.
  destruct (getUser env (remove_first (lit "Bearer ") (c :: h)));
    try give_events.
  destruct (JSON_parse (body req)) as [data|]; [|give_events].
  destruct (validateRequest env data) as [rd|e]; [|give_events].
  destruct (JsString.eqb (req_user_id rd) id); simpl; [|give_events].
  destruct (RATE_LIMIT_DAILY cfg <=? _); [give_events|].
  destruct (ge _ _); [give_events|].
  destruct (req_image_url rd) as [[|a u]|]; simpl; try give_events.
  destruct (image_check (head env (a :: u))); give_events.
Qed.

(** The analysis stage logs its inference calls and nothing else: none, one
    by the text adapter, one by Gemini, or one by Gemini and then one by
    OpenAI, whose key is then set. *)
Lemma analyze_trace env rd w :
  exists evs,
    trace (snd (analyze env rd w)) = evs ++ trace w
    /\ (evs = []
        \/ (exists d, evs = [EvGeminiText d])
        \/ (exists url d, evs = [EvGemini url d])
        \/ (exists url d, OPENAI_API_KEY env = true
                          /\ evs = [EvOpenAI url d; EvGemini url d])).
Proof.
  unfold analyze, analyzeWithGemini, analyzeWithOpenAI, analyzeTextWithGemini.
  unfold_monad.
  destruct (req_image_url rd) as [[|a u]|].
  2: { destruct (gemini_outcome env (a :: u) (req_description rd)) as [m|e].
       - destruct (Confidence_eqb (confidence m) low); simpl.
         + destruct (OPENAI_API_KEY env) eqn:K.
           * exists [EvOpenAI (a :: u) (req_description rd);
                     EvGemini (a :: u) (req_description rd)].
             split; [|right; right; right; eauto].
             destruct (openai_outcome env (a :: u) (req_description rd))
               as [m2|e2];
               [destruct (negb (Confidence_eqb (confidence m2) low))|];
               reflexivity.
           * exists [EvGemini (a :: u) (req_description rd)].
             split; [reflexivity|]. right; right; left; eauto.
         + exists [EvGemini (a :: u) (req_description rd)].
           split; [reflexivity|]. right; right; left; eauto.
       - destruct (OPENAI_API_KEY env) eqn:K.
         + exists [EvOpenAI (a :: u) (req_description rd);
                   EvGemini (a :: u) (req_description rd)].
           split; [|right; right; right; eauto].
           destruct (openai_outcome env (a :: u) (req_description rd));
             reflexivity.
         + exists [EvGemini (a :: u) (req_description rd)].
           split; [reflexivity|]. right; right; left; eauto. }
  all: destruct (req_description rd) as [[|b d]|];
    try (exists []; split; [reflexivity|now left]);
    exists [EvGeminiText (b :: d)];
    (split; [destruct (gemini_text_outcome env (b :: d)); reflexivity
            |right; left; eauto]).
Qed.

Lemma finalize_trace cfg env id m model w :
  exists evs, trace (snd (finalize cfg env id m model w)) = evs ++ trace w
              /\ filter is_inference evs = [].
Proof.
  unfold finalize, recordAIUsage. unfold_monad.
  destruct (looks_like_no_food m); [give_events|]. simpl.
  destruct (single (select_rows id (today env) (ledger w))); give_events.
Qed.

(** ** validators.ts *)

Lemma validateRequest_inv env data rd :
  validateRequest env data = Ok rd ->
  prop data "user_id" = Some (JString (req_user_id rd))
  /\ string_or_undefined (prop data "image_url") = Some (req_image_url rd)
  /\ string_or_undefined (prop data "description") = Some (req_description rd)
  /\ uuidRegex_test (req_user_id rd) = true
  /\ (present (req_image_url rd) = true ->
        isValidUrl env (text_of (req_image_url rd)) = true)
  /\ (present (req_image_url rd) = false ->
        present (req_description rd) = true
        /\ (10 <= len (trim (text_of (req_description rd))))%nat).
Proof.
  unfold validateRequest.
  destruct data; try discriminate.
  all: destruct (prop _ "user_id") as [[| | |[|c uid]| |]|] eqn:U;
    try discriminate.
  all: destruct (uuidRegex_test (c :: uid)) eqn:R; cbn [negb]; try discriminate.
  all: destruct (string_or_undefined (prop _ "image_url")) as [img|] eqn:I;
    try discriminate.
  all: destruct (string_or_undefined (prop _ "description")) as [desc|] eqn:D.
  all: destruct (present img) eqn:Pi; cbn [negb andb].
  all: try destruct (isValidUrl env _) eqn:V; cbn [negb andb];
    try discriminate.
  all: try destruct (present desc) eqn:Pd; cbn [negb andb]; try discriminate.
  all: try destruct (len _ <? 10)%nat eqn:L; try discriminate.
  all: intro H; injection H as <-; cbn [req_user_id req_image_url
                                         req_description].
  all: repeat split; auto; try congruence; intros; try congruence.
  all: try (apply Nat.ltb_ge in L; exact L).
  all: try (rewrite Pi in *; discriminate).
  all: try (unfold text_of; destruct img; assumption).
  all: try (unfold text_of; destruct desc; assumption).
Qed.

Lemma validateRequest_complete env data uid image_url description :
  (exists ms, data = JObject ms) ->
  prop data "user_id" = Some (JString uid) ->
  uuidRegex_test uid = true ->
  string_or_undefined (prop data "image_url") = Some image_url ->
  string_or_undefined (prop data "description") = Some description ->
  (present image_url = true -> isValidUrl env (text_of image_url) = true) ->
  (present image_url = false ->
     present description = true
     /\ (10 <= len (trim (text_of description)))%nat) ->
  validateRequest env data = Ok (request_of uid image_url description).
Proof.
  intros (ms & ->) U R I D V T. unfold validateRequest.
  rewrite U. destruct uid as [|c uid]; [discriminate R|].
  rewrite R, I, D. cbn [negb].
  destruct (present image_url) eqn:Pi; cbn [negb andb].
  - unfold text_of in V. rewrite (V eq_refl). reflexivity.
  - destruct (T eq_refl) as [Pd L]. rewrite Pd. cbn [negb andb].
    unfold text_of in L. apply Nat.ltb_ge in L. rewrite L. reflexivity.
Qed.

Lemma matches_atoms_length p s :
  matches_atoms p s = true -> List.length s = List.length p.
Proof.
  revert s. induction p as [|a p IH]; intros [|c s]; simpl; try discriminate;
    try reflexivity.
  - destruct a; discriminate.
  - destruct a; intro H; apply andb_true_iff in H as [_ H];
      now rewrite (IH s H).
Qed.

Lemma is_hex_foldCase c : is_hex (foldCase c) = is_hex c.
Proof.
  unfold foldCase.
  destruct (N.leb_spec 97 c); simpl;
    [destruct (N.leb_spec c 122); simpl|]; try reflexivity.
  unfold is_hex, hex_digit, is_digit.
  repeat match goal with
         | |- context [(?a <=? ?b)%N] => destruct (N.leb_spec a b); simpl
         end; try reflexivity; lia.
Qed.

Lemma hyphen_foldCase c : (foldCase c =? 45)%N = (c =? 45)%N.
Proof.
  unfold foldCase.
  destruct (N.leb_spec 97 c); simpl; [|reflexivity].
  destruct (N.leb_spec c 122); simpl; [|reflexivity].
  destruct (N.eqb_spec (c - 32) 45), (N.eqb_spec c 45); try reflexivity; lia.
Qed.

Lemma matches_atoms_foldCase p s :
  matches_atoms p (map foldCase s) = matches_atoms p s.
Proof.
  revert s. induction p as [|a p IH]; intros [|c s]; simpl; try reflexivity.
  destruct a; now rewrite IH, ?is_hex_foldCase, ?hyphen_foldCase.
Qed.

(** ** The branches of the analysis *)

Lemma analyze_text env rd b d w :
  present (req_image_url rd) = false ->
  req_description rd = Some (b :: d) ->
  analyze env rd w =
    (match gemini_text_outcome env (b :: d) with
     | Ok m => Ok (Continue (m, gemini))
     | Err _ => Ok (Return (Failure UnableToEstimate_DescriptionFailed))
     end, logged [EvGeminiText (b :: d)] w).
Proof.
  intros I D. unfold analyze, analyzeTextWithGemini, logged. unfold_monad.
  rewrite D.
  destruct (req_image_url rd) as [[|a u]|]; try discriminate I;
    destruct (gemini_text_outcome env (b :: d)); reflexivity.
Qed.

Lemma analyze_image_failed env rd c u e w :
  req_image_url rd = Some (c :: u) ->
  gemini_outcome env (c :: u) (req_description rd) = Err e ->
  analyze env rd w =
    if OPENAI_API_KEY env
    then (match openai_outcome env (c :: u) (req_description rd) with
          | Ok m => Ok (Continue (m, openai))
          | Err _ => Ok (Return (Failure UnableToEstimate_ModelFailed))
          end,
          logged [EvOpenAI (c :: u) (req_description rd);
                  EvGemini (c :: u) (req_description rd)] w)
    else (Ok (Return (Failure UnableToEstimate_AnalysisFailed)),
          logged [EvGemini (c :: u) (req_description rd)] w).
Proof.
  intros U G. unfold analyze, analyzeWithGemini, analyzeWithOpenAI, logged.
  unfold_monad. rewrite U, G.
  destruct (OPENAI_API_KEY env); [|reflexivity].
  destruct (openai_outcome env (c :: u) (req_description rd)); reflexivity.
Qed.

Lemma analyze_invalid env rd w w2 :
  analyze env rd w = (Ok (Return (Failure InvalidRequest)), w2) ->
  present (req_image_url rd) = false /\ present (req_description rd) = false.
Proof.
  unfold analyze, analyzeWithGemini, analyzeWithOpenAI, analyzeTextWithGemini.
  unfold_monad.
  destruct (req_image_url rd) as [[|a u]|].
  2: { destruct (gemini_outcome env (a :: u) (req_description rd)) as [m|e].
       - destruct (Confidence_eqb (confidence m) low && OPENAI_API_KEY env);
           [destruct (openai_outcome env (a :: u) (req_description rd)) as [m2|];
            [destruct (negb (Confidence_eqb (confidence m2) low))|]|];
           discriminate.
       - destruct (OPENAI_API_KEY env);
           [destruct (openai_outcome env (a :: u) (req_description rd))|];
           discriminate. }
  all: destruct (req_description rd) as [[|b d]|]; auto;
    destruct (gemini_text_outcome env (b :: d)); discriminate.
Qed.

Lemma handler_of_analysis cfg env req w id rd w1 :
  gate cfg env req w = (Ok (Continue (id, rd)), w1) ->
  handler cfg env req w =
    match analyze env rd w1 with
    | (Ok (Return r), w2) => (r, w2)
    | (Ok (Continue (m, model)), w2) =>
        match finalize cfg env id m model w2 with
        | (Ok r, w') => (r, w')
        | (Err e, w') => (on_error e, w')
        end
    | (Err e, w2) => (on_error e, w2)
    end.
Proof.
  intro G. unfold handler, process.
  rewrite (gate_continue_not_options cfg env req w id rd w1 G).
  unfold bind. rewrite G.
  destruct (analyze env rd w1) as [[[r|[m model]]|e] w2]; reflexivity.
Qed.

Lemma at_most_one_tidy id date table :
  at_most_one id date table <-> exists n, tidy id date table n.
Proof.
  unfold at_most_one, tidy.
  destruct (select_rows id date table) as [|r [|r' l]]; simpl; split;
    try (intros; lia); eauto.
  - intros [n []].
Qed.

Lemma recorded_keeps_at_most_one cfg id0 date0 model id date table :
  at_most_one id date table ->
  at_most_one id date (recorded cfg date0 id0 model table).
Proof.
  intro A.
  destruct (JsString.eqb id0 id && Date_eqb date0 date) eqn:K.
  - apply andb_true_iff in K as [K1 K2].
    apply jsstring_eqb_eq in K1. apply Date_eqb_eq in K2. subst.
    apply at_most_one_tidy in A as [n T]. apply at_most_one_tidy.
    exists (n + 1). now apply recorded_tidy.
  - unfold at_most_one. now rewrite recorded_other_rows.
Qed.

(* ------------------------------------------------------------------ *)
(** * Further properties, one by one *)

Ltac alice_passes :=
  unfold passes_identity; split; [reflexivity|]; split; [|split];
  [ exists 66%N, (List.tl (lit "Bearer token-of-alice"));
    split; vm_compute; reflexivity
  | eexists; split; vm_compute; reflexivity
  | reflexivity ].

(** X1.  A body accepted by [validateRequest] has a [user_id] of UUID
    shape; its image URL, when there is one, is an HTTP or HTTPS URL; and
    without an image URL it has a description of at least 10 characters
    after trimming.  The three fields of the result are those of the
    body. *)
Theorem validateRequest_accepts_only env data rd :
  validateRequest env data = Ok rd ->
  prop data "user_id" = Some (JString (req_user_id rd))
  /\ string_or_undefined (prop data "image_url") = Some (req_image_url rd)
  /\ string_or_undefined (prop data "description") = Some (req_description rd)
  /\ uuidRegex_test (req_user_id rd) = true
  /\ (present (req_image_url rd) = true ->
        isValidUrl env (text_of (req_image_url rd)) = true)
  /\ (present (req_image_url rd) = false ->
        present (req_description rd) = true
        /\ (10 <= len (trim (text_of (req_description rd))))%nat).
Proof. apply validateRequest_inv. Qed.

Lemma validateRequest_accepts_only_witness :
  uuidRegex_test (req_user_id Fixtures.text_request) = true
  /\ (10 <= len (trim (text_of (req_description Fixtures.text_request))))%nat.
Proof.
  destruct (validateRequest_accepts_only
              (Fixtures.gemini_only UpstreamFailure Fixtures.dal_rice)
              (JObject [(lit "user_id", JString Fixtures.alice);
                        (lit "description",
                         JString (lit "2 roti with sabzi and dal"))])
              Fixtures.text_request)
    as (_ & _ & _ & U & _ & T).
  - vm_compute. reflexivity.
  - split; [exact U|]. now apply T.
Defined.

(** X2.  Conversely, a JSON object is accepted by [validateRequest] as
    soon as its [user_id] is a string of UUID shape, its [image_url] and
    [description] are strings or absent, the image URL (if not empty) is an
    HTTP or HTTPS URL, and - when no image URL is given - the description
    has at least 10 characters after trimming.  With an image URL any
    description goes, however short. *)
Theorem validateRequest_accepts_all env data uid image_url description :
  (exists ms, data = JObject ms) ->
  prop data "user_id" = Some (JString uid) ->
  uuidRegex_test uid = true ->
  string_or_undefined (prop data "image_url") = Some image_url ->
  string_or_undefined (prop data "description") = Some description ->
  (present image_url = true -> isValidUrl env (text_of image_url) = true) ->
  (present image_url = false ->
     present description = true
     /\ (10 <= len (trim (text_of description)))%nat) ->
  validateRequest env data = Ok (request_of uid image_url description).
Proof. apply validateRequest_complete. Qed.

Lemma validateRequest_accepts_all_witness :
  validateRequest (Fixtures.gemini_only Fixtures.dal_rice UpstreamFailure)
    (JObject [(lit "user_id", JString Fixtures.alice);
              (lit "image_url", JString Fixtures.photo);
              (lit "description", JString (lit "dal"))])
  = Ok (request_of Fixtures.alice (Some Fixtures.photo) (Some (lit "dal"))).
Proof.
  apply validateRequest_accepts_all.
  - eexists. reflexivity.
  - vm_compute. reflexivity.
  - vm_compute. reflexivity.
  - vm_compute. reflexivity.
  - vm_compute. reflexivity.
  - intros _. vm_compute. reflexivity.
  - vm_compute. discriminate.
Defined.

(** X3.  The UUID pattern of [validateRequest] accepts only strings of 36
    code units with hyphens at positions 8, 13, 18 and 23, and it does not
    tell upper from lower case. *)
Theorem uuid_pattern_shape s :
  (uuidRegex_test s = true ->
     len s = 36%nat
     /\ nth 8 s 0%N = 45%N /\ nth 13 s 0%N = 45%N
     /\ nth 18 s 0%N = 45%N /\ nth 23 s 0%N = 45%N)
  /\ uuidRegex_test (map foldCase s) = uuidRegex_test s.
Proof.
  split; [|apply matches_atoms_foldCase].
  intro H. split; [exact (matches_atoms_length _ _ H)|].
  pose proof (matches_atoms_length _ _ H) as L.
  do 37 (destruct s as [|? s]; try discriminate L).
  unfold uuidRegex_test, uuid_pattern in H. simpl in H.
  repeat match goal with
         | H : _ && _ = true |- _ => apply andb_true_iff in H as [? H]
         end.
  repeat match goal with
         | H : (_ =? 45)%N = true |- _ => apply N.eqb_eq in H
         end.
  simpl. auto.
Qed.

Lemma uuid_pattern_shape_witness :
  len Fixtures.alice = 36%nat
  /\ nth 8 Fixtures.alice 0%N = 45%N /\ nth 13 Fixtures.alice 0%N = 45%N
  /\ nth 18 Fixtures.alice 0%N = 45%N /\ nth 23 Fixtures.alice 0%N = 45%N.
Proof.
  apply (proj1 (uuid_pattern_shape Fixtures.alice)).
  vm_compute. reflexivity.
Defined.

(** X4.  A request whose [user_id] differs from the authenticated user is
    answered 403 right after the identity verifier has been asked: the
    usage table is neither read nor written and no probe or inference is
    made. *)
Theorem identity_mismatch_stops_before_quota cfg env req w c h id data rd :
  method req = lit "POST" ->
  authorization req = Some (c :: h) ->
  getUser env (remove_first (lit "Bearer ") (c :: h)) = User id ->
  JSON_parse (body req) = Some data ->
  validateRequest env data = Ok rd ->
  req_user_id rd <> id ->
  handler cfg env req w
  = (Failure UserIdDoesNotMatch, logged [EvGetUser (token_of req)] w)
  /\ status_of UserIdDoesNotMatch = 403.
Proof.
  intros Hm Ha Hu Hj Hv Hid. split; [|reflexivity].
  assert (E : JsString.eqb (req_user_id rd) id = false).
  { destruct (JsString.eqb (req_user_id rd) id) eqn:E; [|reflexivity].
    now apply jsstring_eqb_eq in E. }
  unfold handler, process, gate, req_json, token_of, logged. unfold_monad.
  rewrite Hm, Ha, Hu, Hj, Hv, E. reflexivity.
Qed.

Lemma identity_mismatch_stops_before_quota_witness :
  handler CONFIG (Fixtures.gemini_only Fixtures.dal_rice UpstreamFailure)
          (Fixtures.post Fixtures.bob_body) Fixtures.fresh
  = (Failure UserIdDoesNotMatch,
     logged [EvGetUser (lit "token-of-alice")] Fixtures.fresh)
  /\ status_of UserIdDoesNotMatch = 403.
Proof.
  apply (identity_mismatch_stops_before_quota CONFIG
           (Fixtures.gemini_only Fixtures.dal_rice UpstreamFailure)
           (Fixtures.post Fixtures.bob_body) Fixtures.fresh
           66%N (List.tl (lit "Bearer token-of-alice")) Fixtures.alice
           (JObject [(lit "user_id", JString Fixtures.bob);
                     (lit "image_url", JString Fixtures.photo)])
           Fixtures.bob_request);
    try (vm_compute; reflexivity).
  vm_compute. discriminate.
Defined.

Lemma startsWith_firstn p s :
  startsWith p s = true <-> firstn (List.length p) s = p.
Proof.
  revert s. induction p as [|x p IH]; intros [|y s]; simpl; split; intro H;
    try reflexivity; try discriminate.
  - apply andb_true_iff in H as [H1 H2]. apply N.eqb_eq in H1.
    apply IH in H2. congruence.
  - injection H as -> H. apply andb_true_iff. split;
      [apply N.eqb_refl | now apply IH].
Qed.

(** X5.  An admitted request with an image URL is stopped by the probe in
    three cases: the HEAD request throws or times out, its status is below
    200 or above 299, or its status is 2xx and its content-type header is
    there and does not begin with [image/].  Each is answered 400 with the
    validation message of its case - a timeout of the probe is not answered
    504 - right after the probe: no inference is made and the usage table
    is left alone. *)
Theorem failed_probe_stops_request cfg env req w id rd c u :
  passes_identity env req id rd ->
  under_quota cfg env id w = true ->
  over_budget cfg env w = false ->
  req_image_url rd = Some (c :: u) ->
  let stopped :=
    logged [EvHead (c :: u); EvSelectMonthly (firstDayOfMonth (today env));
            EvSelectDaily id (today env); EvGetUser (token_of req)] w in
  (head env (c :: u) = HeadThrows ->
     handler cfg env req w
     = (Failure (ValidationFailed FailedToAccessImageUrl), stopped))
  /\ (forall status content_type,
        head env (c :: u) = HeadResponse status content_type ->
        status < 200 \/ 299 < status ->
        handler cfg env req w
        = (Failure (ValidationFailed (ImageUrlReturnedStatus status)), stopped))
  /\ (forall status a t,
        head env (c :: u) = HeadResponse status (Some (a :: t)) ->
        200 <= status <= 299 ->
        firstn 6 (a :: t) <> lit "image/" ->
        handler cfg env req w
        = (Failure (ValidationFailed UrlDoesNotPointToAnImage), stopped))
  /\ (forall message, status_of (ValidationFailed message) = 400)
  /\ inferences stopped = inferences w
  /\ writes stopped = writes w
  /\ ledger stopped = ledger w.
Proof.
  intros P Q B U stopped.
  pose proof (gate_after_identity cfg env req id rd w P) as G.
  cbv zeta in G. rewrite Q, B, U in G. simpl in G.
  pose proof (passes_identity_not_options env req id rd P) as Ho.
  assert (K : forall message,
             image_check (head env (c :: u)) = Err (ValidationError message) ->
             handler cfg env req w = (Failure (ValidationFailed message), stopped)).
  { intros message E. rewrite E in G.
    apply (handler_of_gate cfg env req w _ _ Ho G). }
  split; [|split; [|split; [|split; [|split; [|split]]]]]; try reflexivity.
  - intro H. apply K. now rewrite H.
  - intros status ct H S. apply K. rewrite H. unfold image_check, response_ok.
    replace ((200 <=? status) && (status <=? 299)) with false; [reflexivity|].
    symmetry. apply andb_false_iff.
    destruct S; [left; apply Z.leb_gt | right; apply Z.leb_gt]; lia.
  - intros status a t H S N. apply K. rewrite H. unfold image_check, response_ok.
    replace ((200 <=? status) && (status <=? 299)) with true
      by (symmetry; apply andb_true_iff; split; apply Z.leb_le; lia).
    cbn [negb present andb].
    destruct (startsWith (lit "image/") (a :: t)) eqn:E; [|reflexivity].
    apply startsWith_firstn in E. now elim N.
Qed.

Lemma failed_probe_stops_request_witness :
  handler CONFIG (Fixtures.probing (HeadResponse 404 None) Fixtures.dal_rice)
          (Fixtures.post Fixtures.image_body) Fixtures.fresh
  = (Failure (ValidationFailed (ImageUrlReturnedStatus 404)),
     logged [EvHead Fixtures.photo;
             EvSelectMonthly (firstDayOfMonth Fixtures.a_day);
             EvSelectDaily Fixtures.alice Fixtures.a_day;
             EvGetUser (lit "token-of-alice")] Fixtures.fresh)
  /\ handler CONFIG
             (Fixtures.probing (HeadResponse 200 (Some (lit "text/html")))
                               Fixtures.dal_rice)
             (Fixtures.post Fixtures.image_body) Fixtures.fresh
     = (Failure (ValidationFailed UrlDoesNotPointToAnImage),
        logged [EvHead Fixtures.photo;
                EvSelectMonthly (firstDayOfMonth Fixtures.a_day);
                EvSelectDaily Fixtures.alice Fixtures.a_day;
                EvGetUser (lit "token-of-alice")] Fixtures.fresh).
Proof.
  split.
  - refine (proj1 (proj2 (failed_probe_stops_request CONFIG
                            (Fixtures.probing (HeadResponse 404 None)
                                              Fixtures.dal_rice)
                            (Fixtures.post Fixtures.image_body) Fixtures.fresh
                            Fixtures.alice Fixtures.image_request
                            104%N (List.tl Fixtures.photo) _ _ _ _))
                  404 None _ _);
      try (vm_compute; reflexivity); [alice_passes | right; lia].
  - refine (proj1 (proj2 (proj2 (failed_probe_stops_request CONFIG
                            (Fixtures.probing
                               (HeadResponse 200 (Some (lit "text/html")))
                               Fixtures.dal_rice)
                            (Fixtures.post Fixtures.image_body) Fixtures.fresh
                            Fixtures.alice Fixtures.image_request
                            104%N (List.tl Fixtures.photo) _ _ _ _)))
                  200 116%N (List.tl (lit "text/html")) _ _ _);
      try (vm_compute; reflexivity);
      [alice_passes | lia | vm_compute; discriminate].
Defined.

(** X6.  A text-only request that has been admitted causes exactly one
    inference, by the Gemini text adapter; OpenAI is not called even when
    it is configured; an adapter failure is answered 500 with no retry, and
    a success goes to the final step with model [gemini]. *)
Theorem text_mode_has_no_fallback cfg env req w id rd w1 b d :
  gate cfg env req w = (Ok (Continue (id, rd)), w1) ->
  present (req_image_url rd) = false ->
  req_description rd = Some (b :: d) ->
  inferences (snd (handler cfg env req w)) = S (inferences w)
  /\ openai_calls (snd (handler cfg env req w)) = openai_calls w
  /\ fst (handler cfg env req w)
     = match gemini_text_outcome env (b :: d) with
       | Ok m => if looks_like_no_food m
                 then Failure UnableToEstimate_NotFood
                 else Success (response_of m gemini)
       | Err _ => Failure UnableToEstimate_DescriptionFailed
       end.
Proof.
  intros G I D.
  rewrite (handler_of_analysis cfg env req w id rd w1 G).
  rewrite (analyze_text env rd b d w1 I D).
  apply gate_cases in G as ((_ & _ & Ig & Og) & _).
  destruct (gemini_text_outcome env (b :: d)) as [m|e].
  - destruct (finalize_cases cfg env id m gemini
                (logged [EvGeminiText (b :: d)] w1))
      as [(F & E)|(F & w' & E & _ & _ & I' & O')]; rewrite E, F; simpl;
      rewrite ?I', ?O'; unfold inferences, openai_calls in *; simpl;
      rewrite Ig, Og; auto.
  - simpl. unfold inferences, openai_calls in *. simpl.
    rewrite Ig, Og. auto.
Qed.

Lemma text_mode_has_no_fallback_witness :
  inferences (snd (handler CONFIG
                     (Fixtures.probing HeadThrows UpstreamFailure)
                     (Fixtures.post Fixtures.text_body) Fixtures.fresh))
  = 1%nat
  /\ openai_calls (snd (handler CONFIG
                          (Fixtures.probing HeadThrows UpstreamFailure)
                          (Fixtures.post Fixtures.text_body) Fixtures.fresh))
     = 0%nat
  /\ fst (handler CONFIG (Fixtures.probing HeadThrows UpstreamFailure)
                  (Fixtures.post Fixtures.text_body) Fixtures.fresh)
     = Failure UnableToEstimate_DescriptionFailed.
Proof.
  apply (text_mode_has_no_fallback CONFIG
           (Fixtures.probing HeadThrows UpstreamFailure)
           (Fixtures.post Fixtures.text_body) Fixtures.fresh
           Fixtures.alice Fixtures.text_request
           (snd (gate CONFIG (Fixtures.probing HeadThrows UpstreamFailure)
                      (Fixtures.post Fixtures.text_body) Fixtures.fresh))
           50%N (List.tl (lit "2 roti with sabzi and dal")));
    vm_compute; reflexivity.
Defined.

(** X7.  When the primary adapter fails on an admitted image request: with
    no OpenAI key the answer is 500 and OpenAI is not called; with a key,
    OpenAI is called once and its estimate is accepted whatever its
    confidence, low included, while its failure is answered 500.  Neither
    500 writes to the usage table. *)
Theorem primary_failure_falls_back cfg env req w id rd w1 c u e :
  gate cfg env req w = (Ok (Continue (id, rd)), w1) ->
  req_image_url rd = Some (c :: u) ->
  gemini_outcome env (c :: u) (req_description rd) = Err e ->
  (OPENAI_API_KEY env = false ->
     fst (handler cfg env req w) = Failure UnableToEstimate_AnalysisFailed
     /\ openai_calls (snd (handler cfg env req w)) = openai_calls w
     /\ ledger (snd (handler cfg env req w)) = ledger w)
  /\ (OPENAI_API_KEY env = true ->
        openai_calls (snd (handler cfg env req w)) = S (openai_calls w)
        /\ (forall m2,
              openai_outcome env (c :: u) (req_description rd) = Ok m2 ->
              fst (handler cfg env req w)
              = (if looks_like_no_food m2
                 then Failure UnableToEstimate_NotFood
                 else Success (response_of m2 openai)))
        /\ (forall e2,
              openai_outcome env (c :: u) (req_description rd) = Err e2 ->
              fst (handler cfg env req w)
              = Failure UnableToEstimate_ModelFailed
              /\ status_of UnableToEstimate_ModelFailed = 500
              /\ ledger (snd (handler cfg env req w)) = ledger w)).
Proof.
  intros G U E.
  rewrite (handler_of_analysis cfg env req w id rd w1 G).
  rewrite (analyze_image_failed env rd c u e w1 U E).
  apply gate_cases in G as ((Lg & _ & _ & Og) & _).
  split; intro K; rewrite K.
  - simpl. unfold openai_calls in *. simpl. auto.
  - destruct (openai_outcome env (c :: u) (req_description rd)) as [m2|e2].
    + destruct (finalize_cases cfg env id m2 openai
                  (logged [EvOpenAI (c :: u) (req_description rd);
                           EvGemini (c :: u) (req_description rd)] w1))
        as [(F & R)|(F & w' & R & _ & _ & _ & O')]; rewrite R; simpl;
        rewrite ?O'; unfold openai_calls in *; simpl; rewrite Og;
        (split; [reflexivity|]); (split; [|discriminate]);
        intros m3 M; injection M as <-; now rewrite F.
    + simpl. unfold openai_calls in *. simpl. rewrite Og.
      split; [reflexivity|]. split; [discriminate|]. auto.
Qed.

Lemma primary_failure_falls_back_witness :
  openai_calls
    (snd (handler CONFIG
            (Fixtures.with_fallback UpstreamFailure Fixtures.dal_rice_unsure)
            (Fixtures.post Fixtures.image_body) Fixtures.fresh))
  = 1%nat
  /\ fst (handler CONFIG
            (Fixtures.with_fallback UpstreamFailure Fixtures.dal_rice_unsure)
            (Fixtures.post Fixtures.image_body) Fixtures.fresh)
     = Success (response_of Fixtures.dal_rice_unsure_estimate openai).
Proof.
  destruct (primary_failure_falls_back CONFIG
              (Fixtures.with_fallback UpstreamFailure Fixtures.dal_rice_unsure)
              (Fixtures.post Fixtures.image_body) Fixtures.fresh
              Fixtures.alice Fixtures.image_request
              (snd (gate CONFIG
                      (Fixtures.with_fallback UpstreamFailure
                         Fixtures.dal_rice_unsure)
                      (Fixtures.post Fixtures.image_body) Fixtures.fresh))
              104%N (List.tl Fixtures.photo) UpstreamFailed
              ltac:(vm_compute; reflexivity) ltac:(vm_compute; reflexivity)
              ltac:(vm_compute; reflexivity)) as [_ K].
  destruct (K ltac:(reflexivity)) as (Calls & Accept & _).
  split; [exact Calls|].
  apply (Accept Fixtures.dal_rice_unsure_estimate).
  vm_compute. reflexivity.
Defined.

(** X8.  The inference calls of one request, read off its log, are none,
    one call of the Gemini text adapter, one call of Gemini, or a call of
    Gemini followed by a call of OpenAI on the same image and description:
    at most two calls, OpenAI never first, never twice and never without its
    key.  (The log has the newest event first.) *)
Theorem at_most_two_inferences :
  (forall cfg env req w,
      exists evs,
        trace (snd (handler cfg env req w)) = evs ++ trace w
        /\ (filter is_inference evs = []
            \/ (exists d, filter is_inference evs = [EvGeminiText d])
            \/ (exists url d, filter is_inference evs = [EvGemini url d])
            \/ (exists url d,
                  OPENAI_API_KEY env = true
                  /\ filter is_inference evs
                     = [EvOpenAI url d; EvGemini url d])))
  /\ filter is_inference
       (trace (snd (handler CONFIG
                      (Fixtures.with_fallback Fixtures.dal_rice_unsure
                         Fixtures.dal_rice)
                      (Fixtures.post Fixtures.image_body) Fixtures.fresh)))
     = [EvOpenAI Fixtures.photo None; EvGemini Fixtures.photo None].
Proof.
  split; [|vm_compute; reflexivity].
  intros cfg env req w.
  assert (Stage : forall id rd w1 w2 post,
             gate cfg env req w = (Ok (Continue (id, rd)), w1) ->
             analyze env rd w1 = (post, w2) ->
             forall w3 evf, trace w3 = evf ++ trace w2 ->
               filter is_inference evf = [] ->
               exists evs,
                 trace w3 = evs ++ trace w
                 /\ (filter is_inference evs = []
                     \/ (exists d, filter is_inference evs = [EvGeminiText d])
                     \/ (exists url d, filter is_inference evs = [EvGemini url d])
                     \/ (exists url d,
                           OPENAI_API_KEY env = true
                           /\ filter is_inference evs
                              = [EvOpenAI url d; EvGemini url d]))).
  { intros id rd w1 w2 post G A w3 evf T3 F3.
    destruct (gate_trace cfg env req w) as (evg & Tg & Fg).
    rewrite G in Tg. simpl in Tg.
    destruct (analyze_trace env rd w1) as (eva & Ta & Ca).
    rewrite A in Ta. simpl in Ta.
    exists (evf ++ eva ++ evg).
    split; [rewrite T3, Ta, Tg, <- !app_assoc; reflexivity|].
    rewrite !filter_app, F3, Fg, app_nil_r. simpl.
    destruct Ca as [->|[(d & ->)|[(url & d & ->)|(url & d & K & ->)]]];
      simpl; eauto 10. }
  destruct (handler_stages cfg env req w)
    as [(_ & H)|[(r & w1 & G & H)|[(e & w1 & G & H)
       |[(id & rd & w1 & r & w2 & G & A & H)
        |(id & rd & w1 & m & model & w2 & G & A & H)]]]];
    rewrite H; clear H; simpl snd.
  - exists []. split; [reflexivity|now left].
  - destruct (gate_trace cfg env req w) as (evg & Tg & Fg).
    rewrite G in Tg. simpl in Tg. exists evg. auto.
  - destruct (gate_trace cfg env req w) as (evg & Tg & Fg).
    rewrite G in Tg. simpl in Tg. exists evg. auto.
  - apply (Stage id rd w1 w2 _ G A w2 []); reflexivity.
  - destruct (finalize_trace cfg env id m model w2) as (evf & Tf & Ff).
    destruct (finalize cfg env id m model w2) as [[r|e] w3]; cbn [snd] in *;
      now apply (Stage id rd w1 w2 _ G A w3 evf).
Qed.

(** X9.  A success response never reports 0 calories, and never reports
    protein, carbs and fat that are all 0; and it is preceded by at least
    one inference. *)
Theorem success_is_never_empty cfg env req w r :
  fst (handler cfg env req w) = Success r ->
  strict_eq (r_calories r) zero = false
  /\ (strict_eq (r_protein r) zero = false
      \/ strict_eq (r_carbs r) zero = false
      \/ strict_eq (r_fat r) zero = false)
  /\ (inferences w < inferences (snd (handler cfg env req w)))%nat.
Proof.
  intro E.
  destruct (handler_stages cfg env req w)
    as [(_ & H)|[(x & w1 & G & H)|[(e & w1 & G & H)
       |[(id & rd & w1 & x & w2 & G & A & H)
        |(id & rd & w1 & m & model & w2 & G & A & H)]]]];
    rewrite H in E |- *; simpl in E.
  - discriminate.
  - subst x. apply gate_cases in G as (_ & _ & _ & _ & NS). now elim (NS r).
  - destruct e; discriminate.
  - subst x. apply analyze_cases in A as (_ & _ & _ & _ & NS & _).
    now elim (NS r).
  - apply gate_cases in G as ((_ & _ & Ig & _) & _).
    pose proof (analyze_counts env rd w1 _ w2 A) as (_ & _ & _ & _ & _ & Ia).
    specialize (Ia ltac:(discriminate)).
    destruct (finalize_cases cfg env id m model w2)
      as [(F & R)|(F & w' & R & _ & _ & I' & _)]; rewrite R in E |- *;
      simpl in E; [discriminate|].
    injection E as <-. simpl.
    unfold looks_like_no_food in F. apply orb_false_iff in F as [F1 F2].
    split; [exact F1|]. split; [|rewrite I'; lia].
    destruct (strict_eq (protein m) zero); auto.
    destruct (strict_eq (carbs m) zero); auto.
Qed.

Lemma success_is_never_empty_witness :
  strict_eq (r_calories (response_of Fixtures.dal_rice_estimate gemini)) zero
  = false.
Proof.
  apply (success_is_never_empty CONFIG
           (Fixtures.gemini_only Fixtures.dal_rice UpstreamFailure)
           (Fixtures.post Fixtures.image_body) Fixtures.fresh
           (response_of Fixtures.dal_rice_estimate gemini)).
  vm_compute. reflexivity.
Defined.

(** X10.  The handler keeps the table free of duplicates: if a user and
    day have at most one row before a request, whoever sends it, they have
    at most one row after it. *)
Theorem handler_keeps_rows_unique cfg env req w id date :
  at_most_one id date (ledger w) ->
  at_most_one id date (ledger (snd (handler cfg env req w))).
Proof.
  intro A.
  destruct (handler_cases cfg env req w)
    as [(id' & rd & w1 & m & model & w2 & _ & _ & _ & _ & L & _)|(_ & L & _)];
    rewrite L; [now apply recorded_keeps_at_most_one | exact A].
Qed.

Lemma handler_keeps_rows_unique_witness :
  at_most_one Fixtures.alice Fixtures.a_day
    (ledger (snd (handler CONFIG
                    (Fixtures.gemini_only Fixtures.dal_rice UpstreamFailure)
                    (Fixtures.post Fixtures.image_body)
                    (snd (handler CONFIG
                            (Fixtures.gemini_only Fixtures.dal_rice
                               UpstreamFailure)
                            (Fixtures.post Fixtures.image_body)
                            Fixtures.fresh))))).
Proof.
  apply handler_keeps_rows_unique. apply handler_keeps_rows_unique.
  unfold at_most_one. simpl. lia.
Defined.

(** X11.  Nothing in the code repairs a table that already has two or more
    rows for a user and day: the daily count then reads 0, so the user is
    not rate limited under any positive limit, and recording appends one
    more row. *)
Theorem duplicate_rows_read_as_zero cfg env req id rd w :
  passes_identity env req id rd ->
  (2 <= List.length (select_rows id (today env) (ledger w)))%nat ->
  daily_count id (today env) (ledger w) = 0
  /\ (0 < RATE_LIMIT_DAILY cfg ->
        fst (handler cfg env req w) <> Failure DailyRateLimitExceeded)
  /\ (forall model,
        recorded cfg (today env) id model (ledger w)
        = ledger w ++ [{| user_id := id; usage_date := today env; calls := 1;
                          estimated_cost := cost_of cfg model |}]).
Proof.
  intros P D.
  assert (S0 : single (select_rows id (today env) (ledger w)) = None).
  { destruct (select_rows id (today env) (ledger w)) as [|r [|r' l]];
      simpl in D; try lia. reflexivity. }
  assert (C : daily_count id (today env) (ledger w) = 0).
  { unfold daily_count. now rewrite S0. }
  split; [exact C|]. split.
  - intros L E. apply handler_rate_limited in E as (id' & rd' & P' & Q).
    destruct (passes_identity_unique env req id rd id' rd' P P') as [<- <-].
    unfold under_quota in Q. rewrite C in Q.
    apply negb_false_iff, Z.leb_le in Q. lia.
  - intro model. unfold recorded. now rewrite S0.
Qed.

Lemma duplicate_rows_read_as_zero_witness :
  daily_count Fixtures.alice Fixtures.a_day (ledger Fixtures.doubled) = 0
  /\ fst (handler CONFIG
            (Fixtures.gemini_only Fixtures.dal_rice UpstreamFailure)
            (Fixtures.post Fixtures.image_body) Fixtures.doubled)
     <> Failure DailyRateLimitExceeded.
Proof.
  destruct (duplicate_rows_read_as_zero CONFIG
              (Fixtures.gemini_only Fixtures.dal_rice UpstreamFailure)
              (Fixtures.post Fixtures.image_body)
              Fixtures.alice Fixtures.image_request Fixtures.doubled)
    as (Count & Passes & _).
  - alice_passes.
  - vm_compute. repeat constructor.
  - split; [exact Count|]. apply Passes. reflexivity.
Defined.

(** X12.  The branch of the handler that answers [invalid_request] ("this
    should never happen due to validation") is indeed never taken. *)
Theorem invalid_request_is_unreachable cfg env req w :
  fst (handler cfg env req w) <> Failure InvalidRequest.
Proof.
  destruct (handler_stages cfg env req w)
    as [(_ & H)|[(x & w1 & G & H)|[(e & w1 & G & H)
       |[(id & rd & w1 & x & w2 & G & A & H)
        |(id & rd & w1 & m & model & w2 & G & A & H)]]]];
    rewrite H; simpl.
  - discriminate.
  - apply gate_returns in G
      as [->|[->|[(d & ->)|[->|[->| ->]]]]]; discriminate.
  - destruct e; discriminate.
  - intros ->. apply analyze_invalid in A as [I D].
    apply gate_cases in G as (_ & C & _).
    destruct (C id rd eq_refl) as ((_ & _ & (data & _ & V) & _) & _).
    apply validateRequest_inv in V as (_ & _ & _ & _ & _ & T).
    destruct (T I) as [D' _]. congruence.
  - destruct (finalize_cases cfg env id m model w2)
      as [(_ & R)|(_ & w' & R & _)]; rewrite R; discriminate.
Qed.

(** X13.  The length guard of the text adapter ("description too short",
    under 5 characters) cannot fire for a request that came through
    [validateRequest], which asks for 10. *)
Theorem short_description_guard_is_redundant env data rd :
  validateRequest env data = Ok rd ->
  present (req_image_url rd) = false ->
  exists d,
    req_description rd = Some d
    /\ gemini_text_outcome env d <> Err DescriptionTooShortForAnalysis.
Proof.
  intros V I.
  apply validateRequest_inv in V as (_ & _ & _ & _ & _ & T).
  destruct (T I) as [P L].
  destruct (req_description rd) as [d|]; [|discriminate P].
  exists d. split; [reflexivity|]. simpl in L.
  unfold gemini_text_outcome.
  destruct (Nat.ltb_spec (len (trim d)) 5); [lia|].
  destruct (gemini_text env d) as [|[|x t]]; try discriminate.
  destruct (GeminiTextHelper.parseTextAnalysisResponse (x :: t)); discriminate.
Qed.

Lemma short_description_guard_is_redundant_witness :
  exists d,
    req_description Fixtures.text_request = Some d
    /\ gemini_text_outcome
         (Fixtures.gemini_only UpstreamFailure Fixtures.dal_rice) d
       <> Err DescriptionTooShortForAnalysis.
Proof.
  apply (short_description_guard_is_redundant
           (Fixtures.gemini_only UpstreamFailure Fixtures.dal_rice)
           (JObject [(lit "user_id", JString Fixtures.alice);
                     (lit "description",
                      JString (lit "2 roti with sabzi and dal"))]));
    vm_compute; reflexivity.
Defined.

(** X14.  Requests of one user handled one after the other never get more
    successful analyses in a day than the daily limit, and today's count in
    the table is the number of successes. *)
Theorem sequential_requests_respect_quota cfg id date arrivals w :
  0 <= RATE_LIMIT_DAILY cfg ->
  select_rows id date (ledger w) = [] ->
  Forall (from_user id date) arrivals ->
  successes (fst (serve cfg arrivals w)) <= RATE_LIMIT_DAILY cfg
  /\ daily_count id date (ledger (snd (serve cfg arrivals w)))
     = successes (fst (serve cfg arrivals w)).
Proof.
  intros L Fresh All.
  assert (G : forall n w0,
             tidy id date (ledger w0) n -> n <= RATE_LIMIT_DAILY cfg ->
             tidy id date (ledger (snd (serve cfg arrivals w0)))
                  (n + successes (fst (serve cfg arrivals w0)))
             /\ n + successes (fst (serve cfg arrivals w0))
                <= RATE_LIMIT_DAILY cfg).
  { clear w Fresh.
    induction All as [|[env req] rest [Hd (rd & P)] _ IH]; intros n w T B.
    - simpl. unfold successes. simpl. rewrite Z.add_0_r. auto.
    - simpl in Hd, P. subst date. simpl.
      pose proof (handler_keeps_tidy cfg env req id rd w n P T)
        as (T' & R1 & _).
      destruct (handler cfg env req w) as [r w1]. simpl in T', R1.
      assert (B' : n + (if is_success r then 1 else 0) <= RATE_LIMIT_DAILY cfg).
      { destruct (is_success r) eqn:S1; [|lia].
        destruct (Z.le_gt_cases (RATE_LIMIT_DAILY cfg) n) as [H|H]; [|lia].
        rewrite (R1 H) in S1. discriminate. }
      destruct (IH _ w1 T' B') as [T2 B2].
      destruct (serve cfg rest w1) as [rs w2]. cbn [fst snd] in *.
      assert (E : successes (r :: rs)
                  = (if is_success r then 1 else 0) + successes rs).
      { unfold successes. cbn [filter]. destruct (is_success r);
          cbn [List.length]; rewrite ?Nat2Z.inj_succ; lia. }
      rewrite E, Z.add_assoc. auto. }
  destruct (G 0 w) as [T B]; [unfold tidy; now rewrite Fresh | exact L |].
  split; [exact B|]. now apply daily_count_tidy.
Qed.

Lemma sequential_requests_respect_quota_witness :
  successes
    (fst (serve Fixtures.limit_5_ceiling_80
            (repeat (Fixtures.gemini_only Fixtures.dal_rice UpstreamFailure,
                     Fixtures.post Fixtures.image_body) 7)
            Fixtures.fresh))
  <= 5
  /\ daily_count Fixtures.alice Fixtures.a_day
       (ledger (snd (serve Fixtures.limit_5_ceiling_80
                       (repeat (Fixtures.gemini_only Fixtures.dal_rice
                                  UpstreamFailure,
                                Fixtures.post Fixtures.image_body) 7)
                       Fixtures.fresh)))
     = successes
         (fst (serve Fixtures.limit_5_ceiling_80
                 (repeat (Fixtures.gemini_only Fixtures.dal_rice
                            UpstreamFailure,
                          Fixtures.post Fixtures.image_body) 7)
                 Fixtures.fresh)).
Proof.
  apply (sequential_requests_respect_quota Fixtures.limit_5_ceiling_80
           Fixtures.alice Fixtures.a_day).
  - simpl. lia.
  - reflexivity.
  - simpl. repeat constructor; simpl;
      exists Fixtures.image_request; alice_passes.
Defined.

(** ** Trimming and the code fences *)

Lemma trimStart_blank ws s : blank ws -> trimStart (ws ++ s) = trimStart s.
Proof.
  unfold trimStart. induction 1 as [|c ws H _ IH]; simpl; [reflexivity|].
  now rewrite H.
Qed.

Lemma trimStart_head c s : isWhiteSpace c = false -> trimStart (c :: s) = c :: s.
Proof. unfold trimStart. simpl. now intros ->. Qed.

Lemma blank_rev ws : blank ws -> blank (rev ws).
Proof. unfold blank. apply Forall_rev. Qed.

Lemma trimEnd_blank ws s : blank ws -> trimEnd (s ++ ws) = trimEnd s.
Proof.
  intro B. unfold trimEnd. rewrite rev_app_distr.
  now rewrite (trimStart_blank _ _ (blank_rev _ B)).
Qed.

Lemma trimEnd_last c s : isWhiteSpace c = false -> trimEnd (s ++ [c]) = s ++ [c].
Proof.
  intro H. unfold trimEnd. rewrite rev_app_distr. simpl.
  rewrite (trimStart_head _ _ H). simpl. now rewrite rev_involutive.
Qed.

(** [trim] strips the white space around a text that begins and ends with
    something else. *)
Lemma trim_core ws0 a mid z ws3 :
  blank ws0 -> blank ws3 ->
  isWhiteSpace a = false -> isWhiteSpace z = false ->
  trim (ws0 ++ (a :: mid ++ [z]) ++ ws3) = a :: mid ++ [z].
Proof.
  intros B0 B3 Ha Hz. unfold trim.
  rewrite (trimStart_blank _ _ B0). simpl app at 1.
  rewrite (trimStart_head _ _ Ha).
  change (a :: (mid ++ [z]) ++ ws3) with ((a :: mid ++ [z]) ++ ws3).
  rewrite (trimEnd_blank _ _ B3).
  change (a :: mid ++ [z]) with ((a :: mid) ++ [z]).
  apply (trimEnd_last _ _ Hz).
Qed.

Lemma white_space_is_caseless c :
  isWhiteSpace c = true -> foldCase c = c /\ c <> 74%N /\ c <> 96%N
                           /\ c <> 123%N /\ c <> 125%N.
Proof.
  unfold isWhiteSpace, foldCase. intro H.
  destruct (N.leb_spec 97 c); simpl;
    [destruct (N.leb_spec c 122); simpl|].
  - exfalso.
    repeat match type of H with
           | context [(?a <=? ?b)%N] => destruct (N.leb_spec a b); simpl in H
           | context [(?a =? ?b)%N] => destruct (N.eqb_spec a b); simpl in H
           end; try discriminate; lia.
  - repeat match type of H with
           | context [(?a <=? ?b)%N] => destruct (N.leb_spec a b); simpl in H
           | context [(?a =? ?b)%N] => destruct (N.eqb_spec a b); simpl in H
           end; try discriminate; repeat split; lia.
  - repeat match type of H with
           | context [(?a <=? ?b)%N] => destruct (N.leb_spec a b); simpl in H
           | context [(?a =? ?b)%N] => destruct (N.eqb_spec a b); simpl in H
           end; try discriminate; repeat split; lia.
Qed.

Lemma startsWith_ci_app p p' r :
  map foldCase p = map foldCase p' -> startsWith_ci p (p' ++ r) = true.
Proof.
  revert p'. induction p as [|x p IH]; intros [|y p'] E; simpl in *;
    try discriminate; [reflexivity|].
  injection E as E1 E2. rewrite E1. unfold code_eqb. rewrite N.eqb_refl.
  now apply IH.
Qed.

Lemma skipn_len_app p p' (r : jsstring) :
  len p = len p' -> skipn (len p) (p' ++ r) = r.
Proof.
  intro E. rewrite E. unfold len.
  rewrite skipn_app, skipn_all, Nat.sub_diag. reflexivity.
Qed.

Lemma endsWith_app p s : endsWith p (s ++ p) = true.
Proof.
  unfold endsWith. rewrite rev_app_distr.
  induction (rev p) as [|x l IH]; simpl; [reflexivity|].
  unfold code_eqb. now rewrite N.eqb_refl.
Qed.

Lemma firstn_len_app (s p : jsstring) :
  firstn (len (s ++ p) - len p) (s ++ p) = s.
Proof.
  unfold len. rewrite length_app, Nat.add_sub.
  rewrite firstn_app, Nat.sub_diag, firstn_all. simpl. apply app_nil_r.
Qed.

(** The fence at the end goes together with the white space before it. *)
Lemma closing_fence_removed body ws2 :
  blank ws2 ->
  replace_ws_suffix (lit "```") (braced body ++ ws2 ++ lit "```")
  = braced body.
Proof.
  intro B. unfold replace_ws_suffix.
  rewrite app_assoc, endsWith_app, firstn_len_app.
  rewrite (trimEnd_blank _ _ B). unfold braced.
  change (123%N :: body ++ [125%N]) with ((123%N :: body) ++ [125%N]).
  now apply trimEnd_last.
Qed.

Lemma braced_is_clean body :
  trim (braced body) = braced body
  /\ replace_prefix_ws true (lit "```json") (braced body) = braced body
  /\ replace_prefix_ws true (lit "```jsons") (braced body) = braced body
  /\ replace_prefix_ws false (lit "```") (braced body) = braced body
  /\ replace_ws_suffix (lit "```") (braced body) = braced body
  /\ extract_object (braced body) = braced body.
Proof.
  split.
  { pose proof (trim_core [] 123%N body 125%N [] (Forall_nil _) (Forall_nil _)
                  eq_refl eq_refl) as T.
    simpl in T. rewrite app_nil_r in T. exact T. }
  repeat split; try reflexivity.
  unfold replace_ws_suffix, endsWith, braced.
  change (123%N :: body ++ [125%N]) with ((123%N :: body) ++ [125%N]).
  rewrite rev_app_distr. reflexivity.
Qed.

(** After the opening fence and its language tag. *)
Lemma opening_fence_removed tag ws1 rest :
  map foldCase tag = map foldCase (lit "json") \/ tag = [] ->
  blank ws1 ->
  replace_prefix_ws false (lit "```")
    (replace_prefix_ws true (lit "```jsons")
       (replace_prefix_ws true (lit "```json")
          (lit "```" ++ tag ++ ws1 ++ 123%N :: rest)))
  = 123%N :: rest
  /\ replace_prefix_ws false (lit "```")
       (replace_prefix_ws true (lit "```json")
          (lit "```" ++ tag ++ ws1 ++ 123%N :: rest))
     = 123%N :: rest.
Proof.
  intros [T| ->] B.
  - assert (E : replace_prefix_ws true (lit "```json")
                  (lit "```" ++ tag ++ ws1 ++ 123%N :: rest)
                = 123%N :: rest).
    { unfold replace_prefix_ws.
      assert (M : map foldCase (lit "```json")
                  = map foldCase (lit "```" ++ tag)).
      { rewrite map_app, T. reflexivity. }
      rewrite !app_assoc, <- (app_assoc _ ws1).
      rewrite (startsWith_ci_app _ _ _ M).
      rewrite skipn_len_app.
      - rewrite (trimStart_blank _ _ B). now apply trimStart_head.
      - unfold len. rewrite <- (length_map foldCase (lit "```" ++ tag)), <- M.
        now rewrite length_map. }
    rewrite E. split; reflexivity.
  - simpl app.
    assert (S1 : forall p,
               startsWith_ci (106%N :: p) (ws1 ++ 123%N :: rest) = false).
    { intro p. destruct B as [|c ws Hc _]; [reflexivity|].
      destruct (white_space_is_caseless c Hc) as (F & N74 & _).
      cbn [app startsWith_ci]. rewrite F.
      change (foldCase 106) with 74%N. unfold code_eqb.
      apply andb_false_iff. left. apply N.eqb_neq. congruence. }
    assert (N1 : forall p,
               replace_prefix_ws true (lit "```" ++ 106%N :: p)
                 (lit "```" ++ ws1 ++ 123%N :: rest)
               = lit "```" ++ ws1 ++ 123%N :: rest).
    { intro p. unfold replace_prefix_ws.
      change (startsWith_ci (lit "```" ++ 106%N :: p)
                (lit "```" ++ ws1 ++ 123%N :: rest))
        with (startsWith_ci (106%N :: p) (ws1 ++ 123%N :: rest)).
      now rewrite S1. }
    change (lit "```json") with (lit "```" ++ 106%N :: lit "son").
    change (lit "```jsons") with (lit "```" ++ 106%N :: lit "sons").
    rewrite !N1.
    assert (E : replace_prefix_ws false (lit "```")
                  (lit "```" ++ ws1 ++ 123%N :: rest) = 123%N :: rest).
    { unfold replace_prefix_ws. simpl.
      rewrite (trimStart_blank _ _ B). now apply trimStart_head. }
    rewrite E. split; reflexivity.
Qed.

Lemma fenced_shape tag ws1 body ws2 :
  exists mid,
    lit "```" ++ tag ++ ws1 ++ braced body ++ ws2 ++ lit "```"
    = 96%N :: mid ++ [96%N].
Proof.
  exists (lit "``" ++ tag ++ ws1 ++ braced body ++ ws2 ++ lit "``").
  simpl. repeat (rewrite <- app_assoc; simpl). reflexivity.
Qed.

Lemma fenced_candidates ws0 tag ws1 body ws2 ws3 :
  blank ws0 -> blank ws1 -> blank ws2 -> blank ws3 ->
  map foldCase tag = map foldCase (lit "json") \/ tag = [] ->
  GeminiHelper.candidate
    (ws0 ++ (lit "```" ++ tag ++ ws1 ++ braced body ++ ws2 ++ lit "```") ++ ws3)
  = braced body
  /\ GeminiTextHelper.candidate
       (ws0 ++ (lit "```" ++ tag ++ ws1 ++ braced body ++ ws2 ++ lit "```")
            ++ ws3)
     = braced body.
Proof.
  intros B0 B1 B2 B3 T.
  destruct (fenced_shape tag ws1 body ws2) as [mid E].
  assert (Tr : trim (ws0 ++ (lit "```" ++ tag ++ ws1 ++ braced body ++ ws2
                               ++ lit "```") ++ ws3)
               = lit "```" ++ tag ++ ws1 ++ braced body ++ ws2 ++ lit "```").
  { rewrite E. now apply trim_core. }
  destruct (opening_fence_removed tag ws1 (body ++ [125%N] ++ ws2 ++ lit "```")
              T B1) as [O1 O2].
  assert (Sh : lit "```" ++ tag ++ ws1 ++ braced body ++ ws2 ++ lit "```"
               = lit "```" ++ tag ++ ws1
                 ++ 123%N :: body ++ [125%N] ++ ws2 ++ lit "```").
  { unfold braced. simpl. now rewrite <- !app_assoc. }
  assert (Sh2 : 123%N :: body ++ [125%N] ++ ws2 ++ lit "```"
                = braced body ++ ws2 ++ lit "```").
  { unfold braced. simpl. now rewrite <- !app_assoc. }
  destruct (braced_is_clean body) as (C1 & _ & _ & _ & _ & C6).
  unfold GeminiHelper.candidate, GeminiTextHelper.candidate. cbv zeta.
  rewrite Tr, Sh, O1, O2, Sh2, (closing_fence_removed body ws2 B2), C1, C6.
  auto.
Qed.

Lemma plain_candidates body :
  GeminiHelper.candidate (braced body) = braced body
  /\ GeminiTextHelper.candidate (braced body) = braced body.
Proof.
  destruct (braced_is_clean body) as (C1 & C2 & C3 & C4 & C5 & C6).
  unfold GeminiHelper.candidate, GeminiTextHelper.candidate. cbv zeta.
  now rewrite C1, C2, C3, C4, C5, C1, C6.
Qed.

Lemma dropWhile_until (p : N -> bool) pre c r :
  Forall (fun x => p x = true) pre -> p c = false ->
  dropWhile p (pre ++ c :: r) = c :: r.
Proof.
  intros F H. induction F as [|x l Hx _ IH]; simpl; [now rewrite H|].
  now rewrite Hx.
Qed.

Lemma not_code_eqb c k : c <> k -> negb (code_eqb c k) = true.
Proof.
  intro H. unfold code_eqb. apply negb_true_iff. now apply N.eqb_neq.
Qed.

Lemma match_braces_span pre body post :
  Forall (fun c => c <> 123%N) pre ->
  Forall (fun c => c <> 125%N) post ->
  match_braces (pre ++ braced body ++ post) = Some (braced body).
Proof.
  intros Fpre Fpost. unfold match_braces, braced.
  assert (A : Forall (fun x => negb (code_eqb x 123) = true) pre).
  { eapply Forall_impl; [|exact Fpre]. intros c H. now apply not_code_eqb. }
  assert (B : Forall (fun x => negb (code_eqb x 125) = true) (rev post)).
  { apply Forall_rev. eapply Forall_impl; [|exact Fpost].
    intros c H. now apply not_code_eqb. }
  cbn [app]. rewrite (dropWhile_until _ pre 123%N _ A eq_refl).
  rewrite <- app_assoc. cbn [app].
  rewrite rev_app_distr. cbn [rev]. rewrite <- app_assoc. cbn [app].
  rewrite (dropWhile_until _ (rev post) 125%N _ B eq_refl).
  cbn [rev]. rewrite rev_involutive.
  destruct body; reflexivity.
Qed.

Lemma add_zero_absorbed (f : number -> AIUsageRecord -> number) l acc :
  (forall a r, f a r = add a (or_zero (estimated_cost r))) ->
  or_zero (fold_left f l (add acc zero)) = or_zero (fold_left f l acc).
Proof.
  intro Hf.
  destruct acc as [[|]|s| |s m e]; try reflexivity.
  change (add (S754_zero true) zero) with (S754_zero false).
  destruct l as [|r l]; [reflexivity|]. simpl. rewrite !Hf.
  assert (E : add (S754_zero false) (or_zero (estimated_cost r))
              = add (S754_zero true) (or_zero (estimated_cost r))).
  { unfold or_zero. destruct (estimated_cost r) as [[|]|[|]| |[|] ? ?];
      reflexivity. }
  now rewrite E.
Qed.

(** X15.  The normalizers of the two Gemini adapters see through a code
    fence: a JSON object wrapped in an opening fence, with the language tag
    [json] in any letter case or with no tag, and a closing fence, with any
    white space around the parts, is normalized exactly as the bare object.
    The OpenAI normalizer has no such step and rejects the fenced text. *)
Theorem code_fences_are_tolerated ws0 tag ws1 body ws2 ws3 :
  blank ws0 -> blank ws1 -> blank ws2 -> blank ws3 ->
  map foldCase tag = map foldCase (lit "json") \/ tag = [] ->
  GeminiHelper.parseAIResponse
    (ws0 ++ (lit "```" ++ tag ++ ws1 ++ braced body ++ ws2 ++ lit "```") ++ ws3)
  = GeminiHelper.parseAIResponse (braced body)
  /\ GeminiTextHelper.parseTextAnalysisResponse
       (ws0 ++ (lit "```" ++ tag ++ ws1 ++ braced body ++ ws2 ++ lit "```")
            ++ ws3)
     = GeminiTextHelper.parseTextAnalysisResponse (braced body)
  /\ OpenAIHelper.parseAIResponse
       (ws0 ++ (lit "```" ++ tag ++ ws1 ++ braced body ++ ws2 ++ lit "```")
            ++ ws3)
     = Err SyntaxError_of_JSON_parse.
Proof.
  intros B0 B1 B2 B3 T.
  destruct (fenced_candidates ws0 tag ws1 body ws2 ws3 B0 B1 B2 B3 T)
    as [G X].
  destruct (plain_candidates body) as [G' X'].
  unfold GeminiHelper.parseAIResponse,
    GeminiTextHelper.parseTextAnalysisResponse. cbv zeta.
  rewrite G, X, G', X'. split; [reflexivity|]. split; [reflexivity|].
  unfold OpenAIHelper.parseAIResponse.
  destruct (fenced_shape tag ws1 body ws2) as [mid E].
  rewrite E, (trim_core ws0 96%N mid 96%N ws3 B0 B3 eq_refl eq_refl).
  reflexivity.
Qed.

Lemma code_fences_are_tolerated_witness :
  GeminiHelper.parseAIResponse
    (jlit "```JSON
{'calories': 450, 'protein': 18.55, 'carbs': 65.2, 'fat': 12.3, 'confidence': 'high'}
```
")
  = GeminiHelper.parseAIResponse
      (jlit "{'calories': 450, 'protein': 18.55, 'carbs': 65.2, 'fat': 12.3, 'confidence': 'high'}").
Proof.
  apply (code_fences_are_tolerated [] (lit "JSON") [10%N]
           (jlit "'calories': 450, 'protein': 18.55, 'carbs': 65.2, 'fat': 12.3, 'confidence': 'high'")
           [10%N] [10%N]);
    try (repeat constructor).
Defined.

(** X16.  The second strategy of the Gemini normalizers takes the span from
    the first opening brace to the last closing brace, so prose in front of
    a JSON object, and behind it, is dropped; it is only tried when the
    text does not already start with a brace, so prose behind an object
    that opens the text stays. *)
Theorem leading_prose_is_stripped pre body post :
  Forall (fun c => c <> 123%N) pre ->
  Forall (fun c => c <> 125%N) post ->
  (pre <> [] -> extract_object (pre ++ braced body ++ post) = braced body)
  /\ extract_object (braced body ++ post) = braced body ++ post.
Proof.
  intros Fpre Fpost. split; [|reflexivity].
  intro NE. unfold extract_object.
  rewrite (match_braces_span pre body post Fpre Fpost).
  destruct Fpre as [|c l Hc _]; [now elim NE|].
  change (startsWith (lit "{") ((c :: l) ++ braced body ++ post))
    with (code_eqb 123 c && true).
  unfold code_eqb.
  destruct (N.eqb_spec 123 c) as [E|_]; [now elim Hc|reflexivity].
Qed.

Lemma leading_prose_is_stripped_witness :
  extract_object (jlit "Here you go: {'calories': 450} Enjoy!")
  = jlit "{'calories': 450}".
Proof.
  apply (proj1 (leading_prose_is_stripped (lit "Here you go: ")
                  (jlit "'calories': 450") (lit " Enjoy!")
                  ltac:(repeat constructor; discriminate)
                  ltac:(repeat constructor; discriminate))).
  discriminate.
Defined.

(** X17.  A row whose cost is missing, not a number, or zero does not
    change the monthly total, wherever it stands in the table. *)
Theorem costless_rows_do_not_count since t1 r t2 :
  JsNumber.truthy (estimated_cost r) = false ->
  monthly_cost since (t1 ++ r :: t2) = monthly_cost since (t1 ++ t2).
Proof.
  intro H. unfold monthly_cost. rewrite !filter_app. cbn [filter].
  destruct (Date_geb (usage_date r) since); [|reflexivity].
  rewrite !fold_left_app. cbn [fold_left].
  assert (Z0 : or_zero (estimated_cost r) = zero)
    by (unfold or_zero; now rewrite H).
  rewrite Z0. now apply add_zero_absorbed.
Qed.

Lemma costless_rows_do_not_count_witness :
  monthly_cost (firstDayOfMonth Fixtures.a_day)
    (ledger Fixtures.nearly_spent
     ++ {| user_id := Fixtures.alice; usage_date := Fixtures.a_day;
           calls := 1; estimated_cost := S754_nan |} :: [])
  = monthly_cost (firstDayOfMonth Fixtures.a_day)
      (ledger Fixtures.nearly_spent ++ []).
Proof.
  apply costless_rows_do_not_count. reflexivity.
Defined.

(** X18.  The quota comes before the budget and both come before the image
    probe: a user at the daily limit is answered for the quota without the
    monthly total being read, and a request stopped by either limit has
    made no probe, no inference and no write. *)
Theorem limits_precede_probe cfg env req id rd w :
  passes_identity env req id rd ->
  (under_quota cfg env id w = false ->
     handler cfg env req w
     = (Failure DailyRateLimitExceeded,
        logged [EvSelectDaily id (today env); EvGetUser (token_of req)] w))
  /\ (under_quota cfg env id w = true -> over_budget cfg env w = true ->
        handler cfg env req w
        = (Failure (MonthlyCostLimitReached (COST_LIMIT_MONTHLY_INR cfg)),
           logged [EvSelectMonthly (firstDayOfMonth (today env));
                   EvSelectDaily id (today env);
                   EvGetUser (token_of req)] w)).
Proof.
  intro P.
  pose proof (passes_identity_not_options env req id rd P) as Ho.
  pose proof (gate_after_identity cfg env req id rd w P) as G.
  cbv zeta in G. split.
  - intro Q. rewrite Q in G. simpl in G.
    exact (handler_of_gate cfg env req w _ _ Ho G).
  - intros Q B. rewrite Q, B in G. simpl in G.
    exact (handler_of_gate cfg env req w _ _ Ho G).
Qed.

Lemma limits_precede_probe_witness :
  handler Fixtures.limit_5_ceiling_80
          (Fixtures.gemini_only Fixtures.dal_rice UpstreamFailure)
          (Fixtures.post Fixtures.image_body)
          {| ledger := [{| user_id := Fixtures.alice;
                           usage_date := Fixtures.a_day; calls := 5;
                           estimated_cost := of_Z 90 |}];
             trace := [] |}
  = (Failure DailyRateLimitExceeded,
     logged [EvSelectDaily Fixtures.alice Fixtures.a_day;
             EvGetUser (token_of (Fixtures.post Fixtures.image_body))]
            {| ledger := [{| user_id := Fixtures.alice;
                             usage_date := Fixtures.a_day; calls := 5;
                             estimated_cost := of_Z 90 |}];
               trace := [] |}).
Proof.
  apply (proj1 (limits_precede_probe Fixtures.limit_5_ceiling_80
                  (Fixtures.gemini_only Fixtures.dal_rice UpstreamFailure)
                  (Fixtures.post Fixtures.image_body)
                  Fixtures.alice Fixtures.image_request _
                  ltac:(alice_passes))).
  vm_compute. reflexivity.
Defined.

(** X19.  The credential is checked before the body is read: with a
    credential that the verifier rejects the answer is 401 whatever the
    body; with a good credential, a body that is not JSON is answered 500
    ("Internal server error"), not 400, and a body that fails validation is
    answered 400; none of these touches the usage table. *)
Theorem body_errors_after_credential cfg env req w c h :
  method req = lit "POST" ->
  authorization req = Some (c :: h) ->
  (forall message,
      getUser env (remove_first (lit "Bearer ") (c :: h)) = AuthError message ->
      exists details,
        handler cfg env req w
        = (Failure (Unauthorized details),
           logged [EvGetUser (token_of req)] w))
  /\ (forall id,
        getUser env (remove_first (lit "Bearer ") (c :: h)) = User id ->
        JSON_parse (body req) = None ->
        handler cfg env req w
        = (Failure InternalServerError, logged [EvGetUser (token_of req)] w)
        /\ status_of InternalServerError = 500)
  /\ (forall id data message,
        getUser env (remove_first (lit "Bearer ") (c :: h)) = User id ->
        JSON_parse (body req) = Some data ->
        validateRequest env data = Err (ValidationError message) ->
        handler cfg env req w
        = (Failure (ValidationFailed message),
           logged [EvGetUser (token_of req)] w)
        /\ status_of (ValidationFailed message) = 400).
Proof.
  intros Hm Ha.
  split; [|split].
  - intros message Hu. eexists.
    unfold handler, process, gate, token_of, logged. unfold_monad.
    rewrite Hm, Ha, Hu. reflexivity.
  - intros id Hu Hj. split; [|reflexivity].
    unfold handler, process, gate, req_json, token_of, logged. unfold_monad.
    rewrite Hm, Ha, Hu, Hj. reflexivity.
  - intros id data message Hu Hj Hv. split; [|reflexivity].
    unfold handler, process, gate, req_json, token_of, logged. unfold_monad.
    rewrite Hm, Ha, Hu, Hj, Hv. reflexivity.
Qed.

Lemma body_errors_after_credential_witness :
  handler CONFIG (Fixtures.gemini_only Fixtures.dal_rice UpstreamFailure)
          (Fixtures.post (lit "{user_id: 1"))
          Fixtures.fresh
  = (Failure InternalServerError,
     logged [EvGetUser (lit "token-of-alice")] Fixtures.fresh)
  /\ status_of InternalServerError = 500.
Proof.
  destruct (body_errors_after_credential CONFIG
              (Fixtures.gemini_only Fixtures.dal_rice UpstreamFailure)
              (Fixtures.post (lit "{user_id: 1")) Fixtures.fresh
              66%N (List.tl (lit "Bearer token-of-alice"))
              ltac:(reflexivity) ltac:(reflexivity)) as (_ & NotJson & _).
  apply (NotJson Fixtures.alice); vm_compute; reflexivity.
Defined.
